(** * glxGraphicsWindow: a shallow embedding of panda/src/glxdisplay/glxGraphicsWindow.cxx

    The development follows the C++ translation unit function by function:
    [move_pointer], [process_events] (with [check_event], [poll_raw_mice],
    [handle_keystroke], [handle_keypress], [handle_keyrelease], [get_button],
    [get_mouse_button]), [set_properties_now], [close_window] and
    [set_wm_properties].

    - The object is a record [glxGraphicsWindow]; every method takes the
      object and returns the updated object (explicit state passing).
    - Requests written to the X connection are appended to [x_requests];
      what reaches the engine ([throw_event], the notification of
      [system_changed_properties]) is appended to [engine_log]; button and
      keystroke events are appended to the event list of the input device
      that received them.
    - Everything the translation unit calls but does not define is a field
      of the classes [Platform] (Xlib, libc, configuration) and
      [GraphicsWindowBase] (the methods of the base class GraphicsWindow
      that are reached through an explicit [GraphicsWindow::] call).
    - The running coordinates of a raw mouse are C [int]s: their
      additions wrap around at 32 bits ([int_wrap]).
    - Xlib allocators ([XAllocSizeHints], [XAllocWMHints],
      [XAllocClassHint], [XStringListToTextProperty]) are taken to succeed;
      diagnostic output on the notify categories is not modelled.
    - [open_window], the two [setup_colormap] functions, [open_raw_mice],
      [begin_frame] and [begin_flip] are embedded after the observations,
      each with the answers of what it calls passed in: the device nodes
      ([DeviceNode]), the thread's GLX binding ([GLXCurrent]) and the
      class [OpenCollaborators] (the GLX graphics state guardian, the
      pipe and the server).  None of them assigns [_awaiting_configure]
      ([begin_frame] only reads it).  [end_frame] is a sequence of calls
      into the guardian and the base class and is not embedded. *)

From stdpp Require Import base numbers list strings gmap.
From Stdlib Require Import Ascii.

Local Open Scope Z_scope.

(** ** Xlib: constants, events and requests *)

Module X11.

Definition Window := Z.
Definition Atom := Z.
Definition XIC := Z.
Definition Cursor := Z.
Definition KeySym := Z.

Definition None_ : Z := 0.
Definition PointerRoot : Z := 1.
Definition RevertToPointerRoot : Z := 1.
Definition CurrentTime : Z := 0.
Definition XA_ATOM : Atom := 4.

(* XConfigureWindow value mask *)
Definition CWX : Z := 1.
Definition CWY : Z := 2.
Definition CWWidth : Z := 4.
Definition CWHeight : Z := 8.
Definition CWStackMode : Z := 64.

(* stacking modes *)
Definition Above : Z := 0.
Definition Below : Z := 1.
Definition TopIf : Z := 2.

(* XSizeHints flags *)
Definition USPosition : Z := 1.
Definition USSize : Z := 2.
Definition PMinSize : Z := 16.
Definition PMaxSize : Z := 32.

(* XWMHints *)
Definition StateHint : Z := 2.
Definition NormalState : Z := 1.
Definition IconicState : Z := 3.

(** [Time] is an [unsigned long]; subtraction wraps modulo 2^64 (LP64). *)
Definition ulong_modulus : Z := 2 ^ 64.
Definition ulong_sub (a b : Z) : Z := (a - b) `mod` ulong_modulus.

Record XKeyEvent := {
  xkey_keycode : Z;
  xkey_time : Z;
  xkey_state : Z;
  xkey_x : Z;
  xkey_y : Z }.

Record XButtonEvent := {
  xbutton_button : Z;
  xbutton_x : Z;
  xbutton_y : Z }.

(** The union [XEvent], one constructor per value of [event.type] that
    the switch of [process_events] names; [OtherEvent] carries any other
    type code. *)
Inductive XEventData :=
| ReparentNotify
| ConfigureNotify (width height : Z)
| ButtonPress (xbutton : XButtonEvent)
| ButtonRelease (xbutton : XButtonEvent)
| MotionNotify (x y : Z)
| KeyPress (xkey : XKeyEvent)
| KeyRelease (xkey : XKeyEvent)
| EnterNotify (x y : Z)
| LeaveNotify
| FocusIn
| FocusOut
| UnmapNotify
| MapNotify
| ClientMessage (data_l0 : Z)
| DestroyNotify
| OtherEvent (type : Z).

Record XEvent := {
  xany_window : Window;
  xevent : XEventData }.

Record XWindowChanges := {
  changes_x : option Z;
  changes_y : option Z;
  changes_width : option Z;
  changes_height : option Z;
  changes_stack_mode : option Z }.

Definition no_changes : XWindowChanges :=
  {| changes_x := None; changes_y := None; changes_width := None;
     changes_height := None; changes_stack_mode := None |}.

(** [XAllocSizeHints] returns a zeroed structure. *)
Record XSizeHints := {
  sh_flags : Z;
  sh_x : Z; sh_y : Z;
  sh_width : Z; sh_height : Z;
  sh_min_width : Z; sh_min_height : Z;
  sh_max_width : Z; sh_max_height : Z }.

Definition XAllocSizeHints : XSizeHints :=
  {| sh_flags := 0; sh_x := 0; sh_y := 0; sh_width := 0; sh_height := 0;
     sh_min_width := 0; sh_min_height := 0;
     sh_max_width := 0; sh_max_height := 0 |}.

Record XWMHints := {
  wmh_flags : Z;
  wmh_initial_state : Z }.

(** The client message built in [set_wm_properties]:
    [data.l[0]] is the action, [data.l[1]] the state atom. *)
Record XClientMessageEvent := {
  cm_window : Window;
  cm_message_type : Atom;
  cm_format : Z;
  cm_l0 : Z; cm_l1 : Z; cm_l2 : Z; cm_l3 : Z }.

(** Requests written to the display connection. *)
Inductive XRequest :=
| XWarpPointer (dest : Window) (x y : Z)
| XConfigureWindow (w : Window) (value_mask : Z) (changes : XWindowChanges)
| XReconfigureWMWindow (w : Window) (screen : Z) (value_mask : Z)
                       (changes : XWindowChanges)
| XDefineCursor (w : Window) (cursor : Cursor)
| XSetInputFocus (focus : Window) (revert_to : Z) (time : Z)
| XChangeProperty (w : Window) (property type : Atom) (data : list Z)
| XSendEvent (w : Window) (event : XClientMessageEvent)
| XSetWMProperties (w : Window) (window_name : option string)
                   (size_hints : option XSizeHints) (wm_hints : XWMHints)
                   (res_class : option string)
| XSetWMProtocols (w : Window) (protocols : list Atom)
| XDestroyIC (ic : XIC)
| XDestroyWindow (w : Window)
| XFlush
| glXMakeCurrent (drawable : Window) (context : option Z).

End X11.
Import X11.

(** ** WindowProperties *)

Inductive ZOrder := Z_bottom | Z_normal | Z_top.

(** Modelled from the spec: the class WindowProperties (windowProperties.h
    is not part of the sources at hand).  "Each attribute is independently
    present or absent"; a getter of an absent attribute returns the
    default ([false], [0], [Z_normal], the empty title). *)
Record WindowProperties := {
  wp_origin : option (Z * Z);
  wp_size : option (Z * Z);
  wp_title : option string;
  wp_undecorated : option bool;
  wp_fixed_size : option bool;
  wp_fullscreen : option bool;
  wp_foreground : option bool;
  wp_minimized : option bool;
  wp_raw_mice : option bool;
  wp_open : option bool;
  wp_cursor_hidden : option bool;
  wp_z_order : option ZOrder }.

Module WP.

Definition present {A} (o : option A) : bool :=
  match o with Some _ => true | None => false end.

Definition empty : WindowProperties :=
  {| wp_origin := None; wp_size := None; wp_title := None;
     wp_undecorated := None; wp_fixed_size := None; wp_fullscreen := None;
     wp_foreground := None; wp_minimized := None; wp_raw_mice := None;
     wp_open := None; wp_cursor_hidden := None; wp_z_order := None |}.

Definition with_origin (v : option (Z * Z)) (p : WindowProperties) :=
  {| wp_origin := v; wp_size := wp_size p; wp_title := wp_title p;
     wp_undecorated := wp_undecorated p; wp_fixed_size := wp_fixed_size p;
     wp_fullscreen := wp_fullscreen p; wp_foreground := wp_foreground p;
     wp_minimized := wp_minimized p; wp_raw_mice := wp_raw_mice p;
     wp_open := wp_open p; wp_cursor_hidden := wp_cursor_hidden p;
     wp_z_order := wp_z_order p |}.

Definition with_size (v : option (Z * Z)) (p : WindowProperties) :=
  {| wp_origin := wp_origin p; wp_size := v; wp_title := wp_title p;
     wp_undecorated := wp_undecorated p; wp_fixed_size := wp_fixed_size p;
     wp_fullscreen := wp_fullscreen p; wp_foreground := wp_foreground p;
     wp_minimized := wp_minimized p; wp_raw_mice := wp_raw_mice p;
     wp_open := wp_open p; wp_cursor_hidden := wp_cursor_hidden p;
     wp_z_order := wp_z_order p |}.

Definition with_title (v : option string) (p : WindowProperties) :=
  {| wp_origin := wp_origin p; wp_size := wp_size p; wp_title := v;
     wp_undecorated := wp_undecorated p; wp_fixed_size := wp_fixed_size p;
     wp_fullscreen := wp_fullscreen p; wp_foreground := wp_foreground p;
     wp_minimized := wp_minimized p; wp_raw_mice := wp_raw_mice p;
     wp_open := wp_open p; wp_cursor_hidden := wp_cursor_hidden p;
     wp_z_order := wp_z_order p |}.

Definition with_undecorated (v : option bool) (p : WindowProperties) :=
  {| wp_origin := wp_origin p; wp_size := wp_size p; wp_title := wp_title p;
     wp_undecorated := v; wp_fixed_size := wp_fixed_size p;
     wp_fullscreen := wp_fullscreen p; wp_foreground := wp_foreground p;
     wp_minimized := wp_minimized p; wp_raw_mice := wp_raw_mice p;
     wp_open := wp_open p; wp_cursor_hidden := wp_cursor_hidden p;
     wp_z_order := wp_z_order p |}.

Definition with_fullscreen (v : option bool) (p : WindowProperties) :=
  {| wp_origin := wp_origin p; wp_size := wp_size p; wp_title := wp_title p;
     wp_undecorated := wp_undecorated p; wp_fixed_size := wp_fixed_size p;
     wp_fullscreen := v; wp_foreground := wp_foreground p;
     wp_minimized := wp_minimized p; wp_raw_mice := wp_raw_mice p;
     wp_open := wp_open p; wp_cursor_hidden := wp_cursor_hidden p;
     wp_z_order := wp_z_order p |}.

Definition with_foreground (v : option bool) (p : WindowProperties) :=
  {| wp_origin := wp_origin p; wp_size := wp_size p; wp_title := wp_title p;
     wp_undecorated := wp_undecorated p; wp_fixed_size := wp_fixed_size p;
     wp_fullscreen := wp_fullscreen p; wp_foreground := v;
     wp_minimized := wp_minimized p; wp_raw_mice := wp_raw_mice p;
     wp_open := wp_open p; wp_cursor_hidden := wp_cursor_hidden p;
     wp_z_order := wp_z_order p |}.

Definition with_minimized (v : option bool) (p : WindowProperties) :=
  {| wp_origin := wp_origin p; wp_size := wp_size p; wp_title := wp_title p;
     wp_undecorated := wp_undecorated p; wp_fixed_size := wp_fixed_size p;
     wp_fullscreen := wp_fullscreen p; wp_foreground := wp_foreground p;
     wp_minimized := v; wp_raw_mice := wp_raw_mice p;
     wp_open := wp_open p; wp_cursor_hidden := wp_cursor_hidden p;
     wp_z_order := wp_z_order p |}.

Definition with_open (v : option bool) (p : WindowProperties) :=
  {| wp_origin := wp_origin p; wp_size := wp_size p; wp_title := wp_title p;
     wp_undecorated := wp_undecorated p; wp_fixed_size := wp_fixed_size p;
     wp_fullscreen := wp_fullscreen p; wp_foreground := wp_foreground p;
     wp_minimized := wp_minimized p; wp_raw_mice := wp_raw_mice p;
     wp_open := v; wp_cursor_hidden := wp_cursor_hidden p;
     wp_z_order := wp_z_order p |}.

Definition with_cursor_hidden (v : option bool) (p : WindowProperties) :=
  {| wp_origin := wp_origin p; wp_size := wp_size p; wp_title := wp_title p;
     wp_undecorated := wp_undecorated p; wp_fixed_size := wp_fixed_size p;
     wp_fullscreen := wp_fullscreen p; wp_foreground := wp_foreground p;
     wp_minimized := wp_minimized p; wp_raw_mice := wp_raw_mice p;
     wp_open := wp_open p; wp_cursor_hidden := v;
     wp_z_order := wp_z_order p |}.

Definition with_z_order (v : option ZOrder) (p : WindowProperties) :=
  {| wp_origin := wp_origin p; wp_size := wp_size p; wp_title := wp_title p;
     wp_undecorated := wp_undecorated p; wp_fixed_size := wp_fixed_size p;
     wp_fullscreen := wp_fullscreen p; wp_foreground := wp_foreground p;
     wp_minimized := wp_minimized p; wp_raw_mice := wp_raw_mice p;
     wp_open := wp_open p; wp_cursor_hidden := wp_cursor_hidden p;
     wp_z_order := v |}.

Definition has_origin p := present (wp_origin p).
Definition has_size p := present (wp_size p).
Definition has_title p := present (wp_title p).
Definition has_fullscreen p := present (wp_fullscreen p).
Definition has_fixed_size p := present (wp_fixed_size p).
Definition has_foreground p := present (wp_foreground p).
Definition has_minimized p := present (wp_minimized p).
Definition has_cursor_hidden p := present (wp_cursor_hidden p).
Definition has_z_order p := present (wp_z_order p).

Definition get_x_origin p := default 0 (fst <$> wp_origin p).
Definition get_y_origin p := default 0 (snd <$> wp_origin p).
Definition get_x_size p := default 0 (fst <$> wp_size p).
Definition get_y_size p := default 0 (snd <$> wp_size p).
Definition get_title p := default EmptyString (wp_title p).
Definition get_undecorated p := default false (wp_undecorated p).
Definition get_fixed_size p := default false (wp_fixed_size p).
Definition get_fullscreen p := default false (wp_fullscreen p).
Definition get_foreground p := default false (wp_foreground p).
Definition get_minimized p := default false (wp_minimized p).
Definition get_raw_mice p := default false (wp_raw_mice p).
Definition get_cursor_hidden p := default false (wp_cursor_hidden p).
Definition get_z_order p := default Z_normal (wp_z_order p).

Definition set_origin (x y : Z) := with_origin (Some (x, y)).
Definition set_size (x y : Z) := with_size (Some (x, y)).
Definition set_title (t : string) := with_title (Some t).
Definition set_undecorated (b : bool) := with_undecorated (Some b).
Definition set_fullscreen (b : bool) := with_fullscreen (Some b).
Definition set_foreground (b : bool) := with_foreground (Some b).
Definition set_minimized (b : bool) := with_minimized (Some b).
Definition set_open (b : bool) := with_open (Some b).
Definition set_cursor_hidden (b : bool) := with_cursor_hidden (Some b).
Definition set_z_order (z : ZOrder) := with_z_order (Some z).

Definition clear_origin := with_origin None.
Definition clear_size := with_size None.
Definition clear_title := with_title None.
Definition clear_fullscreen := with_fullscreen None.
Definition clear_foreground := with_foreground None.
Definition clear_cursor_hidden := with_cursor_hidden None.
Definition clear_z_order := with_z_order None.

Definition is_any_specified (p : WindowProperties) : bool :=
  present (wp_origin p) || present (wp_size p)
  || present (wp_title p)
  || present (wp_undecorated p)
  || present (wp_fixed_size p)
  || present (wp_fullscreen p)
  || present (wp_foreground p)
  || present (wp_minimized p)
  || present (wp_raw_mice p)
  || present (wp_open p)
  || present (wp_cursor_hidden p)
  || present (wp_z_order p).

(** An attribute present in [other] replaces the one of [p]. *)
Definition override {A} (mine theirs : option A) : option A :=
  match theirs with Some v => Some v | None => mine end.

Definition add_properties (p other : WindowProperties) : WindowProperties :=
  {| wp_origin := override (wp_origin p) (wp_origin other);
     wp_size := override (wp_size p) (wp_size other);
     wp_title := override (wp_title p) (wp_title other);
     wp_undecorated := override (wp_undecorated p) (wp_undecorated other);
     wp_fixed_size := override (wp_fixed_size p) (wp_fixed_size other);
     wp_fullscreen := override (wp_fullscreen p) (wp_fullscreen other);
     wp_foreground := override (wp_foreground p) (wp_foreground other);
     wp_minimized := override (wp_minimized p) (wp_minimized other);
     wp_raw_mice := override (wp_raw_mice p) (wp_raw_mice other);
     wp_open := override (wp_open p) (wp_open other);
     wp_cursor_hidden :=
       override (wp_cursor_hidden p) (wp_cursor_hidden other);
     wp_z_order := override (wp_z_order p) (wp_z_order other) |}.

End WP.

(** ** Buttons and input devices *)

(** Modelled from the spec: the button identifiers of ButtonHandle,
    KeyboardButton and MouseButton (buttonHandle.h, keyboardButton.h and
    mouseButton.h are not part of the sources at hand).  [Button_none] is
    [ButtonHandle::none()], [Key_ascii c] is [KeyboardButton::ascii_key(c)],
    [Key_x] is [KeyboardButton::x()], [Mouse_button n] is
    [MouseButton::button(n)]. *)
Inductive ButtonHandle :=
| Button_none
| Key_ascii (c : Z)
| Key_backspace | Key_tab | Key_enter | Key_escape | Key_space
| Key_f1 | Key_f2 | Key_f3 | Key_f4 | Key_f5 | Key_f6
| Key_f7 | Key_f8 | Key_f9 | Key_f10 | Key_f11 | Key_f12
| Key_left | Key_up | Key_right | Key_down
| Key_page_up | Key_page_down | Key_home | Key_end
| Key_insert | Key_del
| Key_shift | Key_control | Key_alt | Key_meta
| Key_caps_lock | Key_shift_lock
| Mouse_button (n : Z)
| Mouse_wheel_up
| Mouse_wheel_down.

#[global] Instance ButtonHandle_eq_dec : EqDecision ButtonHandle.
Proof. solve_decision. Defined.

(** What an input device hands to the engine. *)
Inductive InputEvent :=
| ButtonDown (button : ButtonHandle)
| ButtonUp (button : ButtonHandle)
| Keystroke (keycode : Z).

#[global] Instance InputEvent_eq_dec : EqDecision InputEvent.
Proof. solve_decision. Defined.

Record MouseData := {
  md_in_window : bool;
  md_x : Z;
  md_y : Z }.

(** Modelled from the spec: GraphicsWindowInputDevice, the "input-device
    sink" (graphicsWindowInputDevice.h is not part of the sources at hand):
    a pointer position with its inside-the-window mark, and the button and
    keystroke events received so far, oldest first. *)
Record GraphicsWindowInputDevice := {
  dev_name : string;
  dev_pointer : MouseData;
  dev_events : list InputEvent }.

Module Device.

Definition pointer_and_keyboard (name : string) : GraphicsWindowInputDevice :=
  {| dev_name := name;
     dev_pointer := {| md_in_window := false; md_x := 0; md_y := 0 |};
     dev_events := [] |}.

Definition get_pointer (d : GraphicsWindowInputDevice) := dev_pointer d.
Definition get_raw_pointer (d : GraphicsWindowInputDevice) := dev_pointer d.

Definition set_pointer_in_window (x y : Z) (d : GraphicsWindowInputDevice) :=
  {| dev_name := dev_name d;
     dev_pointer := {| md_in_window := true; md_x := x; md_y := y |};
     dev_events := dev_events d |}.

Definition set_pointer_out_of_window (d : GraphicsWindowInputDevice) :=
  {| dev_name := dev_name d;
     dev_pointer := {| md_in_window := false;
                       md_x := md_x (dev_pointer d);
                       md_y := md_y (dev_pointer d) |};
     dev_events := dev_events d |}.

Definition emit (e : InputEvent) (d : GraphicsWindowInputDevice) :=
  {| dev_name := dev_name d;
     dev_pointer := dev_pointer d;
     dev_events := dev_events d ++ [e] |}.

Definition button_down (b : ButtonHandle) := emit (ButtonDown b).
Definition button_up (b : ButtonHandle) := emit (ButtonUp b).
Definition keystroke (c : Z) := emit (Keystroke c).

End Device.

(** ** Raw mice: the kernel interface *)

Module Linux.

Definition EV_KEY : Z := 1.
Definition EV_REL : Z := 2.
Definition EV_ABS : Z := 3.
Definition REL_X : Z := 0.
Definition REL_Y : Z := 1.
Definition ABS_X : Z := 0.
Definition ABS_Y : Z := 1.
Definition BTN_MOUSE : Z := 272.
Definition EAGAIN : Z := 11.
Definition EWOULDBLOCK : Z := 11.

(** [struct input_event] without its time stamp: [type] and [code] are
    [__u16], [value] is [__s32]. *)
Record input_event := {
  ie_type : Z;
  ie_code : Z;
  ie_value : Z }.

(** One call of [read(fd, tbuf, sizeof(tbuf))]: the bytes read ([nread] is
    their number, 0 at end of file), or -1 with an [errno]. *)
Inductive ReadResult :=
| Read_bytes (bytes : list Byte.byte)
| Read_error (errno : Z).

End Linux.
Import Linux.

Record MouseDeviceInfo := {
  _fd : Z;
  _input_device_index : Z;
  _io_buffer : list Byte.byte }.

(** What the device files will answer to the coming reads, per
    descriptor; a descriptor with nothing pending answers EAGAIN. *)
Abbreviation RawInput := (gmap Z (list ReadResult)).

(** ** The window object *)

Record glxGraphicsPipe := {
  pipe_display_width : Z;
  pipe_display_height : Z;
  pipe_root : Window;
  pipe_hidden_cursor : Cursor }.

Record GraphicsStateGuardian := {
  gsg_context : Z }.

(** The atoms the constructor copies from the pipe. *)
Record WMAtoms := {
  _wm_delete_window : Atom;
  _net_wm_window_type : Atom;
  _net_wm_window_type_splash : Atom;
  _net_wm_window_type_fullscreen : Atom;
  _net_wm_state : Atom;
  _net_wm_state_fullscreen : Atom;
  _net_wm_state_above : Atom;
  _net_wm_state_below : Atom;
  _net_wm_state_add : Atom;
  _net_wm_state_remove : Atom }.

Inductive EngineEvent :=
| Thrown (event_name : string)
| PropertiesChanged (delta : WindowProperties).

Record glxGraphicsWindow := {
  (* members inherited from GraphicsOutput and GraphicsWindow *)
  _pipe : option glxGraphicsPipe;
  _gsg : option GraphicsStateGuardian;
  _active : bool;
  _properties : WindowProperties;
  _input_devices : list GraphicsWindowInputDevice;
  _close_request_event : string;
  (* members of glxGraphicsWindow *)
  _screen : Z;
  _xwindow : Window;
  _ic : XIC;
  _awaiting_configure : bool;
  _atoms : WMAtoms;
  _mouse_device_info : list MouseDeviceInfo;
  (* what the object has written so far *)
  x_requests : list XRequest;
  engine_log : list EngineEvent }.

Module Win.

Definition with_gsg (v : option GraphicsStateGuardian) (s : glxGraphicsWindow) :=
  {| _pipe := _pipe s; _gsg := v; _active := _active s;
     _properties := _properties s; _input_devices := _input_devices s;
     _close_request_event := _close_request_event s; _screen := _screen s;
     _xwindow := _xwindow s; _ic := _ic s;
     _awaiting_configure := _awaiting_configure s; _atoms := _atoms s;
     _mouse_device_info := _mouse_device_info s;
     x_requests := x_requests s; engine_log := engine_log s |}.

Definition with_active (v : bool) (s : glxGraphicsWindow) :=
  {| _pipe := _pipe s; _gsg := _gsg s; _active := v;
     _properties := _properties s; _input_devices := _input_devices s;
     _close_request_event := _close_request_event s; _screen := _screen s;
     _xwindow := _xwindow s; _ic := _ic s;
     _awaiting_configure := _awaiting_configure s; _atoms := _atoms s;
     _mouse_device_info := _mouse_device_info s;
     x_requests := x_requests s; engine_log := engine_log s |}.

Definition with_properties (v : WindowProperties) (s : glxGraphicsWindow) :=
  {| _pipe := _pipe s; _gsg := _gsg s; _active := _active s;
     _properties := v; _input_devices := _input_devices s;
     _close_request_event := _close_request_event s; _screen := _screen s;
     _xwindow := _xwindow s; _ic := _ic s;
     _awaiting_configure := _awaiting_configure s; _atoms := _atoms s;
     _mouse_device_info := _mouse_device_info s;
     x_requests := x_requests s; engine_log := engine_log s |}.

Definition with_input_devices (v : list GraphicsWindowInputDevice)
    (s : glxGraphicsWindow) :=
  {| _pipe := _pipe s; _gsg := _gsg s; _active := _active s;
     _properties := _properties s; _input_devices := v;
     _close_request_event := _close_request_event s; _screen := _screen s;
     _xwindow := _xwindow s; _ic := _ic s;
     _awaiting_configure := _awaiting_configure s; _atoms := _atoms s;
     _mouse_device_info := _mouse_device_info s;
     x_requests := x_requests s; engine_log := engine_log s |}.

Definition with_xwindow (v : Window) (s : glxGraphicsWindow) :=
  {| _pipe := _pipe s; _gsg := _gsg s; _active := _active s;
     _properties := _properties s; _input_devices := _input_devices s;
     _close_request_event := _close_request_event s; _screen := _screen s;
     _xwindow := v; _ic := _ic s;
     _awaiting_configure := _awaiting_configure s; _atoms := _atoms s;
     _mouse_device_info := _mouse_device_info s;
     x_requests := x_requests s; engine_log := engine_log s |}.

Definition with_ic (v : XIC) (s : glxGraphicsWindow) :=
  {| _pipe := _pipe s; _gsg := _gsg s; _active := _active s;
     _properties := _properties s; _input_devices := _input_devices s;
     _close_request_event := _close_request_event s; _screen := _screen s;
     _xwindow := _xwindow s; _ic := v;
     _awaiting_configure := _awaiting_configure s; _atoms := _atoms s;
     _mouse_device_info := _mouse_device_info s;
     x_requests := x_requests s; engine_log := engine_log s |}.

Definition with_awaiting_configure (v : bool) (s : glxGraphicsWindow) :=
  {| _pipe := _pipe s; _gsg := _gsg s; _active := _active s;
     _properties := _properties s; _input_devices := _input_devices s;
     _close_request_event := _close_request_event s; _screen := _screen s;
     _xwindow := _xwindow s; _ic := _ic s;
     _awaiting_configure := v; _atoms := _atoms s;
     _mouse_device_info := _mouse_device_info s;
     x_requests := x_requests s; engine_log := engine_log s |}.

Definition with_mouse_device_info (v : list MouseDeviceInfo)
    (s : glxGraphicsWindow) :=
  {| _pipe := _pipe s; _gsg := _gsg s; _active := _active s;
     _properties := _properties s; _input_devices := _input_devices s;
     _close_request_event := _close_request_event s; _screen := _screen s;
     _xwindow := _xwindow s; _ic := _ic s;
     _awaiting_configure := _awaiting_configure s; _atoms := _atoms s;
     _mouse_device_info := v;
     x_requests := x_requests s; engine_log := engine_log s |}.

Definition with_x_requests (v : list XRequest) (s : glxGraphicsWindow) :=
  {| _pipe := _pipe s; _gsg := _gsg s; _active := _active s;
     _properties := _properties s; _input_devices := _input_devices s;
     _close_request_event := _close_request_event s; _screen := _screen s;
     _xwindow := _xwindow s; _ic := _ic s;
     _awaiting_configure := _awaiting_configure s; _atoms := _atoms s;
     _mouse_device_info := _mouse_device_info s;
     x_requests := v; engine_log := engine_log s |}.

(** Append a request to the connection. *)
Definition xcall (r : XRequest) (s : glxGraphicsWindow) :=
  {| _pipe := _pipe s; _gsg := _gsg s; _active := _active s;
     _properties := _properties s; _input_devices := _input_devices s;
     _close_request_event := _close_request_event s; _screen := _screen s;
     _xwindow := _xwindow s; _ic := _ic s;
     _awaiting_configure := _awaiting_configure s; _atoms := _atoms s;
     _mouse_device_info := _mouse_device_info s;
     x_requests := x_requests s ++ [r]; engine_log := engine_log s |}.

Definition tell_engine (e : EngineEvent) (s : glxGraphicsWindow) :=
  {| _pipe := _pipe s; _gsg := _gsg s; _active := _active s;
     _properties := _properties s; _input_devices := _input_devices s;
     _close_request_event := _close_request_event s; _screen := _screen s;
     _xwindow := _xwindow s; _ic := _ic s;
     _awaiting_configure := _awaiting_configure s; _atoms := _atoms s;
     _mouse_device_info := _mouse_device_info s;
     x_requests := x_requests s; engine_log := engine_log s ++ [e] |}.

(** [_input_devices[i].f(...)]; indexing past the end of the vector is
    undefined in the source and leaves the object unchanged here. *)
Definition on_device (i : nat)
    (f : GraphicsWindowInputDevice → GraphicsWindowInputDevice)
    (s : glxGraphicsWindow) :=
  with_input_devices (alter f i (_input_devices s)) s.

End Win.

(** ** What the translation unit calls but does not define *)

(** Xlib and libc entry points whose answer depends on the server or the
    kernel, the methods of ButtonHandle, and the configuration variables
    of config_glxdisplay.h. *)
Class Platform := {
  (** [XFilterEvent(&event, None)] *)
  XFilterEvent : XEvent → bool;
  (** [XLookupKeysym(&key_event, 0)] *)
  XLookupKeysym : XKeyEvent → KeySym;
  (** [XwcLookupString(_ic, &event, buffer, ...)]: the [len] wide
      characters it returns *)
  XwcLookupString : XIC → XKeyEvent → list Z;
  has_ascii_equivalent : ButtonHandle → bool;
  get_ascii_equivalent : ButtonHandle → Z;
  glx_wheel_up_button : Z;
  glx_wheel_down_button : Z;
  (** whether the build defines HAVE_LINUX_INPUT_H *)
  HAVE_LINUX_INPUT_H : bool;
  (** [sizeof(struct input_event)] and the reading of one record *)
  sizeof_input_event : nat;
  as_input_event : list Byte.byte → input_event }.

(** The methods of the base class that this class overrides and calls
    through [GraphicsWindow::]. [GraphicsWindow_set_properties_now] takes
    the reference argument [properties] and returns it as the base class
    leaves it. *)
Class GraphicsWindowBase := {
  GraphicsWindow_process_events : glxGraphicsWindow → glxGraphicsWindow;
  GraphicsWindow_set_properties_now :
    glxGraphicsWindow → WindowProperties →
    glxGraphicsWindow * WindowProperties;
  GraphicsWindow_close_window : glxGraphicsWindow → glxGraphicsWindow }.

(** Modelled from the spec: GraphicsWindow::system_changed_properties
    (graphicsWindow.cxx is not part of the sources at hand): "adopt the
    reported size into the property model and notify the engine", and the
    same for the foreground, minimized and open attributes. *)
Definition system_changed_properties (properties : WindowProperties)
    (s : glxGraphicsWindow) : glxGraphicsWindow :=
  Win.tell_engine (PropertiesChanged properties)
    (Win.with_properties (WP.add_properties (_properties s) properties) s).

(** [throw_event(name)] *)
Definition throw_event (name : string) (s : glxGraphicsWindow) :=
  Win.tell_engine (Thrown name) s.

(** ** Key symbols (X11/keysymdef.h) *)

Module XK.

Definition BackSpace : KeySym := 0xff08.
Definition Tab : KeySym := 0xff09.
Definition Return : KeySym := 0xff0d.
Definition Escape : KeySym := 0xff1b.
Definition space : KeySym := 0x20.
Definition exclam : KeySym := 0x21.
Definition asciitilde : KeySym := 0x7e.
Definition F1 : KeySym := 0xffbe.
Definition F2 : KeySym := 0xffbf.
Definition F3 : KeySym := 0xffc0.
Definition F4 : KeySym := 0xffc1.
Definition F5 : KeySym := 0xffc2.
Definition F6 : KeySym := 0xffc3.
Definition F7 : KeySym := 0xffc4.
Definition F8 : KeySym := 0xffc5.
Definition F9 : KeySym := 0xffc6.
Definition F10 : KeySym := 0xffc7.
Definition F11 : KeySym := 0xffc8.
Definition F12 : KeySym := 0xffc9.
Definition Home : KeySym := 0xff50.
Definition Left : KeySym := 0xff51.
Definition Up : KeySym := 0xff52.
Definition Right : KeySym := 0xff53.
Definition Down : KeySym := 0xff54.
Definition Prior : KeySym := 0xff55.
Definition Next : KeySym := 0xff56.
Definition End_ : KeySym := 0xff57.
Definition Insert : KeySym := 0xff63.
Definition Delete : KeySym := 0xffff.
Definition KP_Home : KeySym := 0xff95.
Definition KP_Left : KeySym := 0xff96.
Definition KP_Up : KeySym := 0xff97.
Definition KP_Right : KeySym := 0xff98.
Definition KP_Down : KeySym := 0xff99.
Definition KP_Prior : KeySym := 0xff9a.
Definition KP_Next : KeySym := 0xff9b.
Definition KP_End : KeySym := 0xff9c.
Definition KP_Insert : KeySym := 0xff9e.
Definition KP_Delete : KeySym := 0xff9f.
Definition Shift_L : KeySym := 0xffe1.
Definition Shift_R : KeySym := 0xffe2.
Definition Control_L : KeySym := 0xffe3.
Definition Control_R : KeySym := 0xffe4.
Definition Caps_Lock : KeySym := 0xffe5.
Definition Shift_Lock : KeySym := 0xffe6.
Definition Meta_L : KeySym := 0xffe7.
Definition Meta_R : KeySym := 0xffe8.
Definition Alt_L : KeySym := 0xffe9.
Definition Alt_R : KeySym := 0xffea.

End XK.

(** The action list of [set_wm_properties]. *)
Record SetAction := {
  _state : Atom;
  _action : Atom }.

#[global] Instance SetAction_eq_dec : EqDecision SetAction.
Proof. solve_decision. Defined.

(** The loop of [process_events] carries the object and the local
    variables [got_keyrelease_event] and [keyrelease_event]:
    [Some r] is a "true" flag with the buffered release [r]. *)
Definition LoopState : Type := glxGraphicsWindow * option XKeyEvent.

(** ** The methods *)

Section Methods.

Context {platform : Platform} {base : GraphicsWindowBase}.

(** *** move_pointer *)

Definition move_pointer (device x y : Z) (s : glxGraphicsWindow)
    : bool * glxGraphicsWindow :=
  if device =? 0 then
    if negb (WP.get_foreground (_properties s))
       || negb (default false
                  (md_in_window ∘ Device.get_pointer <$> _input_devices s !! 0%nat))
    then (false, s)
    else
      let s := Win.xcall (XWarpPointer (_xwindow s) x y) s in
      (true, Win.on_device 0 (Device.set_pointer_in_window x y) s)
  else
    if (device <? 1) || (Z.of_nat (length (_input_devices s)) <=? device)
    then (false, s)
    else (true, Win.on_device (Z.to_nat device)
                  (Device.set_pointer_in_window x y) s).

(** *** close_window *)

Definition close_window (s : glxGraphicsWindow) : glxGraphicsWindow :=
  let s :=
    match _gsg s with
    | Some _ =>
        let s := Win.xcall (glXMakeCurrent None_ None) s in
        let s := Win.with_gsg None s in
        Win.with_active false s
    | None => s
    end in
  let s :=
    if _ic s =? 0 then s
    else Win.with_ic 0 (Win.xcall (XDestroyIC (_ic s)) s) in
  let s :=
    if _xwindow s =? 0 then s
    else
      let s := Win.xcall (XDestroyWindow (_xwindow s)) s in
      let s := Win.with_xwindow 0 s in
      Win.xcall XFlush s in
  GraphicsWindow_close_window s.

(** *** get_button, get_mouse_button *)

(** The switch of [get_button] on the key symbol.  The cases
    [XK_exclam] ... [XK_asciitilde] (every code from 0x21 to 0x7e has one)
    each return [ascii_key] of the character whose code is the key
    symbol. *)
Definition button_of_keysym (key : KeySym) : ButtonHandle :=
  if key =? XK.BackSpace then Key_backspace
  else if key =? XK.Tab then Key_tab
  else if key =? XK.Return then Key_enter
  else if key =? XK.Escape then Key_escape
  else if key =? XK.space then Key_space
  else if (XK.exclam <=? key) && (key <=? XK.asciitilde) then Key_ascii key
  else if key =? XK.F1 then Key_f1
  else if key =? XK.F2 then Key_f2
  else if key =? XK.F3 then Key_f3
  else if key =? XK.F4 then Key_f4
  else if key =? XK.F5 then Key_f5
  else if key =? XK.F6 then Key_f6
  else if key =? XK.F7 then Key_f7
  else if key =? XK.F8 then Key_f8
  else if key =? XK.F9 then Key_f9
  else if key =? XK.F10 then Key_f10
  else if key =? XK.F11 then Key_f11
  else if key =? XK.F12 then Key_f12
  else if (key =? XK.KP_Left) || (key =? XK.Left) then Key_left
  else if (key =? XK.KP_Up) || (key =? XK.Up) then Key_up
  else if (key =? XK.KP_Right) || (key =? XK.Right) then Key_right
  else if (key =? XK.KP_Down) || (key =? XK.Down) then Key_down
  else if (key =? XK.KP_Prior) || (key =? XK.Prior) then Key_page_up
  else if (key =? XK.KP_Next) || (key =? XK.Next) then Key_page_down
  else if (key =? XK.KP_Home) || (key =? XK.Home) then Key_home
  else if (key =? XK.KP_End) || (key =? XK.End_) then Key_end
  else if (key =? XK.KP_Insert) || (key =? XK.Insert) then Key_insert
  else if (key =? XK.KP_Delete) || (key =? XK.Delete) then Key_del
  else if (key =? XK.Shift_L) || (key =? XK.Shift_R) then Key_shift
  else if (key =? XK.Control_L) || (key =? XK.Control_R) then Key_control
  else if (key =? XK.Alt_L) || (key =? XK.Alt_R) then Key_alt
  else if (key =? XK.Meta_L) || (key =? XK.Meta_R) then Key_meta
  else if key =? XK.Caps_Lock then Key_caps_lock
  else if key =? XK.Shift_Lock then Key_shift_lock
  else Button_none.

Definition get_button (key_event : XKeyEvent) : ButtonHandle :=
  button_of_keysym (XLookupKeysym key_event).

Definition get_mouse_button (button_event : XButtonEvent) : ButtonHandle :=
  let index := xbutton_button button_event in
  if index =? glx_wheel_up_button then Mouse_wheel_up
  else if index =? glx_wheel_down_button then Mouse_wheel_down
  else Mouse_button (index - 1).

(** *** handle_keystroke, handle_keypress, handle_keyrelease *)

Definition handle_keystroke (event : XKeyEvent) (s : glxGraphicsWindow)
    : glxGraphicsWindow :=
  let s := Win.on_device 0
             (Device.set_pointer_in_window (xkey_x event) (xkey_y event)) s in
  if negb (_ic s =? 0) then
    fold_left (λ s c, Win.on_device 0 (Device.keystroke c) s)
              (XwcLookupString (_ic s) event) s
  else
    let button := get_button event in
    if has_ascii_equivalent button
    then Win.on_device 0 (Device.keystroke (get_ascii_equivalent button)) s
    else s.

Definition handle_keypress (event : XKeyEvent) (s : glxGraphicsWindow)
    : glxGraphicsWindow :=
  let s := Win.on_device 0
             (Device.set_pointer_in_window (xkey_x event) (xkey_y event)) s in
  let button := get_button event in
  if bool_decide (button ≠ Button_none)
  then Win.on_device 0 (Device.button_down button) s
  else s.

Definition handle_keyrelease (event : XKeyEvent) (s : glxGraphicsWindow)
    : glxGraphicsWindow :=
  let s := Win.on_device 0
             (Device.set_pointer_in_window (xkey_x event) (xkey_y event)) s in
  let button := get_button event in
  if bool_decide (button ≠ Button_none)
  then Win.on_device 0 (Device.button_up button) s
  else s.

(** *** poll_raw_mice *)

(** The loop [while (1) { nread = read(...); ... }] on one descriptor:
    returns the descriptor (-1 once closed), the buffer and the answers
    not yet consumed. *)
Fixpoint read_all (fd : Z) (io_buffer : list Byte.byte)
    (pending : list ReadResult) : Z * list Byte.byte * list ReadResult :=
  match pending with
  | [] => (fd, io_buffer, [])
  | Read_bytes bytes :: pending' =>
      if (0 <? Z.of_nat (length bytes))
      then read_all fd (io_buffer ++ bytes) pending'
      else (-1, io_buffer, pending')
  | Read_error errno :: pending' =>
      if (errno =? EWOULDBLOCK) || (errno =? EAGAIN)
      then (fd, io_buffer, pending')
      else (-1, io_buffer, pending')
  end.

(** [events[i]] *)
Definition event_at (io_buffer : list Byte.byte) (i : nat) : input_event :=
  as_input_event
    (take sizeof_input_event (drop (i * sizeof_input_event)%nat io_buffer)).

(** The value a 32-bit two's-complement [int] holds when it is assigned
    the arithmetic result [z]. *)
Definition int_wrap (z : Z) : Z := (z + 2 ^ 31) `mod` 2 ^ 32 - 2 ^ 31.

(** The body of [for (i = 0; i < nevents; i++)]: the running coordinate
    [int x], [int y] and the device.  [x += events[i].value] adds in
    [int], with its wrap-around. *)
Definition raw_event_step (st : Z * Z * GraphicsWindowInputDevice)
    (ev : input_event) : Z * Z * GraphicsWindowInputDevice :=
  let '(x, y, dev) := st in
  if ie_type ev =? EV_REL then
    let x := if ie_code ev =? REL_X then int_wrap (x + ie_value ev) else x in
    let y := if ie_code ev =? REL_Y then int_wrap (y + ie_value ev) else y in
    (x, y, dev)
  else if ie_type ev =? EV_ABS then
    let x := if ie_code ev =? ABS_X then ie_value ev else x in
    let y := if ie_code ev =? ABS_Y then ie_value ev else y in
    (x, y, dev)
  else if ie_type ev =? EV_KEY then
    if (BTN_MOUSE <=? ie_code ev) && (ie_code ev <? BTN_MOUSE + 8) then
      let btn := ie_code ev - BTN_MOUSE in
      let dev := Device.set_pointer_in_window x y dev in
      if negb (ie_value ev =? 0)
      then (x, y, Device.button_down (Mouse_button btn) dev)
      else (x, y, Device.button_up (Mouse_button btn) dev)
    else (x, y, dev)
  else (x, y, dev).

(** One turn of [for (dev = 0; dev < _mouse_device_info.size(); dev++)]. *)
Definition poll_raw_mouse (inf : MouseDeviceInfo)
    (devices : list GraphicsWindowInputDevice) (raw : RawInput)
    : MouseDeviceInfo * list GraphicsWindowInputDevice * RawInput :=
  let '(fd, io_buffer, raw) :=
    if 0 <=? _fd inf then
      match raw !! _fd inf with
      | Some pending =>
          let '(fd, io_buffer, pending) :=
            read_all (_fd inf) (_io_buffer inf) pending in
          (fd, io_buffer, <[_fd inf := pending]> raw)
      | None => (_fd inf, _io_buffer inf, raw)
      end
    else (_fd inf, _io_buffer inf, raw) in
  let nevents := (length io_buffer / sizeof_input_event)%nat in
  let index := Z.to_nat (_input_device_index inf) in
  match nevents, devices !! index with
  | O, _ | _, None =>
      ({| _fd := fd; _input_device_index := _input_device_index inf;
          _io_buffer := io_buffer |}, devices, raw)
  | _, Some dev =>
      let x := md_x (Device.get_raw_pointer dev) in
      let y := md_y (Device.get_raw_pointer dev) in
      let '(x, y, dev) :=
        fold_left raw_event_step
                  (event_at io_buffer <$> seq 0 nevents) (x, y, dev) in
      let io_buffer := drop (nevents * sizeof_input_event)%nat io_buffer in
      let dev := Device.set_pointer_in_window x y dev in
      ({| _fd := fd; _input_device_index := _input_device_index inf;
          _io_buffer := io_buffer |}, <[index := dev]> devices, raw)
  end.

Fixpoint poll_raw_mouse_list (infos : list MouseDeviceInfo)
    (devices : list GraphicsWindowInputDevice) (raw : RawInput)
    : list MouseDeviceInfo * list GraphicsWindowInputDevice * RawInput :=
  match infos with
  | [] => ([], devices, raw)
  | inf :: infos' =>
      let '(inf, devices, raw) := poll_raw_mouse inf devices raw in
      let '(infos', devices, raw) := poll_raw_mouse_list infos' devices raw in
      (inf :: infos', devices, raw)
  end.

Definition poll_raw_mice (s : glxGraphicsWindow) (raw : RawInput)
    : glxGraphicsWindow * RawInput :=
  if HAVE_LINUX_INPUT_H then
    let '(infos, devices, raw) :=
      poll_raw_mouse_list (_mouse_device_info s) (_input_devices s) raw in
    (Win.with_input_devices devices (Win.with_mouse_device_info infos s), raw)
  else (s, raw).

(** *** process_events: the event loop *)

(** [check_event]: the predicate given to [XCheckIfEvent]. *)
Definition check_event (s : glxGraphicsWindow) (event : XEvent) : bool :=
  xany_window event =? _xwindow s.

(** [XCheckIfEvent]: removes and returns the first queued event that
    satisfies the predicate. *)
Fixpoint XCheckIfEvent (predicate : XEvent → bool) (queue : list XEvent)
    : option (XEvent * list XEvent) :=
  match queue with
  | [] => None
  | event :: queue' =>
      if predicate event then Some (event, queue')
      else
        match XCheckIfEvent predicate queue' with
        | Some (found, rest) => Some (found, event :: rest)
        | None => None
        end
  end.

(** The test of the key-repeat heuristic:
    [event.type == KeyPress && event.xkey.keycode == keyrelease_event.keycode
     && (event.xkey.time - keyrelease_event.time <= 1)]. *)
Definition is_key_repeat (event : XEventData) (keyrelease_event : XKeyEvent)
    : option XKeyEvent :=
  match event with
  | KeyPress xkey =>
      if (xkey_keycode xkey =? xkey_keycode keyrelease_event)
         && (ulong_sub (xkey_time xkey) (xkey_time keyrelease_event) <=? 1)
      then Some xkey else None
  | _ => None
  end.

(** [switch (event.type)]; the second component is the pair
    [got_keyrelease_event], [keyrelease_event] after the case. *)
Definition dispatch (event : XEventData) (s : glxGraphicsWindow) : LoopState :=
  let properties := WP.empty in
  match event with
  | ReparentNotify => (s, None)
  | ConfigureNotify width height =>
      let s := Win.with_awaiting_configure false s in
      if WP.get_fixed_size (_properties s) then
        let current_props := _properties s in
        if negb (width =? WP.get_x_size current_props)
           || negb (height =? WP.get_y_size current_props)
        then
          let changes :=
            {| changes_x := None; changes_y := None;
               changes_width := Some (WP.get_x_size current_props);
               changes_height := Some (WP.get_y_size current_props);
               changes_stack_mode := None |} in
          let value_mask := Z.lor CWWidth CWHeight in
          (Win.xcall (XConfigureWindow (_xwindow s) value_mask changes) s,
           None)
        else (s, None)
      else
        let properties := WP.set_size width height properties in
        (system_changed_properties properties s, None)
  | ButtonPress xbutton =>
      let button := get_mouse_button xbutton in
      let s := Win.on_device 0
                 (Device.set_pointer_in_window (xbutton_x xbutton)
                                               (xbutton_y xbutton)) s in
      (Win.on_device 0 (Device.button_down button) s, None)
  | ButtonRelease xbutton =>
      let button := get_mouse_button xbutton in
      let s := Win.on_device 0
                 (Device.set_pointer_in_window (xbutton_x xbutton)
                                               (xbutton_y xbutton)) s in
      (Win.on_device 0 (Device.button_up button) s, None)
  | MotionNotify x y =>
      (Win.on_device 0 (Device.set_pointer_in_window x y) s, None)
  | KeyPress xkey =>
      (handle_keypress xkey (handle_keystroke xkey s), None)
  | KeyRelease xkey => (s, Some xkey)
  | EnterNotify x y =>
      (Win.on_device 0 (Device.set_pointer_in_window x y) s, None)
  | LeaveNotify =>
      (Win.on_device 0 Device.set_pointer_out_of_window s, None)
  | FocusIn =>
      (system_changed_properties (WP.set_foreground true properties) s, None)
  | FocusOut =>
      (system_changed_properties (WP.set_foreground false properties) s, None)
  | UnmapNotify =>
      (system_changed_properties (WP.set_minimized true properties) s, None)
  | MapNotify =>
      let s := system_changed_properties
                 (WP.set_minimized false properties) s in
      (Win.xcall (XSetInputFocus (_xwindow s) RevertToPointerRoot CurrentTime)
                 s, None)
  | ClientMessage data_l0 =>
      if data_l0 =? _wm_delete_window (_atoms s) then
        let close_request_event := _close_request_event s in
        if negb (bool_decide (close_request_event = EmptyString))
        then (throw_event close_request_event s, None)
        else
          let s := close_window s in
          (system_changed_properties (WP.set_open false properties) s, None)
      else (s, None)
  | DestroyNotify => (s, None)
  | OtherEvent _ => (s, None)
  end.

(** The body of [while (XCheckIfEvent(...))] for one event taken from
    the queue. *)
Definition loop_body (ls : LoopState) (event : XEvent) : LoopState :=
  if XFilterEvent event then ls
  else
    match ls with
    | (s, Some keyrelease_event) =>
        match is_key_repeat (xevent event) keyrelease_event with
        | Some xkey => (handle_keypress xkey (handle_keystroke xkey s), None)
        | None => dispatch (xevent event) (handle_keyrelease keyrelease_event s)
        end
    | (s, None) => dispatch (xevent event) s
    end.

(** The statement after the loop. *)
Definition loop_exit (ls : LoopState) : glxGraphicsWindow :=
  match ls with
  | (s, Some keyrelease_event) => handle_keyrelease keyrelease_event s
  | (s, None) => s
  end.

(** The loop itself.  Every turn takes one event off the queue, so
    [length queue] turns always suffice ([drain_fuel] below); the result
    is the state at loop exit, the queue that remains, and the events
    the loop took, in order. *)
Fixpoint drain (fuel : nat) (ls : LoopState) (queue : list XEvent)
    : LoopState * list XEvent * list XEvent :=
  match fuel with
  | O => (ls, queue, [])
  | S fuel' =>
      match XCheckIfEvent (check_event ls.1) queue with
      | None => (ls, queue, [])
      | Some (event, queue') =>
          let '(ls', rest, taken) := drain fuel' (loop_body ls event) queue' in
          (ls', rest, event :: taken)
      end
  end.

Definition process_events (s : glxGraphicsWindow) (queue : list XEvent)
    (raw : RawInput) : glxGraphicsWindow * list XEvent * RawInput :=
  let s := GraphicsWindow_process_events s in
  if _xwindow s =? 0 then (s, queue, raw)
  else
    let '(s, raw) := poll_raw_mice s raw in
    let '(ls, queue, _) := drain (length queue) (s, None) queue in
    (loop_exit ls, queue, raw).

(** *** set_wm_properties *)

(** The arrays [type_data], [state_data] and [set_data] when the
    assertions on their lengths are reached. *)
Definition wm_hint_data (a : WMAtoms) (properties : WindowProperties)
    : list Atom * list Atom * list SetAction :=
  let '(type_data, state_data, set_data) :=
    if WP.get_fullscreen properties then
      ([_net_wm_window_type_fullscreen a],
       [_net_wm_state_fullscreen a],
       [{| _state := _net_wm_state_fullscreen a;
           _action := _net_wm_state_add a |}])
    else
      ([], [],
       [{| _state := _net_wm_state_fullscreen a;
           _action := _net_wm_state_remove a |}]) in
  let type_data :=
    if WP.get_undecorated properties then
      if negb (WP.get_fullscreen properties)
      then type_data ++ [_net_wm_window_type_splash a]
      else type_data
    else type_data in
  if WP.has_z_order properties then
    match WP.get_z_order properties with
    | Z_bottom =>
        (type_data,
         state_data ++ [_net_wm_state_below a],
         set_data ++ [{| _state := _net_wm_state_below a;
                         _action := _net_wm_state_add a |};
                      {| _state := _net_wm_state_above a;
                         _action := _net_wm_state_remove a |}])
    | Z_normal =>
        (type_data,
         state_data,
         set_data ++ [{| _state := _net_wm_state_below a;
                         _action := _net_wm_state_remove a |};
                      {| _state := _net_wm_state_above a;
                         _action := _net_wm_state_remove a |}])
    | Z_top =>
        (type_data,
         state_data ++ [_net_wm_state_above a],
         set_data ++ [{| _state := _net_wm_state_below a;
                         _action := _net_wm_state_remove a |};
                      {| _state := _net_wm_state_above a;
                         _action := _net_wm_state_add a |}])
    end
  else (type_data, state_data, set_data).

Definition max_type_data : Z := 32.
Definition max_state_data : Z := 32.
Definition max_set_data : Z := 32.

Definition size_hints (properties : WindowProperties) : option XSizeHints :=
  if WP.has_origin properties || WP.has_size properties then
    let h := XAllocSizeHints in
    let h :=
      if WP.has_origin properties then
        {| sh_flags := Z.lor (sh_flags h) USPosition;
           sh_x := WP.get_x_origin properties;
           sh_y := WP.get_y_origin properties;
           sh_width := sh_width h; sh_height := sh_height h;
           sh_min_width := sh_min_width h; sh_min_height := sh_min_height h;
           sh_max_width := sh_max_width h; sh_max_height := sh_max_height h |}
      else h in
    let h :=
      if WP.has_size properties then
        let h :=
          {| sh_flags := Z.lor (sh_flags h) USSize;
             sh_x := sh_x h; sh_y := sh_y h;
             sh_width := WP.get_x_size properties;
             sh_height := WP.get_y_size properties;
             sh_min_width := sh_min_width h;
             sh_min_height := sh_min_height h;
             sh_max_width := sh_max_width h;
             sh_max_height := sh_max_height h |} in
        if WP.has_fixed_size properties then
          {| sh_flags := Z.lor (sh_flags h) (Z.lor PMinSize PMaxSize);
             sh_x := sh_x h; sh_y := sh_y h;
             sh_width := sh_width h; sh_height := sh_height h;
             sh_min_width := WP.get_x_size properties;
             sh_min_height := WP.get_y_size properties;
             sh_max_width := WP.get_x_size properties;
             sh_max_height := WP.get_y_size properties |}
        else h
      else h in
    Some h
  else None.

Definition wm_hints (properties : WindowProperties) : XWMHints :=
  {| wmh_flags := StateHint;
     wmh_initial_state :=
       if WP.has_minimized properties && WP.get_minimized properties
       then IconicState else NormalState |}.

(** The client message sent to the root window for one [SetAction]. *)
Definition state_message (s : glxGraphicsWindow) (a : SetAction)
    : XClientMessageEvent :=
  {| cm_window := _xwindow s;
     cm_message_type := _net_wm_state (_atoms s);
     cm_format := 32;
     cm_l0 := _action a; cm_l1 := _state a; cm_l2 := 0; cm_l3 := 1 |}.

Definition set_wm_properties (properties : WindowProperties)
    (already_mapped : bool) (s : glxGraphicsWindow) : glxGraphicsWindow :=
  let window_name_p :=
    if WP.has_title properties then Some (WP.get_title properties)
    else None in
  let size_hints_p := size_hints properties in
  let wm_hints_p := wm_hints properties in
  let '(type_data, state_data, set_data) :=
    wm_hint_data (_atoms s) properties in
  let class_hints_p :=
    if WP.get_undecorated properties then Some "Undecorated"%string
    else None in
  if negb (Z.of_nat (length type_data) <? max_type_data) then s
  else if negb (Z.of_nat (length state_data) <? max_state_data) then s
  else if negb (Z.of_nat (length set_data) <? max_set_data) then s
  else
    let s := Win.xcall (XChangeProperty (_xwindow s)
                          (_net_wm_window_type (_atoms s)) XA_ATOM type_data)
                       s in
    let s := Win.xcall (XChangeProperty (_xwindow s)
                          (_net_wm_state (_atoms s)) XA_ATOM state_data) s in
    let sent :=
      if already_mapped then
        match _pipe s with
        | None => None
        | Some glx_pipe =>
            Some (fold_left
                    (λ s a, Win.xcall (XSendEvent (pipe_root glx_pipe)
                                         (state_message s a)) s)
                    set_data s)
        end
      else Some s in
    match sent with
    | None => s
    | Some s =>
        let s := Win.xcall (XSetWMProperties (_xwindow s) window_name_p
                              size_hints_p wm_hints_p class_hints_p) s in
        Win.xcall (XSetWMProtocols (_xwindow s)
                     [_wm_delete_window (_atoms s)]) s
    end.

(** *** set_properties_now *)

(** [changes.stack_mode] for each z-order. *)
Definition stack_mode_of (z : ZOrder) : Z :=
  match z with
  | Z_bottom => Below
  | Z_normal => TopIf
  | Z_top => Above
  end.

(** The first statement after the pipe is known: a fullscreen request
    implies no decoration, the origin (0, 0) and the size of the
    display. *)
Definition fullscreen_implies (glx_pipe : glxGraphicsPipe)
    (properties : WindowProperties) : WindowProperties :=
  if WP.get_fullscreen properties then
    let properties := WP.set_undecorated true properties in
    let properties := WP.set_origin 0 0 properties in
    WP.set_size (pipe_display_width glx_pipe)
                (pipe_display_height glx_pipe) properties
  else properties.

Definition set_properties_now (properties : WindowProperties)
    (s : glxGraphicsWindow) : glxGraphicsWindow * WindowProperties :=
  match _pipe s with
  | None => GraphicsWindow_set_properties_now s properties
  | Some glx_pipe =>
      let properties := fullscreen_implies glx_pipe properties in
      let '(s, properties) :=
        GraphicsWindow_set_properties_now s properties in
      if negb (WP.is_any_specified properties) then (s, properties)
      else
        let wm_properties := WP.add_properties (_properties s) properties in
        let '(s, properties) :=
          if WP.has_title properties then
            (Win.with_properties
               (WP.set_title (WP.get_title properties) (_properties s)) s,
             WP.clear_title properties)
          else (s, properties) in
        let '(s, properties) :=
          if WP.has_fullscreen properties then
            (Win.with_properties
               (WP.set_fullscreen (WP.get_fullscreen properties)
                                  (_properties s)) s,
             WP.clear_fullscreen properties)
          else (s, properties) in
        let changes := no_changes in
        let value_mask := 0 in
        let '(changes, value_mask, properties) :=
          if WP.has_origin properties then
            ({| changes_x := Some (WP.get_x_origin properties);
                changes_y := Some (WP.get_y_origin properties);
                changes_width := changes_width changes;
                changes_height := changes_height changes;
                changes_stack_mode := changes_stack_mode changes |},
             Z.lor value_mask (Z.lor CWX CWY),
             WP.clear_origin properties)
          else (changes, value_mask, properties) in
        let '(changes, value_mask, properties) :=
          if WP.has_size properties then
            ({| changes_x := changes_x changes;
                changes_y := changes_y changes;
                changes_width := Some (WP.get_x_size properties);
                changes_height := Some (WP.get_y_size properties);
                changes_stack_mode := changes_stack_mode changes |},
             Z.lor value_mask (Z.lor CWWidth CWHeight),
             WP.clear_size properties)
          else (changes, value_mask, properties) in
        let '(s, changes, value_mask, properties) :=
          if WP.has_z_order properties then
            (Win.with_properties
               (WP.set_z_order (WP.get_z_order properties) (_properties s)) s,
             {| changes_x := changes_x changes;
                changes_y := changes_y changes;
                changes_width := changes_width changes;
                changes_height := changes_height changes;
                changes_stack_mode :=
                  Some (stack_mode_of (WP.get_z_order properties)) |},
             Z.lor value_mask CWStackMode,
             WP.clear_z_order properties)
          else (s, changes, value_mask, properties) in
        let s :=
          if negb (value_mask =? 0) then
            let s := Win.xcall (XReconfigureWMWindow (_xwindow s) (_screen s)
                                  value_mask changes) s in
            Win.with_awaiting_configure true s
          else s in
        let '(s, properties) :=
          if WP.has_cursor_hidden properties then
            let s := Win.with_properties
                       (WP.set_cursor_hidden (WP.get_cursor_hidden properties)
                                             (_properties s)) s in
            let s :=
              if WP.get_cursor_hidden properties
              then Win.xcall (XDefineCursor (_xwindow s)
                                (pipe_hidden_cursor glx_pipe)) s
              else Win.xcall (XDefineCursor (_xwindow s) None_) s in
            (s, WP.clear_cursor_hidden properties)
          else (s, properties) in
        let '(s, properties) :=
          if WP.has_foreground properties then
            let s :=
              if WP.get_foreground properties
              then Win.xcall (XSetInputFocus (_xwindow s) RevertToPointerRoot
                                CurrentTime) s
              else Win.xcall (XSetInputFocus PointerRoot RevertToPointerRoot
                                CurrentTime) s in
            (s, WP.clear_foreground properties)
          else (s, properties) in
        (set_wm_properties wm_properties true s, properties)
  end.

End Methods.

(** ** Operations and observations used in the statements *)

Section Observations.

Context {platform : Platform} {base : GraphicsWindowBase}.

(** The public operations of the window, as the engine calls them. *)
Inductive Op :=
| Op_move_pointer (device x y : Z)
| Op_process_events (queue : list XEvent) (raw : RawInput)
| Op_set_properties_now (properties : WindowProperties)
| Op_close_window.

Definition run_op (op : Op) (s : glxGraphicsWindow) : glxGraphicsWindow :=
  match op with
  | Op_move_pointer device x y => (move_pointer device x y s).2
  | Op_process_events queue raw => (process_events s queue raw).1.1
  | Op_set_properties_now properties => (set_properties_now properties s).1
  | Op_close_window => close_window s
  end.

(** The events one call of [process_events] takes off the queue. *)
Definition events_taken (s : glxGraphicsWindow) (queue : list XEvent)
    (raw : RawInput) : list XEvent :=
  let s := GraphicsWindow_process_events s in
  if _xwindow s =? 0 then []
  else (drain (length queue) ((poll_raw_mice s raw).1, None) queue).2.

(** The loop body run over a sequence of events already taken. *)
Definition run_loop (ls : LoopState) (events : list XEvent) : LoopState :=
  fold_left loop_body events ls.

(** An event that passes [XFilterEvent] and is a ConfigureNotify. *)
Definition configure_ack (event : XEvent) : Prop :=
  XFilterEvent event = false ∧
  ∃ width height, xevent event = ConfigureNotify width height.

#[global] Instance configure_ack_dec event : Decision (configure_ack event).
Proof.
  unfold configure_ack.
  destruct (XFilterEvent event); [right; intros [? _]; discriminate |].
  destruct (xevent event) eqn:Hev;
    first [ left; split; [reflexivity | do 2 eexists; reflexivity]
          | right; intros [_ (? & ? & ?)]; discriminate ].
Defined.

(** The requests written between two states of the same window. *)
Definition requests_since (s s' : glxGraphicsWindow) : list XRequest :=
  drop (length (x_requests s)) (x_requests s').

(** The two requests that change the geometry or the stacking of a
    window. *)
Definition is_geometry_request (r : XRequest) : bool :=
  match r with
  | XConfigureWindow _ _ _ | XReconfigureWMWindow _ _ _ _ => true
  | _ => false
  end.

(** [value_mask] and [changes] as [set_properties_now] has filled them
    when it tests [value_mask != 0], for the request [properties] that
    the base class returned. *)
Definition geometry_mask (properties : WindowProperties) : Z :=
  Z.lor
    (Z.lor (Z.lor 0 (if WP.has_origin properties then Z.lor CWX CWY else 0))
           (if WP.has_size properties then Z.lor CWWidth CWHeight else 0))
    (if WP.has_z_order properties then CWStackMode else 0).

Definition geometry_changes (properties : WindowProperties)
    : XWindowChanges :=
  {| changes_x := fst <$> wp_origin properties;
     changes_y := snd <$> wp_origin properties;
     changes_width := fst <$> wp_size properties;
     changes_height := snd <$> wp_size properties;
     changes_stack_mode := stack_mode_of <$> wp_z_order properties |}.

(** The events slot 0 has handed to the engine, and the pointer of a
    slot. *)
Definition primary_events (s : glxGraphicsWindow) : list InputEvent :=
  default [] (dev_events <$> _input_devices s !! 0%nat).

Definition pointer_of (i : nat) (s : glxGraphicsWindow) : option MouseData :=
  dev_pointer <$> _input_devices s !! i.

Definition primary_in_window (s : glxGraphicsWindow) : bool :=
  default false (md_in_window <$> pointer_of 0 s).

(** The characters [handle_keystroke] sends for a key event, and the
    button event of [handle_keypress] and [handle_keyrelease]: none when
    the key symbol has no button. *)
Definition keystrokes_of (s : glxGraphicsWindow) (event : XKeyEvent)
    : list Z :=
  if negb (_ic s =? 0) then XwcLookupString (_ic s) event
  else if has_ascii_equivalent (get_button event)
       then [get_ascii_equivalent (get_button event)]
       else [].

Definition button_event (transition : ButtonHandle → InputEvent)
    (event : XKeyEvent) : list InputEvent :=
  if bool_decide (get_button event ≠ Button_none)
  then [transition (get_button event)]
  else [].

(** The base class cannot name [_awaiting_configure], a member of the
    derived class: none of its three methods resets it. *)
Definition base_keeps_awaiting_configure : Prop :=
  ∀ s, _awaiting_configure s = true →
    _awaiting_configure (GraphicsWindow_process_events s) = true ∧
    (∀ properties,
       _awaiting_configure
         (GraphicsWindow_set_properties_now s properties).1 = true) ∧
    _awaiting_configure (GraphicsWindow_close_window s) = true.

(** [GraphicsWindow::close_window] leaves the three handles alone, and
    running it a second time changes nothing more. *)
Definition base_close_keeps_handles : Prop :=
  ∀ s, _gsg (GraphicsWindow_close_window s) = _gsg s ∧
       _ic (GraphicsWindow_close_window s) = _ic s ∧
       _xwindow (GraphicsWindow_close_window s) = _xwindow s.

Definition base_close_idempotent : Prop :=
  ∀ s, GraphicsWindow_close_window (GraphicsWindow_close_window s)
       = GraphicsWindow_close_window s.

End Observations.

(** The requests [close_window] itself writes, one group per guard. *)
Definition close_requests (s : glxGraphicsWindow) : list XRequest :=
  (if _gsg s is Some _ then [glXMakeCurrent None_ None] else [])
  ++ (if _ic s =? 0 then [] else [XDestroyIC (_ic s)])
  ++ (if _xwindow s =? 0 then [] else [XDestroyWindow (_xwindow s); XFlush]).

(** The atoms that [wm_hint_data] may put in a list next to a fullscreen
    atom are different atoms. *)
Definition fullscreen_atoms_apart (a : WMAtoms) : Prop :=
  ∀ f o,
    f ∈ [_net_wm_window_type_fullscreen a; _net_wm_state_fullscreen a] →
    o ∈ [_net_wm_window_type_splash a; _net_wm_state_below a;
         _net_wm_state_above a] →
    f ≠ o.

(** The three state atoms differ, and so do the two actions. *)
Definition state_atoms_distinct (a : WMAtoms) : Prop :=
  NoDup [_net_wm_state_fullscreen a; _net_wm_state_below a;
         _net_wm_state_above a]
  ∧ _net_wm_state_add a ≠ _net_wm_state_remove a.

(** ** A concrete platform and window, for examples *)

Module Sample.

(** Little-endian reading of a field of [struct input_event]. *)
Definition little_endian (bytes : list Byte.byte) : Z :=
  foldr (λ b acc, Z.of_N (Byte.to_N b) + 256 * acc) 0 bytes.

(** The x86-64 layout: a 16-byte [timeval], then [type], [code] (16 bits
    each) and [value] (32 bits, signed). *)
Definition decode_input_event (bytes : list Byte.byte) : input_event :=
  let v := little_endian (take 4 (drop 20 bytes)) in
  {| ie_type := little_endian (take 2 (drop 16 bytes));
     ie_code := little_endian (take 2 (drop 18 bytes));
     ie_value := if v <? 2 ^ 31 then v else v - 2 ^ 32 |}.

Definition ascii_equivalent (b : ButtonHandle) : option Z :=
  match b with
  | Key_ascii c => Some c
  | Key_backspace => Some 8
  | Key_tab => Some 9
  | Key_enter => Some 13
  | Key_escape => Some 27
  | Key_space => Some 32
  | Key_del => Some 127
  | _ => None
  end.

(** No event is filtered, the keyboard maps a key code to the key symbol
    of the same number, no input method composes text. *)
#[export] Instance platform : Platform :=
  {| XFilterEvent := λ _, false;
     XLookupKeysym := xkey_keycode;
     XwcLookupString := λ _ e, [xkey_keycode e];
     has_ascii_equivalent := λ b, WP.present (ascii_equivalent b);
     get_ascii_equivalent := λ b, default 0 (ascii_equivalent b);
     glx_wheel_up_button := 4;
     glx_wheel_down_button := 5;
     HAVE_LINUX_INPUT_H := true;
     sizeof_input_event := 24;
     as_input_event := decode_input_event |}.

(** A base class that does nothing of its own: a request comes back as it
    was given. *)
#[export] Instance bare_base : GraphicsWindowBase :=
  {| GraphicsWindow_process_events := λ s, s;
     GraphicsWindow_set_properties_now := λ s properties, (s, properties);
     GraphicsWindow_close_window := λ s, s |}.

Definition atoms : WMAtoms :=
  {| _wm_delete_window := 300;
     _net_wm_window_type := 301;
     _net_wm_window_type_splash := 302;
     _net_wm_window_type_fullscreen := 303;
     _net_wm_state := 304;
     _net_wm_state_fullscreen := 305;
     _net_wm_state_above := 306;
     _net_wm_state_below := 307;
     _net_wm_state_add := 308;
     _net_wm_state_remove := 309 |}.

Definition pipe : glxGraphicsPipe :=
  {| pipe_display_width := 1920;
     pipe_display_height := 1080;
     pipe_root := 1;
     pipe_hidden_cursor := 9 |}.

(** An open 800x600 window with the focus and the pointer inside, one
    raw mouse in slot 1. *)
Definition window : glxGraphicsWindow :=
  {| _pipe := Some pipe;
     _gsg := Some {| gsg_context := 77 |};
     _active := true;
     _properties :=
       WP.set_foreground true
         (WP.set_open true (WP.set_size 800 600 (WP.set_origin 10 20 WP.empty)));
     _input_devices :=
       [Device.set_pointer_in_window 1 2
          (Device.pointer_and_keyboard "keyboard/mouse");
        Device.pointer_and_keyboard "raw"];
     _close_request_event := "";
     _screen := 0;
     _xwindow := 42;
     _ic := 0;
     _awaiting_configure := false;
     _atoms := atoms;
     _mouse_device_info :=
       [{| _fd := 5; _input_device_index := 1; _io_buffer := [] |}];
     x_requests := [];
     engine_log := [] |}.

(** The same window with a fixed size, waiting for an acknowledgement. *)
Definition fixed_window : glxGraphicsWindow :=
  Win.with_awaiting_configure true
    (Win.with_properties
       (WP.add_properties (_properties window)
          {| wp_origin := None; wp_size := None; wp_title := None;
             wp_undecorated := None; wp_fixed_size := Some true;
             wp_fullscreen := None; wp_foreground := None;
             wp_minimized := None; wp_raw_mice := None; wp_open := None;
             wp_cursor_hidden := None; wp_z_order := None |})
       window).

(** The window before it is opened, or after it is closed. *)
Definition closed_window : glxGraphicsWindow :=
  Win.with_xwindow 0 (Win.with_gsg None window).

(** The state [open_window] returns in when XCreateWindow fails: the
    render context is bound to the object, there is no native window. *)
Definition half_open_window : glxGraphicsWindow :=
  Win.with_xwindow 0 window.

Definition key (keycode time : Z) : XKeyEvent :=
  {| xkey_keycode := keycode; xkey_time := time; xkey_state := 0;
     xkey_x := 3; xkey_y := 4 |}.

Definition ev (data : XEventData) : XEvent :=
  {| xany_window := 42; xevent := data |}.

End Sample.

(** ** Observations for the rest of the translation unit *)

Section MoreObservations.

Context {platform : Platform} {base : GraphicsWindowBase}.



(** [check_event] for a given handle. *)
Definition for_window (xwindow : Window) (event : XEvent) : bool :=
  xany_window event =? xwindow.

(** A ClientMessage, whatever its payload. *)
Definition is_client_message (event : XEvent) : bool :=
  match xevent event with
  | ClientMessage _ => true
  | _ => false
  end.



(** The requests of [set_wm_properties], in the order it writes them. *)
Definition wm_requests (properties : WindowProperties)
    (already_mapped : bool) (s : glxGraphicsWindow) : list XRequest :=
  let '(type_data, state_data, set_data) :=
    wm_hint_data (_atoms s) properties in
  [XChangeProperty (_xwindow s) (_net_wm_window_type (_atoms s)) XA_ATOM
     type_data;
   XChangeProperty (_xwindow s) (_net_wm_state (_atoms s)) XA_ATOM
     state_data]
  ++ match already_mapped, _pipe s with
     | true, None => []
     | true, Some glx_pipe =>
         ((λ a, XSendEvent (pipe_root glx_pipe) (state_message s a))
            <$> set_data)
         ++ [XSetWMProperties (_xwindow s)
               (if WP.has_title properties
                then Some (WP.get_title properties) else None)
               (size_hints properties) (wm_hints properties)
               (if WP.get_undecorated properties
                then Some "Undecorated"%string else None);
             XSetWMProtocols (_xwindow s) [_wm_delete_window (_atoms s)]]
     | false, _ =>
         [XSetWMProperties (_xwindow s)
            (if WP.has_title properties
             then Some (WP.get_title properties) else None)
            (size_hints properties) (wm_hints properties)
            (if WP.get_undecorated properties
             then Some "Undecorated"%string else None);
          XSetWMProtocols (_xwindow s) [_wm_delete_window (_atoms s)]]
     end.

(** The client messages among the requests. *)
Definition is_send_event (r : XRequest) : bool :=
  match r with
  | XSendEvent _ _ => true
  | _ => false
  end.

(** The part of a request that [set_properties_now] stores in the
    property model at once, and the part it hands back untouched. *)
Definition stored_at_once (p : WindowProperties) : WindowProperties :=
  {| wp_origin := None; wp_size := None; wp_title := wp_title p;
     wp_undecorated := None; wp_fixed_size := None;
     wp_fullscreen := wp_fullscreen p; wp_foreground := None;
     wp_minimized := None; wp_raw_mice := None; wp_open := None;
     wp_cursor_hidden := wp_cursor_hidden p; wp_z_order := wp_z_order p |}.

Definition handed_back (p : WindowProperties) : WindowProperties :=
  {| wp_origin := None; wp_size := None; wp_title := None;
     wp_undecorated := wp_undecorated p; wp_fixed_size := wp_fixed_size p;
     wp_fullscreen := None; wp_foreground := None;
     wp_minimized := wp_minimized p; wp_raw_mice := wp_raw_mice p;
     wp_open := wp_open p; wp_cursor_hidden := None; wp_z_order := None |}.

(** A window with its request log, its [_awaiting_configure] flag and
    its property model replaced: the three members [set_properties_now]
    itself writes. *)
Definition window_with (requests : list XRequest) (awaiting : bool)
    (properties : WindowProperties) (s : glxGraphicsWindow)
    : glxGraphicsWindow :=
  Win.with_x_requests requests
    (Win.with_awaiting_configure awaiting
       (Win.with_properties properties s)).

(** The cursor and focus requests of [set_properties_now]. *)
Definition cursor_requests (glx_pipe : glxGraphicsPipe) (xwindow : Window)
    (p : WindowProperties) : list XRequest :=
  match wp_cursor_hidden p with
  | Some true => [XDefineCursor xwindow (pipe_hidden_cursor glx_pipe)]
  | Some false => [XDefineCursor xwindow None_]
  | None => []
  end.

Definition focus_requests (xwindow : Window) (p : WindowProperties)
    : list XRequest :=
  match wp_foreground p with
  | Some true => [XSetInputFocus xwindow RevertToPointerRoot CurrentTime]
  | Some false => [XSetInputFocus PointerRoot RevertToPointerRoot CurrentTime]
  | None => []
  end.

End MoreObservations.

(** ** The draw thread: begin_frame and begin_flip *)

(** Modelled from the spec: the frame modes of GraphicsOutput
    (graphicsOutput.h is not part of the sources at hand); [FM_render] is
    "a full render pass", the only mode the code at hand tests for. *)
Inductive FrameMode := FM_render | FM_parasite | FM_refresh.

(** What [glXGetCurrentDisplay() == _display], [glXGetCurrentDrawable()]
    and [glXGetCurrentContext()] answer on the calling thread. *)
Record GLXCurrent := {
  current_display_is_ours : bool;
  current_drawable : Window;
  current_context : Z }.

(** The calls of the draw thread into the graphics state guardian and
    the base class, and the buffer swap. *)
Inductive DrawCall :=
| reset_if_new
| clear_cube_map_selection
| set_current_properties
| gsg_begin_frame
| glXSwapBuffers (drawable : Window).

(** [begin_frame(mode, current_thread)]; [gsg_answer] is what
    [_gsg->begin_frame(current_thread)] returns when it is reached. *)
Definition begin_frame (mode : FrameMode) (current : GLXCurrent)
    (gsg_answer : bool) (s : glxGraphicsWindow)
    : bool * glxGraphicsWindow * list DrawCall :=
  match _gsg s with
  | None => (false, s, [])
  | Some glxgsg =>
      if _awaiting_configure s then (false, s, [])
      else
        let s :=
          if current_display_is_ours current
             && (current_drawable current =? _xwindow s)
             && (current_context current =? gsg_context glxgsg)
          then s
          else Win.xcall (glXMakeCurrent (_xwindow s)
                            (Some (gsg_context glxgsg))) s in
        (gsg_answer, s,
         [reset_if_new]
         ++ (if mode is FM_render then [clear_cube_map_selection] else [])
         ++ [set_current_properties; gsg_begin_frame])
  end.

(** [begin_flip()] *)
Definition begin_flip (s : glxGraphicsWindow) : list DrawCall :=
  match _gsg s with
  | Some _ => [glXSwapBuffers (_xwindow s)]
  | None => []
  end.

(** ** open_raw_mice *)

Module Evdev.

Definition ENOENT : Z := 2.
Definition ENOTDIR : Z := 20.
Definition EV_MAX : Z := 0x1f.

(** [#define test_bit(bit, array) ((array)[(bit)/8] & (1<<((bit)&7)))] *)
Definition test_bit (bit : Z) (array : list Z) : Z :=
  Z.land (default 0 (array !! Z.to_nat (bit / 8)))
         (Z.shiftl 1 (Z.land bit 7)).

(** What the node [/dev/input/event<i>] answers: [open] returns
    [node_fd], with [node_errno] in [errno] when it is negative; the four
    [ioctl] calls, in the order of the source, fill their buffer, or
    fail ([None]).  The third call asks for EVIOCGPHYS again and writes
    to [uniq]. *)
Record DeviceNode := {
  node_fd : Z;
  node_errno : Z;
  node_name : option string;
  node_phys : option string;
  node_uniq : option string;
  node_evtypes : option (list Z) }.

End Evdev.
Import Evdev.

(** A [char] as the integer a comparison sees: a signed 8-bit value.
    (With an unsigned [char] the tests below take the same branches,
    the codes from 128 being above ['z'].) *)
Definition char_value (c : Ascii.ascii) : Z :=
  let n := Z.of_N (Ascii.N_of_ascii c) in
  if n <? 128 then n else n - 256.

(** The body of the loop over the characters [c] of [name], and of
    [uniq], up to the terminating zero:
    [if (((c<'a')||(c>'z')) && ((c<'A')||(c>'Z')) && ((c<'0')||(c>'9')))]
    the character becomes ['_']. *)
Definition replace_char (c : Ascii.ascii) : Ascii.ascii :=
  let p := char_value c in
  if ((p <? char_value "a"%char) || (char_value "z"%char <? p))
     && ((p <? char_value "A"%char) || (char_value "Z"%char <? p))
     && ((p <? char_value "0"%char) || (char_value "9"%char <? p))
  then "_"%char else c.

Fixpoint replace_chars (name : string) : string :=
  match name with
  | EmptyString => EmptyString
  | String c rest => String (replace_char c) (replace_chars rest)
  end.

(** Modelled from the spec: GraphicsWindowInputDevice::pointer_only and
    GraphicsWindow::add_input_device (graphicsWindow.cxx is not part of
    the sources at hand): a raw pointer device is a slot of its own,
    "appended as discovered". *)
Definition pointer_only (name : string) : GraphicsWindowInputDevice :=
  {| dev_name := name;
     dev_pointer := {| md_in_window := false; md_x := 0; md_y := 0 |};
     dev_events := [] |}.

Definition add_input_device (device : GraphicsWindowInputDevice)
    (s : glxGraphicsWindow) : glxGraphicsWindow :=
  Win.with_input_devices (_input_devices s ++ [device]) s.

(** The variables of [open_raw_mice] across its loop: the window, the
    descriptors closed so far, and the two flags that choose the final
    diagnostic. *)
Record RawMiceScan := {
  scan_window : glxGraphicsWindow;
  scan_closed : list Z;
  any_present : bool;
  any_mice : bool }.

Section RawMice.

Context {platform : Platform}.

(** One turn of [for (int i=0; i<64; i++)]; [None] is [break]. *)
Definition probe_node (node : DeviceNode) (scan : RawMiceScan)
    : option RawMiceScan :=
  let s := scan_window scan in
  let fd := node_fd node in
  if 0 <=? fd then
    match node_name node, node_phys node, node_uniq node,
          node_evtypes node with
    | Some name, Some phys, Some uniq, Some evtypes =>
        if negb (test_bit EV_REL evtypes =? 0)
           || negb (test_bit EV_ABS evtypes =? 0)
        then
          let name := replace_chars name in
          let uniq := replace_chars uniq in
          let full_id := (name +:+ "." +:+ uniq)%string in
          let inf :=
            {| _fd := fd;
               _input_device_index := Z.of_nat (length (_input_devices s));
               _io_buffer := [] |} in
          let s := Win.with_mouse_device_info
                     (_mouse_device_info s ++ [inf]) s in
          let s := add_input_device (pointer_only full_id) s in
          Some {| scan_window := s; scan_closed := scan_closed scan;
                  any_present := true; any_mice := true |}
        else
          Some {| scan_window := s; scan_closed := scan_closed scan ++ [fd];
                  any_present := true; any_mice := any_mice scan |}
    | _, _, _, _ =>
        Some {| scan_window := s; scan_closed := scan_closed scan ++ [fd];
                any_present := true; any_mice := any_mice scan |}
    end
  else if (node_errno node =? ENOENT) || (node_errno node =? ENOTDIR)
  then None
  else Some {| scan_window := s; scan_closed := scan_closed scan;
               any_present := true; any_mice := any_mice scan |}.

Fixpoint scan_nodes (nodes : list DeviceNode) (scan : RawMiceScan)
    : RawMiceScan :=
  match nodes with
  | [] => scan
  | node :: nodes' =>
      match probe_node node scan with
      | Some scan' => scan_nodes nodes' scan'
      | None => scan
      end
  end.

(** [open_raw_mice()]; [dev_input i] is the node [/dev/input/event<i>]. *)
Definition open_raw_mice (dev_input : nat → DeviceNode)
    (s : glxGraphicsWindow) : RawMiceScan :=
  let start := {| scan_window := s; scan_closed := [];
                  any_present := false; any_mice := false |} in
  if HAVE_LINUX_INPUT_H then scan_nodes (dev_input <$> seq 0 64) start
  else start.

End RawMice.

(** The condition under which turn [i] of the loop breaks. *)
Definition is_missing (node : DeviceNode) : bool :=
  (node_fd node <? 0)
  && ((node_errno node =? ENOENT) || (node_errno node =? ENOTDIR)).

(** The nodes the loop accepts as mice, seen from outside: opened, all
    four answers given, and relative or absolute motion among the event
    types. *)
Definition is_mouse (node : DeviceNode) : bool :=
  (0 <=? node_fd node)
  && WP.present (node_name node) && WP.present (node_phys node)
  && WP.present (node_uniq node)
  && match node_evtypes node with
     | Some evtypes => negb (Z.land (default 0 (evtypes !! 0%nat)) 12 =? 0)
     | None => false
     end.

(** The nodes the loop reaches: those before the first missing one. *)
Fixpoint before_missing (nodes : list DeviceNode) : list DeviceNode :=
  match nodes with
  | [] => []
  | node :: nodes' =>
      if is_missing node then [] else node :: before_missing nodes'
  end.

(** The label of the slot of an accepted node. *)
Definition label_of (node : DeviceNode) : string :=
  (replace_chars (default EmptyString (node_name node)) +:+ "."
   +:+ replace_chars (default EmptyString (node_uniq node)))%string.

(** The characters the loop lets stand. *)
Definition is_alphanumeric (c : Ascii.ascii) : bool :=
  let n := Z.of_N (Ascii.N_of_ascii c) in
  ((97 <=? n) && (n <=? 122)) || ((65 <=? n) && (n <=? 90))
  || ((48 <=? n) && (n <=? 57)).

(** The record [open_raw_mice] keeps for the [i]-th mouse it accepts
    when the window has [slots] input devices already. *)
Definition mouse_info (slots : nat) (i : nat) (node : DeviceNode)
    : MouseDeviceInfo :=
  {| _fd := node_fd node;
     _input_device_index := Z.of_nat (slots + i);
     _io_buffer := [] |}.

(** A node that was opened and is not kept. *)
Definition is_rejected (node : DeviceNode) : bool :=
  (0 <=? node_fd node) && negb (is_mouse node).

(** Every raw mouse of the window reads into a slot that exists and is
    not slot 0. *)
Definition raw_slots_valid (s : glxGraphicsWindow) : Prop :=
  Forall (λ inf, 1 ≤ _input_device_index inf
                 < Z.of_nat (length (_input_devices s)))
         (_mouse_device_info s).

(** ** open_window and setup_colormap *)

Module Xlib.

Definition Colormap := Z.

(* visual classes *)
Definition StaticGray : Z := 0.
Definition GrayScale : Z := 1.
Definition StaticColor : Z := 2.
Definition PseudoColor : Z := 3.
Definition TrueColor : Z := 4.
Definition DirectColor : Z := 5.

Definition AllocNone : Z := 0.
Definition AllocAll : Z := 1.

(* event masks *)
Definition KeyPressMask : Z := Z.shiftl 1 0.
Definition KeyReleaseMask : Z := Z.shiftl 1 1.
Definition ButtonPressMask : Z := Z.shiftl 1 2.
Definition ButtonReleaseMask : Z := Z.shiftl 1 3.
Definition EnterWindowMask : Z := Z.shiftl 1 4.
Definition LeaveWindowMask : Z := Z.shiftl 1 5.
Definition PointerMotionMask : Z := Z.shiftl 1 6.
Definition StructureNotifyMask : Z := Z.shiftl 1 17.
Definition FocusChangeMask : Z := Z.shiftl 1 21.

(* window attributes *)
Definition CWBackPixel : Z := Z.shiftl 1 1.
Definition CWBorderPixel : Z := Z.shiftl 1 3.
Definition CWEventMask : Z := Z.shiftl 1 11.
Definition CWColormap : Z := Z.shiftl 1 13.
Definition InputOutput : Z := 1.

Definition XIMPreeditNothing : Z := 0x0008.
Definition XIMStatusNothing : Z := 0x0400.

Record XVisualInfo := {
  vi_visual : Z;
  vi_depth : Z;
  vi_c_class : Z }.

Record XSetWindowAttributes := {
  wa_background_pixel : Z;
  wa_border_pixel : Z;
  wa_colormap : Colormap;
  wa_event_mask : Z }.

(** [XCreateWindow(_display, parent, x, y, width, height, border_width,
    depth, class, visual, valuemask, attributes)] *)
Record CreateWindow := {
  cw_parent : Window;
  cw_x : Z; cw_y : Z; cw_width : Z; cw_height : Z;
  cw_border_width : Z;
  cw_depth : Z;
  cw_class : Z;
  cw_visual : Z;
  cw_valuemask : Z;
  cw_attributes : XSetWindowAttributes }.

End Xlib.
Import Xlib.

(** What [open_window] asks of the display, in the order it asks:
    the requests of the kinds [x_requests] holds, and the calls that
    create the colormap, the window and the input context and map the
    window. *)
Inductive DisplayCall :=
| Request (r : XRequest)
| XCreateColormap (root : Window) (visual : Z) (alloc : Z)
| XCreateWindow (arguments : CreateWindow)
| XCreateIC (im : Z) (input_style : Z)
| XMapWindow (w : Window).

(** What [open_window] and [setup_colormap] call and do not define: the
    graphics state guardian of the GLX back end, the pipe, and the
    answers of the server. *)
Class OpenCollaborators := {
  FrameBufferProperties : Type;
  (** [new glxGraphicsStateGuardian(_pipe, share_with)] followed by
      [choose_pixel_format(_fb_properties, display, screen, false)] *)
  new_glxGraphicsStateGuardian :
    option GraphicsStateGuardian → FrameBufferProperties →
    GraphicsStateGuardian;
  (** [glxgsg->_visual] ([None] for NULL) and [glxgsg->_fbconfig] *)
  gsg_visual : GraphicsStateGuardian → option XVisualInfo;
  gsg_fbconfig : GraphicsStateGuardian → Z;
  (** [get_fb_properties()] as [open_window] finds the guardian, and
      once [reset_if_new()] has run *)
  get_fb_properties : GraphicsStateGuardian → FrameBufferProperties;
  get_fb_properties_after_reset :
    GraphicsStateGuardian → FrameBufferProperties;
  (** [is_valid()] and [get_gl_renderer()] once [reset_if_new()] has
      run *)
  is_valid : GraphicsStateGuardian → bool;
  get_gl_renderer : GraphicsStateGuardian → string;
  subsumes : FrameBufferProperties → FrameBufferProperties → bool;
  verify_hardware_software :
    FrameBufferProperties → FrameBufferProperties → string → bool;
  (** [glx_pipe->get_im()] *)
  get_im : glxGraphicsPipe → Z;
  (** whether the build defines HAVE_GLXFBCONFIG *)
  HAVE_GLXFBCONFIG : bool;
  (** [glXGetVisualFromFBConfig(_display, fbconfig)] *)
  glXGetVisualFromFBConfig : Z → option XVisualInfo;
  (** [rc] and [is_rgb] of
      [glXGetFBConfigAttrib(_display, fbconfig, GLX_RGBA, &is_rgb)] and
      of [glXGetConfig(_display, visual, GLX_RGBA, &is_rgb)] *)
  glXGetFBConfigAttrib_RGBA : Z → Z * Z;
  glXGetConfig_RGBA : XVisualInfo → Z * Z;
  XBlackPixel : Z → Z;
  (** what the server returns for the three creations *)
  XCreateColormap_result : Window → Z → Z → Colormap;
  XCreateWindow_result : CreateWindow → Window;
  XCreateIC_result : Z → Z → XIC }.

Section OpenWindow.

Context {platform : Platform} {base : GraphicsWindowBase}
        {collaborators : OpenCollaborators}.

(** The members of the object that [open_window] assigns and the record
    [glxGraphicsWindow] does not hold. *)
Record WindowResources := {
  _fb_properties : FrameBufferProperties;
  _colormap : Colormap;
  _event_mask : Z }.

(** The object while it is opened: the window, the other members, and
    what has been asked of the display. *)
Record Opening := {
  window : glxGraphicsWindow;
  resources : WindowResources;
  display_calls : list DisplayCall }.

Definition with_window (s : glxGraphicsWindow) (o : Opening) : Opening :=
  {| window := s; resources := resources o;
     display_calls := display_calls o |}.

Definition with_colormap (colormap : Colormap) (o : Opening) : Opening :=
  {| window := window o;
     resources := {| _fb_properties := _fb_properties (resources o);
                     _colormap := colormap;
                     _event_mask := _event_mask (resources o) |};
     display_calls := display_calls o |}.

Definition with_event_mask (event_mask : Z) (o : Opening) : Opening :=
  {| window := window o;
     resources := {| _fb_properties := _fb_properties (resources o);
                     _colormap := _colormap (resources o);
                     _event_mask := event_mask |};
     display_calls := display_calls o |}.

Definition with_fb_properties (fb : FrameBufferProperties) (o : Opening)
    : Opening :=
  {| window := window o;
     resources := {| _fb_properties := fb;
                     _colormap := _colormap (resources o);
                     _event_mask := _event_mask (resources o) |};
     display_calls := display_calls o |}.

Definition display_call (c : DisplayCall) (o : Opening) : Opening :=
  {| window := window o; resources := resources o;
     display_calls := display_calls o ++ [c] |}.

(** A method of the window run while it is opened: the requests it
    writes are asked of the display at that point. *)
Definition through (method : glxGraphicsWindow → glxGraphicsWindow)
    (o : Opening) : Opening :=
  let s := method (window o) in
  {| window := s; resources := resources o;
     display_calls :=
       display_calls o ++ (Request <$> requests_since (window o) s) |}.

(** [setup_colormap(GLXFBConfig fbconfig)] *)
Definition setup_colormap_fbconfig (fbconfig : Z) (o : Opening) : Opening :=
  match glXGetVisualFromFBConfig fbconfig with
  | None => o
  | Some visual_info =>
      let visual_class := vi_c_class visual_info in
      let visual := vi_visual visual_info in
      match _pipe (window o) with
      | None => o
      | Some glx_pipe =>
          let root_window := pipe_root glx_pipe in
          if visual_class =? PseudoColor then
            let '(rc, is_rgb) := glXGetFBConfigAttrib_RGBA fbconfig in
            if (rc =? 0) && negb (is_rgb =? 0) then with_colormap 0 o
            else
              with_colormap
                (XCreateColormap_result root_window visual AllocAll)
                (display_call (XCreateColormap root_window visual AllocAll)
                   o)
          else if (visual_class =? TrueColor)
                  || (visual_class =? DirectColor) then
            with_colormap
              (XCreateColormap_result root_window visual AllocNone)
              (display_call (XCreateColormap root_window visual AllocNone) o)
          else if (visual_class =? StaticColor)
                  || (visual_class =? StaticGray)
                  || (visual_class =? GrayScale) then
            with_colormap
              (XCreateColormap_result root_window visual AllocNone)
              (display_call (XCreateColormap root_window visual AllocNone) o)
          else o
      end
  end.

(** [setup_colormap(XVisualInfo *visual)] *)
Definition setup_colormap_visual (visual : XVisualInfo) (o : Opening)
    : Opening :=
  match _pipe (window o) with
  | None => o
  | Some glx_pipe =>
      let root_window := pipe_root glx_pipe in
      let visual_class := vi_c_class visual in
      if visual_class =? PseudoColor then
        let '(rc, is_rgb) := glXGetConfig_RGBA visual in
        if (rc =? 0) && negb (is_rgb =? 0) then with_colormap 0 o
        else
          with_colormap
            (XCreateColormap_result root_window (vi_visual visual) AllocAll)
            (display_call
               (XCreateColormap root_window (vi_visual visual) AllocAll) o)
      else if (visual_class =? TrueColor)
              || (visual_class =? DirectColor) then
        with_colormap
          (XCreateColormap_result root_window (vi_visual visual) AllocNone)
          (display_call
             (XCreateColormap root_window (vi_visual visual) AllocNone) o)
      else if (visual_class =? StaticColor)
              || (visual_class =? StaticGray)
              || (visual_class =? GrayScale) then
        with_colormap
          (XCreateColormap_result root_window (vi_visual visual) AllocNone)
          (display_call
             (XCreateColormap root_window (vi_visual visual) AllocNone) o)
      else o
  end.

(** [ButtonPressMask | ButtonReleaseMask | KeyPressMask | KeyReleaseMask |
    EnterWindowMask | LeaveWindowMask | PointerMotionMask |
    FocusChangeMask | StructureNotifyMask] *)
Definition window_event_mask : Z :=
  Z.lor ButtonPressMask
    (Z.lor ButtonReleaseMask
       (Z.lor KeyPressMask
          (Z.lor KeyReleaseMask
             (Z.lor EnterWindowMask
                (Z.lor LeaveWindowMask
                   (Z.lor PointerMotionMask
                      (Z.lor FocusChangeMask StructureNotifyMask))))))).

(** The arguments of the XCreateWindow call of [open_window]. *)
Definition create_window_arguments (root_window : Window)
    (visual_info : XVisualInfo) (o : Opening) : CreateWindow :=
  let s := window o in
  {| cw_parent := root_window;
     cw_x := WP.get_x_origin (_properties s);
     cw_y := WP.get_y_origin (_properties s);
     cw_width := WP.get_x_size (_properties s);
     cw_height := WP.get_y_size (_properties s);
     cw_border_width := 0;
     cw_depth := vi_depth visual_info;
     cw_class := InputOutput;
     cw_visual := vi_visual visual_info;
     cw_valuemask :=
       Z.lor CWBackPixel (Z.lor CWBorderPixel (Z.lor CWColormap CWEventMask));
     cw_attributes :=
       {| wa_background_pixel := XBlackPixel (_screen s);
          wa_border_pixel := 0;
          wa_colormap := _colormap (resources o);
          wa_event_mask := _event_mask (resources o) |} |}.

(** [open_window()], "GSG Creation/Initialization": the guardian the
    window is opened with.  A window without a guardian gets a new one;
    a guardian whose frame-buffer properties do not subsume those asked
    for is replaced by a new one that shares with it. *)
Definition choose_gsg (o : Opening) : GraphicsStateGuardian * Opening :=
  match _gsg (window o) with
  | None =>
      let glxgsg :=
        new_glxGraphicsStateGuardian None (_fb_properties (resources o)) in
      (glxgsg, with_window (Win.with_gsg (Some glxgsg) (window o)) o)
  | Some old =>
      if negb (subsumes (get_fb_properties old)
                 (_fb_properties (resources o))) then
        let glxgsg :=
          new_glxGraphicsStateGuardian (Some old)
            (_fb_properties (resources o)) in
        (glxgsg, with_window (Win.with_gsg (Some glxgsg) (window o)) o)
      else (old, o)
  end.

(** [if (!_properties.has_origin()) _properties.set_origin(0, 0);
     if (!_properties.has_size()) _properties.set_size(100, 100);] *)
Definition default_geometry (o : Opening) : Opening :=
  let o :=
    if negb (WP.has_origin (_properties (window o))) then
      with_window
        (Win.with_properties
           (WP.set_origin 0 0 (_properties (window o))) (window o)) o
    else o in
  if negb (WP.has_size (_properties (window o))) then
    with_window
      (Win.with_properties
         (WP.set_size 100 100 (_properties (window o))) (window o)) o
  else o.

(** The choice between the two [setup_colormap] functions. *)
Definition choose_colormap (glxgsg : GraphicsStateGuardian)
    (visual_info : XVisualInfo) (o : Opening) : Opening :=
  if HAVE_GLXFBCONFIG then
    if negb (gsg_fbconfig glxgsg =? None_)
    then setup_colormap_fbconfig (gsg_fbconfig glxgsg) o
    else setup_colormap_visual visual_info o
  else setup_colormap_visual visual_info o.

(** From the assignment of [_event_mask] to that of [_xwindow]. *)
Definition create_window (root_window : Window) (visual_info : XVisualInfo)
    (o : Opening) : Opening :=
  let o := with_event_mask window_event_mask o in
  let arguments := create_window_arguments root_window visual_info o in
  with_window
    (Win.with_xwindow (XCreateWindow_result arguments) (window o))
    (display_call (XCreateWindow arguments) o).

(** From [set_wm_properties(_properties, false)] to
    [glXMakeCurrent(_display, _xwindow, glxgsg->_context)]. *)
Definition prepare_window (glx_pipe : glxGraphicsPipe)
    (glxgsg : GraphicsStateGuardian) (o : Opening) : Opening :=
  let o := through (set_wm_properties (_properties (window o)) false) o in
  let im := get_im glx_pipe in
  let o := with_window (Win.with_ic 0 (window o)) o in
  let o :=
    if negb (im =? 0) then
      let input_style := Z.lor XIMPreeditNothing XIMStatusNothing in
      with_window
        (Win.with_ic (XCreateIC_result im input_style) (window o))
        (display_call (XCreateIC im input_style) o)
    else o in
  let o :=
    if WP.get_cursor_hidden (_properties (window o)) then
      through (λ s, Win.xcall
                      (XDefineCursor (_xwindow s)
                         (pipe_hidden_cursor glx_pipe)) s) o
    else o in
  through (λ s, Win.xcall
                  (glXMakeCurrent (_xwindow s) (Some (gsg_context glxgsg)))
                  s) o.

(** From the assignment of [_fb_properties] to the end. *)
Definition show_window (dev_input : nat → DeviceNode)
    (glxgsg : GraphicsStateGuardian) (o : Opening) : Opening :=
  let o := with_fb_properties (get_fb_properties_after_reset glxgsg) o in
  let o := display_call (XMapWindow (_xwindow (window o))) o in
  if WP.get_raw_mice (_properties (window o)) then
    with_window (scan_window (open_raw_mice dev_input (window o))) o
  else o.

(** [open_window()]; [dev_input] is what the device nodes answer when
    raw mice are asked for. *)
Definition open_window (dev_input : nat → DeviceNode) (o : Opening)
    : bool * Opening :=
  match _pipe (window o) with
  | None => (false, o)
  | Some glx_pipe =>
      let '(glxgsg, o) := choose_gsg o in
      match gsg_visual glxgsg with
      | None => (false, o)
      | Some visual_info =>
          let o := default_geometry o in
          let o := choose_colormap glxgsg visual_info o in
          let o := create_window (pipe_root glx_pipe) visual_info o in
          if _xwindow (window o) =? 0 then (false, o)
          else
            let o := prepare_window glx_pipe glxgsg o in
            if negb (is_valid glxgsg) then (false, through close_window o)
            else if negb (verify_hardware_software
                            (get_fb_properties_after_reset glxgsg)
                            (_fb_properties (resources o))
                            (get_gl_renderer glxgsg))
            then (false, through close_window o)
            else (true, show_window dev_input glxgsg o)
      end
  end.

End OpenWindow.

(** The calls that create a colormap, and the call that maps the
    window. *)
Definition is_create_colormap (c : DisplayCall) : bool :=
  match c with
  | XCreateColormap _ _ _ => true
  | _ => false
  end.

Definition is_map_window (c : DisplayCall) : bool :=
  match c with
  | XMapWindow _ => true
  | _ => false
  end.

Definition is_create_window (c : DisplayCall) : bool :=
  match c with
  | XCreateWindow _ => true
  | _ => false
  end.

(** What has been asked of the display between two states of the
    object. *)
Definition calls_since {collaborators : OpenCollaborators}
    (o o' : Opening) : list DisplayCall :=
  drop (length (display_calls o)) (display_calls o').

(** [o'] is [o] but for the colormap member and at most one creation of
    a colormap asked of the display. *)
Definition only_adds_colormap {collaborators : OpenCollaborators}
    (o o' : Opening) : Prop :=
  window o' = window o
  ∧ _fb_properties (resources o') = _fb_properties (resources o)
  ∧ _event_mask (resources o') = _event_mask (resources o)
  ∧ ∃ new, display_calls o' = display_calls o ++ new
           ∧ Forall (λ c, is_create_colormap c = true) new
           ∧ (length new ≤ 1)%nat.

(** ** Samples for the discovery of raw mice and for open_window *)

Module Scenario.

(** A keyboard in event0, a mouse in event1, and no event2. *)
Definition keyboard_node : DeviceNode :=
  {| node_fd := 3; node_errno := 0;
     node_name := Some "AT Translated Set 2 keyboard"%string;
     node_phys := Some "isa0060/serio0/input0"%string;
     node_uniq := Some "isa0060/serio0/input0"%string;
     node_evtypes := Some [0x13; 0; 0x12; 0] |}.

Definition mouse_node : DeviceNode :=
  {| node_fd := 4; node_errno := 0;
     node_name := Some "USB Optical Mouse"%string;
     node_phys := Some "usb-0000:00:14.0-2/input0"%string;
     node_uniq := Some "usb-0000:00:14.0-2/input0"%string;
     node_evtypes := Some [0x17; 0; 0; 0] |}.

Definition missing_node : DeviceNode :=
  {| node_fd := -1; node_errno := ENOENT;
     node_name := None; node_phys := None; node_uniq := None;
     node_evtypes := None |}.

Definition dev_input (i : nat) : DeviceNode :=
  match i with
  | 0%nat => keyboard_node
  | 1%nat => mouse_node
  | _ => missing_node
  end.

(** The same nodes with a tablet behind the gap. *)
Definition dev_input_with_tablet (i : nat) : DeviceNode :=
  match i with
  | 0%nat => keyboard_node
  | 1%nat => mouse_node
  | 2%nat => missing_node
  | _ => {| node_fd := 9; node_errno := 0;
            node_name := Some "Tablet"%string;
            node_phys := Some "usb-1"%string;
            node_uniq := Some "usb-1"%string;
            node_evtypes := Some [0x0b; 0; 0; 0] |}
  end.

Definition true_color : XVisualInfo :=
  {| vi_visual := 33; vi_depth := 24; vi_c_class := TrueColor |}.

(** A display with a 24-bit true-colour visual and no input method;
    every guardian is valid, and frame-buffer properties are a number
    that subsumes the smaller ones. *)
#[export] Instance collaborators : OpenCollaborators :=
  {| FrameBufferProperties := Z;
     new_glxGraphicsStateGuardian := λ _ _, {| gsg_context := 78 |};
     gsg_visual := λ _, Some true_color;
     gsg_fbconfig := λ _, 7;
     get_fb_properties := λ _, 1;
     get_fb_properties_after_reset := λ _, 2;
     is_valid := λ _, true;
     get_gl_renderer := λ _, "renderer"%string;
     subsumes := λ have wanted, wanted <=? have;
     verify_hardware_software := λ _ _ _, true;
     get_im := λ _, 0;
     HAVE_GLXFBCONFIG := true;
     glXGetVisualFromFBConfig := λ _, Some true_color;
     glXGetFBConfigAttrib_RGBA := λ _, (0, 1);
     glXGetConfig_RGBA := λ _, (0, 1);
     XBlackPixel := λ _, 0;
     XCreateColormap_result := λ _ _ _, 12;
     XCreateWindow_result := λ _, 42;
     XCreateIC_result := λ _ _, 0 |}.

(** The sample window before it is opened. *)
Definition unopened : Opening :=
  {| window := Sample.closed_window;
     resources := {| _fb_properties := 1; _colormap := 0;
                     _event_mask := 0 |};
     display_calls := [] |}.

End Scenario.

(** Membership in a list written out element by element. *)
Ltac list_membership :=
  rewrite ?list_elem_of_In in *; cbn [In app] in *;
  intuition congruence.

(** * Properties *)

Section Properties.

Context {platform : Platform} {base : GraphicsWindowBase}.

(** ** Reading a slot after a method ran on it *)

Lemma pointer_of_on_device i f s :
  pointer_of i (Win.on_device i f s) = dev_pointer ∘ f <$> _input_devices s !! i.
Proof.
  unfold pointer_of, Win.on_device; cbn.
  rewrite list_lookup_alter_eq. by destruct (_input_devices s !! i).
Qed.

Lemma primary_in_window_read s :
  default false
    (md_in_window ∘ Device.get_pointer <$> _input_devices s !! 0%nat)
  = primary_in_window s.
Proof.
  unfold primary_in_window, pointer_of.
  by destruct (_input_devices s !! 0%nat).
Qed.

(** ** move_pointer *)

(** C8.  For all coordinates, [move_pointer] on device 0 returns false and
    leaves the object as it was when the window is not in the foreground
    or the primary pointer is marked outside the window; otherwise it
    returns true and the pointer of slot 0 is at (x, y), inside.  For a
    device index of 1 or more it returns false exactly when the index is
    past the last slot (and the object is then unchanged); otherwise it
    returns true and the pointer of that slot is at (x, y). *)
Theorem move_pointer_result (s : glxGraphicsWindow) (device x y : Z) :
  let slots := Z.of_nat (length (_input_devices s)) in
  let there := {| md_in_window := true; md_x := x; md_y := y |} in
  (device = 0 →
     (WP.get_foreground (_properties s) = false ∨ primary_in_window s = false →
        move_pointer device x y s = (false, s)) ∧
     (WP.get_foreground (_properties s) = true → primary_in_window s = true →
        (move_pointer device x y s).1 = true ∧
        pointer_of 0 (move_pointer device x y s).2 = Some there))
  ∧ (1 ≤ device →
     ((move_pointer device x y s).1 = false ↔ slots ≤ device) ∧
     (slots ≤ device → move_pointer device x y s = (false, s)) ∧
     (device < slots →
        (move_pointer device x y s).1 = true ∧
        pointer_of (Z.to_nat device) (move_pointer device x y s).2
        = Some there)).
Proof.
  intros slots there. split.
  - intros ->. unfold move_pointer. cbn [Z.eqb].
    rewrite primary_in_window_read. split.
    + intros [-> | ->]; [done | by rewrite orb_true_r].
    + intros -> Hin. rewrite Hin. cbn [negb orb fst snd]. split; [done |].
      rewrite pointer_of_on_device. cbn.
      unfold primary_in_window, pointer_of in Hin.
      destruct (_input_devices s !! 0%nat); [done | discriminate].
  - intros Hdev. unfold move_pointer.
    destruct (Z.eqb_spec device 0) as [-> | _]; [lia |].
    destruct (Z.ltb_spec device 1) as [? | _]; [lia |]. cbn [orb].
    fold slots. destruct (Z.leb_spec slots device) as [Hge | Hlt].
    + repeat split; intros; try done; lia.
    + cbn [fst snd]. repeat split; intros; try done; try lia.
      rewrite pointer_of_on_device.
      destruct (lookup_lt_is_Some_2 (_input_devices s) (Z.to_nat device))
        as [d ->]; [subst slots; lia | done].
Qed.

(** ** close_window *)

(** What [close_window] does before it calls the base class: the three
    guarded releases. *)
Lemma close_window_unfold s :
  ∃ s', close_window s = GraphicsWindow_close_window s' ∧
        _gsg s' = None ∧ _ic s' = 0 ∧ _xwindow s' = 0 ∧
        x_requests s' = x_requests s ++ close_requests s ∧
        _active s' = (if _gsg s is Some _ then false else _active s) ∧
        _awaiting_configure s' = _awaiting_configure s ∧
        _properties s' = _properties s ∧
        _input_devices s' = _input_devices s ∧
        engine_log s' = engine_log s.
Proof.
  unfold close_window, close_requests. destruct s as [? g ? ? ? ? ? xw ic ? ? ? ? ?].
  cbn. destruct g as [g |]; cbn;
    destruct (Z.eqb_spec ic 0) as [Hic | Hic]; cbn;
    destruct (Z.eqb_spec xw 0) as [Hxw | Hxw]; cbn;
    (eexists; split; [reflexivity |]); cbn;
    rewrite ?app_nil_r, <- ?app_assoc; done.
Qed.

(** A window whose three handles are null goes to the base class as it
    is. *)
Lemma close_window_released s :
  _gsg s = None → _ic s = 0 → _xwindow s = 0 →
  close_window s = GraphicsWindow_close_window s.
Proof.
  intros Hg Hic Hxw. unfold close_window.
  rewrite Hg; cbn. rewrite Hic; cbn. by rewrite Hxw.
Qed.

(** C9.  [close_window] is idempotent: called twice in a row it leaves
    the object that one call leaves.  One call releases the render
    context only if one is bound, destroys the input context only if
    there is one, destroys the native window and flushes the connection
    only if the handle is not null, and leaves the three handles null;
    it has no precondition on the object, so every partial state can be
    closed.  (The base class method is assumed to leave the handles alone
    and to be idempotent itself.) *)
Theorem close_window_idempotent (s : glxGraphicsWindow) :
  base_close_keeps_handles → base_close_idempotent →
  close_window (close_window s) = close_window s
  ∧ _gsg (close_window s) = None
  ∧ _ic (close_window s) = 0
  ∧ _xwindow (close_window s) = 0
  ∧ ∃ s', close_window s = GraphicsWindow_close_window s' ∧
          x_requests s' = x_requests s ++ close_requests s.
Proof.
  intros Hkeep Hidem.
  destruct (close_window_unfold s)
    as (s' & -> & Hg & Hic & Hxw & Hreq & _).
  destruct (Hkeep s') as (Hg' & Hic' & Hxw').
  rewrite Hg' , Hic', Hxw'.
  rewrite close_window_released by congruence.
  rewrite Hidem. eauto 10.
Qed.

(** ** process_events on a closed window *)

(** C10.  When the native window handle is null at the test that follows
    the base-class processing, [process_events] returns at once: the
    object is the one the base class left, the event queue and the raw
    device input are untouched, no event is taken. *)
Theorem process_events_closed (s : glxGraphicsWindow) (queue : list XEvent)
    (raw : RawInput) :
  _xwindow (GraphicsWindow_process_events s) = 0 →
  process_events s queue raw = (GraphicsWindow_process_events s, queue, raw)
  ∧ events_taken s queue raw = [].
Proof.
  intros Hnull. unfold process_events, events_taken. by rewrite Hnull.
Qed.

(** ** The lists built by set_wm_properties *)

(** The assertions on the lengths of the three arrays never fail. *)
Lemma wm_hint_data_lengths a properties :
  let '(type_data, state_data, set_data) := wm_hint_data a properties in
  (length type_data ≤ 2 ∧ length state_data ≤ 2 ∧ length set_data ≤ 3)%nat.
Proof.
  unfold wm_hint_data.
  destruct (WP.get_fullscreen properties), (WP.get_undecorated properties),
    (WP.has_z_order properties), (WP.get_z_order properties); cbn; lia.
Qed.

(** [set_wm_properties] first writes the type list, then the state list. *)
Lemma set_wm_properties_writes properties already_mapped s :
  ∃ later,
    x_requests (set_wm_properties properties already_mapped s)
    = x_requests s
      ++ [XChangeProperty (_xwindow s) (_net_wm_window_type (_atoms s))
            XA_ATOM (wm_hint_data (_atoms s) properties).1.1;
          XChangeProperty (_xwindow s) (_net_wm_state (_atoms s))
            XA_ATOM (wm_hint_data (_atoms s) properties).1.2]
      ++ later.
Proof.
  unfold set_wm_properties.
  pose proof (wm_hint_data_lengths (_atoms s) properties) as Hlen.
  destruct (wm_hint_data (_atoms s) properties)
    as [[type_data state_data] set_data].
  destruct Hlen as (Ht & Hs & Ha). unfold max_type_data, max_state_data,
    max_set_data.
  destruct (Z.ltb_spec (Z.of_nat (length type_data)) 32); [| lia].
  destruct (Z.ltb_spec (Z.of_nat (length state_data)) 32); [| lia].
  destruct (Z.ltb_spec (Z.of_nat (length set_data)) 32); [| lia].
  cbn [negb fst snd].
  assert (Hfold : ∀ (root : Window) acts s0,
            ∃ rs, x_requests
                    (fold_left (λ s a, Win.xcall
                                  (XSendEvent root (state_message s a)) s)
                       acts s0) = x_requests s0 ++ rs).
  { intros root acts. induction acts as [| a acts IH]; intros s0; cbn.
    - exists []. by rewrite app_nil_r.
    - destruct (IH (Win.xcall (XSendEvent root (state_message s0 a)) s0))
        as [rs ->]. cbn. eexists. by rewrite <- app_assoc. }
  destruct already_mapped; cbn.
  - destruct (_pipe s) as [glx_pipe |]; cbn.
    + edestruct Hfold as [rs ->]. cbn. eexists.
      rewrite <- !app_assoc. cbn. reflexivity.
    + exists []. by rewrite <- !app_assoc.
  - eexists. rewrite <- !app_assoc. cbn. reflexivity.
Qed.

(** C6.  With fullscreen requested, the fullscreen type atom is in the
    type list, the fullscreen state atom is in the state list, and the
    action list holds (fullscreen, add).  With fullscreen not requested,
    the action list holds (fullscreen, remove) and neither fullscreen
    atom is in the type list or in the state list.  These are the lists
    that [set_wm_properties] writes as the window type and the window
    state.  (Atoms of different names are taken to be different.) *)
Theorem fullscreen_hint_data (s : glxGraphicsWindow)
    (properties : WindowProperties) (already_mapped : bool) :
  fullscreen_atoms_apart (_atoms s) →
  let a := _atoms s in
  let type_data := (wm_hint_data a properties).1.1 in
  let state_data := (wm_hint_data a properties).1.2 in
  let set_data := (wm_hint_data a properties).2 in
  (WP.get_fullscreen properties = true →
     _net_wm_window_type_fullscreen a ∈ type_data ∧
     _net_wm_state_fullscreen a ∈ state_data ∧
     {| _state := _net_wm_state_fullscreen a;
        _action := _net_wm_state_add a |} ∈ set_data)
  ∧ (WP.get_fullscreen properties = false →
     {| _state := _net_wm_state_fullscreen a;
        _action := _net_wm_state_remove a |} ∈ set_data ∧
     (∀ f, f ∈ [_net_wm_window_type_fullscreen a;
                _net_wm_state_fullscreen a] →
           (f ∉ type_data) ∧ (f ∉ state_data)))
  ∧ ∃ later,
      x_requests (set_wm_properties properties already_mapped s)
      = x_requests s
        ++ [XChangeProperty (_xwindow s) (_net_wm_window_type a) XA_ATOM
              type_data;
            XChangeProperty (_xwindow s) (_net_wm_state a) XA_ATOM
              state_data]
        ++ later.
Proof.
  intros Hapart a type_data state_data set_data.
  split; [| split]; [| | apply set_wm_properties_writes].
  - intros Hfs. subst type_data state_data set_data.
    unfold wm_hint_data. rewrite Hfs.
    destruct (WP.get_undecorated properties), (WP.has_z_order properties),
      (WP.get_z_order properties); cbn; list_membership.
  - intros Hfs. split.
    + subst set_data. unfold wm_hint_data. rewrite Hfs.
      destruct (WP.get_undecorated properties), (WP.has_z_order properties),
        (WP.get_z_order properties); cbn; list_membership.
    + intros f Hf.
      assert (f ≠ _net_wm_window_type_splash a)
        by (apply Hapart; [done | list_membership]).
      assert (f ≠ _net_wm_state_below a)
        by (apply Hapart; [done | list_membership]).
      assert (f ≠ _net_wm_state_above a)
        by (apply Hapart; [done | list_membership]).
      subst type_data state_data. unfold wm_hint_data. rewrite Hfs.
      destruct (WP.get_undecorated properties), (WP.has_z_order properties),
        (WP.get_z_order properties); cbn; list_membership.
Qed.

(** Adding the same z-order request a second time changes nothing. *)
Lemma add_z_order_twice properties z :
  let request := WP.set_z_order z WP.empty in
  WP.add_properties (WP.add_properties properties request) request
  = WP.add_properties properties request.
Proof.
  destruct properties. unfold WP.add_properties; cbn. f_equal;
    match goal with |- WP.override ?o None = _ => by destruct o end.
Qed.

(** C7.  For each of the three z-order values, the action list built for
    a property set that carries this z-order never holds both an add and
    a remove for the same atom, and requesting the same value again gives
    the same lists.  (The three state atoms are taken to differ, and add
    to differ from remove.) *)
Theorem z_order_actions_consistent (a : WMAtoms)
    (properties : WindowProperties) (z : ZOrder) :
  state_atoms_distinct a →
  let request := WP.set_z_order z WP.empty in
  let requested := WP.add_properties properties request in
  let set_data := (wm_hint_data a requested).2 in
  (∀ atom,
     ¬ ({| _state := atom; _action := _net_wm_state_add a |} ∈ set_data ∧
        {| _state := atom; _action := _net_wm_state_remove a |} ∈ set_data))
  ∧ wm_hint_data a (WP.add_properties requested request)
    = wm_hint_data a requested.
Proof.
  intros [Hnodup Hact] request requested set_data. split.
  - intros atom [Hadd Hrem]. subst set_data requested request.
    apply NoDup_cons in Hnodup as [Hfs Hnodup].
    apply NoDup_cons in Hnodup as [Hba _].
    assert (_net_wm_state_fullscreen a ≠ _net_wm_state_below a)
      by list_membership.
    assert (_net_wm_state_fullscreen a ≠ _net_wm_state_above a)
      by list_membership.
    assert (_net_wm_state_below a ≠ _net_wm_state_above a)
      by list_membership.
    unfold wm_hint_data in Hadd, Hrem.
    destruct (WP.get_fullscreen (WP.add_properties properties
                                   (WP.set_z_order z WP.empty))),
      (WP.get_undecorated (WP.add_properties properties
                             (WP.set_z_order z WP.empty))),
      z; cbn in Hadd, Hrem;
      repeat match goal with
             | H : _ ∈ _ :: _ |- _ => apply elem_of_cons in H as [H | H]
             | H : _ ∈ [] |- _ => by apply elem_of_nil in H
             | H : {| _state := _; _action := _ |} = _ |- _ =>
                 injection H as ? ?
             end; congruence.
  - subst requested request. by rewrite add_z_order_twice.
Qed.

(** ** The key handlers touch slot 0 only *)

Lemma primary_events_emit e s :
  _input_devices s ≠ [] →
  primary_events (Win.on_device 0 (Device.emit e) s) = primary_events s ++ [e].
Proof.
  unfold primary_events, Win.on_device; cbn.
  by destruct (_input_devices s).
Qed.

Lemma primary_events_pointer x y s :
  primary_events (Win.on_device 0 (Device.set_pointer_in_window x y) s)
  = primary_events s.
Proof.
  unfold primary_events, Win.on_device; cbn.
  by destruct (_input_devices s).
Qed.

Lemma on_device_nonempty i f s :
  _input_devices s ≠ [] → _input_devices (Win.on_device i f s) ≠ [].
Proof.
  unfold Win.on_device; cbn. intros Hne Hnil. apply Hne.
  apply (f_equal length) in Hnil. rewrite length_alter in Hnil.
  by destruct (_input_devices s).
Qed.

Lemma keystrokes_frame cs s :
  let s' := fold_left (λ s c, Win.on_device 0 (Device.keystroke c) s) cs s in
  s' = Win.with_input_devices (_input_devices s') s.
Proof.
  revert s. induction cs as [| c cs IH]; intros s; cbn.
  - by destruct s.
  - cbn in IH. rewrite IH at 1. reflexivity.
Qed.

Lemma keystrokes_events cs s :
  _input_devices s ≠ [] →
  primary_events
    (fold_left (λ s c, Win.on_device 0 (Device.keystroke c) s) cs s)
  = primary_events s ++ (Keystroke <$> cs).
Proof.
  revert s. induction cs as [| c cs IH]; intros s Hne; cbn.
  - by rewrite app_nil_r.
  - rewrite IH by by apply on_device_nonempty.
    unfold Device.keystroke. rewrite primary_events_emit by done.
    by rewrite <- app_assoc.
Qed.

Lemma handle_keystroke_frame e s :
  handle_keystroke e s
  = Win.with_input_devices (_input_devices (handle_keystroke e s)) s.
Proof.
  unfold handle_keystroke. cbn [_ic Win.on_device Win.with_input_devices].
  destruct (negb (_ic s =? 0)).
  - rewrite keystrokes_frame at 1. reflexivity.
  - destruct (has_ascii_equivalent (get_button e)); reflexivity.
Qed.

Lemma handle_keypress_frame e s :
  handle_keypress e s
  = Win.with_input_devices (_input_devices (handle_keypress e s)) s.
Proof. unfold handle_keypress. case_bool_decide; reflexivity. Qed.

Lemma handle_keyrelease_frame e s :
  handle_keyrelease e s
  = Win.with_input_devices (_input_devices (handle_keyrelease e s)) s.
Proof. unfold handle_keyrelease. case_bool_decide; reflexivity. Qed.

Lemma handle_keystroke_events e s :
  _input_devices s ≠ [] →
  primary_events (handle_keystroke e s)
  = primary_events s ++ (Keystroke <$> keystrokes_of s e).
Proof.
  intros Hne. unfold handle_keystroke, keystrokes_of.
  cbn [_ic Win.on_device Win.with_input_devices].
  destruct (negb (_ic s =? 0)).
  - rewrite keystrokes_events by by apply on_device_nonempty.
    by rewrite primary_events_pointer.
  - destruct (has_ascii_equivalent (get_button e)); cbn [fmap list_fmap].
    + unfold Device.keystroke.
      rewrite primary_events_emit by by apply on_device_nonempty.
      by rewrite primary_events_pointer.
    + by rewrite primary_events_pointer, app_nil_r.
Qed.

Lemma handle_keystroke_nonempty e s :
  _input_devices s ≠ [] → _input_devices (handle_keystroke e s) ≠ [].
Proof.
  intros Hne. unfold handle_keystroke.
  cbn [_ic Win.on_device Win.with_input_devices].
  destruct (negb (_ic s =? 0)).
  - generalize (Win.on_device 0
                  (Device.set_pointer_in_window (xkey_x e) (xkey_y e)) s)
               (on_device_nonempty 0
                  (Device.set_pointer_in_window (xkey_x e) (xkey_y e)) s Hne).
    induction (XwcLookupString (_ic s) e) as [| c cs IH]; intros s0 Hs0; cbn.
    + done.
    + apply IH. by apply on_device_nonempty.
  - destruct (has_ascii_equivalent (get_button e));
      repeat apply on_device_nonempty; done.
Qed.

Lemma handle_keypress_events e s :
  _input_devices s ≠ [] →
  primary_events (handle_keypress e s)
  = primary_events s ++ button_event ButtonDown e.
Proof.
  intros Hne. unfold handle_keypress, button_event. case_bool_decide.
  - unfold Device.button_down.
    rewrite primary_events_emit by by apply on_device_nonempty.
    by rewrite primary_events_pointer.
  - by rewrite primary_events_pointer, app_nil_r.
Qed.

Lemma handle_keyrelease_events e s :
  _input_devices s ≠ [] →
  primary_events (handle_keyrelease e s)
  = primary_events s ++ button_event ButtonUp e.
Proof.
  intros Hne. unfold handle_keyrelease, button_event. case_bool_decide.
  - unfold Device.button_up.
    rewrite primary_events_emit by by apply on_device_nonempty.
    by rewrite primary_events_pointer.
  - by rewrite primary_events_pointer, app_nil_r.
Qed.

(** ** ConfigureNotify *)

(** What one ConfigureNotify does in the loop, whatever release is
    buffered. *)
Lemma loop_body_configure s held event width height :
  xevent event = ConfigureNotify width height →
  XFilterEvent event = false →
  ∃ devices,
    (loop_body (s, held) event).1
    = (dispatch (ConfigureNotify width height)
         (Win.with_input_devices devices s)).1.
Proof.
  intros Hev Hfilter. unfold loop_body. rewrite Hfilter, Hev.
  destruct held as [r |]; cbn [is_key_repeat].
  - rewrite handle_keyrelease_frame. eauto.
  - exists (_input_devices s). by destruct s.
Qed.

(** C5.  On a ConfigureNotify that reports a size different from the
    size of the property model, the event loop of a fixed-size window
    writes one XConfigureWindow request for the width and height of the
    model and leaves the model as it was; for a window that is not
    fixed-size the reported size becomes the size of the model. *)
Theorem configure_notify_size (s : glxGraphicsWindow)
    (held : option XKeyEvent) (event : XEvent) (width height : Z) :
  xevent event = ConfigureNotify width height →
  XFilterEvent event = false →
  let s' := (loop_body (s, held) event).1 in
  let model := _properties s in
  (WP.get_fixed_size model = true →
   width ≠ WP.get_x_size model ∨ height ≠ WP.get_y_size model →
     x_requests s'
     = x_requests s
       ++ [XConfigureWindow (_xwindow s) (Z.lor CWWidth CWHeight)
             {| changes_x := None; changes_y := None;
                changes_width := Some (WP.get_x_size model);
                changes_height := Some (WP.get_y_size model);
                changes_stack_mode := None |}]
     ∧ _properties s' = model)
  ∧ (WP.get_fixed_size model = false →
     wp_size (_properties s') = Some (width, height)
     ∧ x_requests s' = x_requests s).
Proof.
  intros Hev Hfilter s' model. subst s'.
  destruct (loop_body_configure s held event width height Hev Hfilter)
    as [devices ->].
  subst model. cbn. split.
  - intros -> Hdiff.
    destruct (Z.eqb_spec width (WP.get_x_size (_properties s))),
      (Z.eqb_spec height (WP.get_y_size (_properties s))); cbn;
      try done; lia.
  - intros ->. cbn. split; [| done].
    unfold WP.override, WP.set_size; cbn. done.
Qed.

(** ** The key-repeat heuristic *)





(** A press that follows the release by at most one time unit passes the
    test on the unsigned difference of the time stamps. *)
Lemma ulong_sub_within t t' :
  0 ≤ t → t ≤ t' → t' ≤ t + 1 → ulong_sub t' t ≤ 1.
Proof.
  intros. unfold ulong_sub, ulong_modulus.
  rewrite Z.mod_small; lia.
Qed.


(** ** The loop takes every event of the window *)

Lemma XCheckIfEvent_length predicate queue event queue' :
  XCheckIfEvent predicate queue = Some (event, queue') →
  length queue = S (length queue').
Proof.
  revert event queue'. induction queue as [| e queue IH]; intros event queue'.
  - done.
  - cbn. destruct (predicate e).
    + by intros [= <- <-].
    + destruct (XCheckIfEvent predicate queue) as [[found rest] |]; [| done].
      intros [= <- <-]. cbn. by rewrite (IH found rest).
Qed.

(** [length queue] turns are enough: more fuel changes nothing. *)
Lemma drain_fuel fuel ls queue :
  (length queue ≤ fuel)%nat →
  drain fuel ls queue = drain (length queue) ls queue.
Proof.
  revert ls queue. induction fuel as [| fuel IH]; intros ls queue Hlen.
  - destruct queue; [done | cbn in Hlen; lia].
  - destruct (XCheckIfEvent (check_event ls.1) queue)
      as [[event queue'] |] eqn:Hcheck.
    + pose proof (XCheckIfEvent_length _ _ _ _ Hcheck) as Hq.
      rewrite Hq. cbn. rewrite Hcheck. rewrite IH by lia. done.
    + cbn. rewrite Hcheck. destruct queue; cbn; [done |].
      cbn in Hcheck. by rewrite Hcheck.
Qed.

(** The loop ends because [XCheckIfEvent] finds nothing more, never for
    want of fuel. *)
Lemma drain_complete fuel ls queue :
  (length queue ≤ fuel)%nat →
  let '(ls', rest, _) := drain fuel ls queue in
  XCheckIfEvent (check_event ls'.1) rest = None.
Proof.
  revert ls queue. induction fuel as [| fuel IH]; intros ls queue Hlen.
  - destruct queue; [done | cbn in Hlen; lia].
  - cbn. destruct (XCheckIfEvent (check_event ls.1) queue)
      as [[event queue'] |] eqn:Hcheck; [| done].
    pose proof (XCheckIfEvent_length _ _ _ _ Hcheck) as Hq.
    specialize (IH (loop_body ls event) queue').
    destruct (drain fuel (loop_body ls event) queue') as [[ls' rest] taken].
    apply IH. lia.
Qed.

(** The state at loop exit is the loop body run over the events taken. *)
Lemma drain_run_loop fuel ls queue :
  (drain fuel ls queue).1.1 = run_loop ls (drain fuel ls queue).2.
Proof.
  revert ls queue. induction fuel as [| fuel IH]; intros ls queue.
  - done.
  - cbn. destruct (XCheckIfEvent (check_event ls.1) queue)
      as [[event queue'] |]; [| done].
    specialize (IH (loop_body ls event) queue').
    destruct (drain fuel (loop_body ls event) queue') as [[ls' rest] taken].
    cbn in *. done.
Qed.

Lemma process_events_run_loop s queue raw :
  _xwindow (GraphicsWindow_process_events s) ≠ 0 →
  (process_events s queue raw).1.1
  = loop_exit
      (run_loop ((poll_raw_mice (GraphicsWindow_process_events s) raw).1, None)
                (events_taken s queue raw)).
Proof.
  intros Hopen. unfold process_events, events_taken.
  rewrite (proj2 (Z.eqb_neq _ _) Hopen).
  destruct (poll_raw_mice (GraphicsWindow_process_events s) raw) as [s0 raw'].
  cbn [fst]. rewrite <- drain_run_loop.
  by destruct (drain (length queue) (s0, None) queue) as [[ls' rest] taken].
Qed.

(** ** set_wm_properties and set_properties_now, request by request *)

Lemma requests_since_app s s' new :
  x_requests s' = x_requests s ++ new → requests_since s s' = new.
Proof.
  intros Hreq. unfold requests_since. by rewrite Hreq, drop_app_length.
Qed.

(** [set_wm_properties] only writes requests, and none of them touches
    the geometry. *)
Lemma set_wm_properties_frame properties already_mapped s :
  ∃ new,
    set_wm_properties properties already_mapped s
    = Win.with_x_requests (x_requests s ++ new) s
    ∧ Forall (λ r, is_geometry_request r = false) new.
Proof.
  unfold set_wm_properties.
  destruct (wm_hint_data (_atoms s) properties)
    as [[type_data state_data] set_data].
  assert (Hnone : Win.with_x_requests (x_requests s ++ []) s = s).
  { rewrite app_nil_r. by destruct s. }
  destruct (negb (Z.of_nat (length type_data) <? max_type_data));
    [exists []; by rewrite Hnone |].
  destruct (negb (Z.of_nat (length state_data) <? max_state_data));
    [exists []; by rewrite Hnone |].
  destruct (negb (Z.of_nat (length set_data) <? max_set_data));
    [exists []; by rewrite Hnone |].
  assert (Hfold : ∀ (root : Window) acts s0,
            ∃ rs, fold_left (λ s a, Win.xcall
                               (XSendEvent root (state_message s a)) s)
                    acts s0 = Win.with_x_requests (x_requests s0 ++ rs) s0
                  ∧ Forall (λ r, is_geometry_request r = false) rs).
  { intros root acts. induction acts as [| a acts IH]; intros s0; cbn.
    - exists []. rewrite app_nil_r. split; [by destruct s0 | done].
    - destruct (IH (Win.xcall (XSendEvent root (state_message s0 a)) s0))
        as (rs & -> & Hrs). cbn.
      exists (XSendEvent root (state_message s0 a) :: rs).
      rewrite <- app_assoc. split; [done |]. by constructor. }
  destruct already_mapped; cbn.
  - destruct (_pipe s) as [glx_pipe |]; cbn.
    + edestruct Hfold as (rs & -> & Hrs).
      unfold Win.xcall, Win.with_x_requests; cbn.
      eexists. rewrite <- !app_assoc. split; [reflexivity |].
      cbn. repeat constructor. apply Forall_app. split; [done |].
      by repeat constructor.
    + unfold Win.xcall, Win.with_x_requests; cbn.
      eexists. rewrite <- !app_assoc. split; [reflexivity |].
      by repeat constructor.
  - unfold Win.xcall, Win.with_x_requests; cbn.
    eexists. rewrite <- !app_assoc. split; [reflexivity |].
    by repeat constructor.
Qed.

Lemma geometry_mask_zero properties :
  (geometry_mask properties =? 0)
  = negb (WP.has_origin properties || WP.has_size properties
          || WP.has_z_order properties).
Proof.
  unfold geometry_mask.
  by destruct (WP.has_origin properties), (WP.has_size properties),
    (WP.has_z_order properties).
Qed.

(** [set_properties_now] on a window with its pipe, once the base class
    has handed back a request [p1] that still asks for something: what
    the rest of the method does with the geometry. *)
Lemma set_properties_now_open properties s glx_pipe s1 p1 :
  _pipe s = Some glx_pipe →
  GraphicsWindow_set_properties_now s (fullscreen_implies glx_pipe properties)
  = (s1, p1) →
  WP.is_any_specified p1 = true →
  let s' := (set_properties_now properties s).1 in
  let geometry :=
    WP.has_origin p1 || WP.has_size p1 || WP.has_z_order p1 in
  _awaiting_configure s' = geometry || _awaiting_configure s1
  ∧ wp_origin (_properties s') = wp_origin (_properties s1)
  ∧ wp_size (_properties s') = wp_size (_properties s1)
  ∧ wp_z_order (_properties s')
    = WP.override (wp_z_order (_properties s1)) (wp_z_order p1)
  ∧ ∃ new,
      x_requests s'
      = x_requests s1
        ++ (if geometry
            then [XReconfigureWMWindow (_xwindow s1) (_screen s1)
                    (geometry_mask p1) (geometry_changes p1)]
            else [])
        ++ new
      ∧ Forall (λ r, is_geometry_request r = false) new.
Proof.
  intros Hpipe Hbase Hany s' geometry. subst s' geometry.
  unfold set_properties_now. rewrite Hpipe, Hbase, Hany. cbn [negb].
  unfold geometry_mask, CWX, CWY, CWWidth, CWHeight, CWStackMode.
  destruct p1 as [o sz t u fx fs fg mn rm op ch z].
  destruct o as [[ox oy] |], sz as [[sx sy] |], t as [t |], fs as [fs |],
    z as [z |], ch as [[|] |], fg as [[|] |];
    cbn -[set_wm_properties app];
    repeat match goal with
           | |- context [Z.lor ?a ?b] =>
               let v := eval vm_compute in (Z.lor a b) in
               change (Z.lor a b) with v
           end;
    cbn -[set_wm_properties app];
    match goal with
    | |- context [set_wm_properties ?p ?m ?s0] =>
        destruct (set_wm_properties_frame p m s0) as (new & -> & Hnew)
    end;
    cbn -[app];
    (split; [done |]); (split; [done |]); (split; [done |]); (split; [done |]);
    eexists; rewrite <- ?app_assoc;
    (split; [reflexivity |]); cbn [app]; repeat constructor; done.
Qed.

(** ** Who touches _awaiting_configure *)

Lemma poll_raw_mice_awaiting s raw :
  _awaiting_configure (poll_raw_mice s raw).1 = _awaiting_configure s.
Proof.
  unfold poll_raw_mice. destruct HAVE_LINUX_INPUT_H; [| done].
  by destruct (poll_raw_mouse_list (_mouse_device_info s) (_input_devices s)
                 raw) as [[infos devices] raw'].
Qed.

Lemma close_window_awaiting s :
  base_keeps_awaiting_configure →
  _awaiting_configure s = true → _awaiting_configure (close_window s) = true.
Proof.
  intros Hbase Hs.
  destruct (close_window_unfold s) as (s' & -> & _ & _ & _ & _ & _ & Hflag & _).
  apply Hbase. congruence.
Qed.

Lemma handle_keystroke_awaiting e s :
  _awaiting_configure (handle_keystroke e s) = _awaiting_configure s.
Proof. by rewrite handle_keystroke_frame. Qed.

Lemma handle_keypress_awaiting e s :
  _awaiting_configure (handle_keypress e s) = _awaiting_configure s.
Proof. by rewrite handle_keypress_frame. Qed.

Lemma handle_keyrelease_awaiting e s :
  _awaiting_configure (handle_keyrelease e s) = _awaiting_configure s.
Proof. by rewrite handle_keyrelease_frame. Qed.

(** Every case of the switch but ConfigureNotify leaves the flag set. *)
Lemma dispatch_awaiting event s :
  base_keeps_awaiting_configure →
  (∀ width height, event ≠ ConfigureNotify width height) →
  _awaiting_configure s = true →
  _awaiting_configure (dispatch event s).1 = true.
Proof.
  intros Hbase Hnot Hs. destruct event; cbn; try done.
  - by destruct (Hnot width height).
  - by rewrite handle_keypress_awaiting, handle_keystroke_awaiting.
  - destruct (data_l0 =? _wm_delete_window (_atoms s)); [| done].
    destruct (negb (bool_decide (_close_request_event s = EmptyString)));
      cbn; [done |].
    by apply close_window_awaiting.
Qed.

Lemma loop_body_awaiting ls event :
  base_keeps_awaiting_configure →
  ¬ configure_ack event →
  _awaiting_configure ls.1 = true →
  _awaiting_configure (loop_body ls event).1 = true.
Proof.
  intros Hbase Hnot Hs. unfold loop_body.
  destruct (XFilterEvent event) eqn:Hfilter; [done |].
  assert (Hev : ∀ width height, xevent event ≠ ConfigureNotify width height).
  { intros width height Hev. apply Hnot. split; eauto. }
  destruct ls as [s [r |]]; cbn [fst] in *.
  - destruct (is_key_repeat (xevent event) r) as [xkey |]; cbn [fst].
    + by rewrite handle_keypress_awaiting, handle_keystroke_awaiting.
    + apply dispatch_awaiting; [done | done |].
      by rewrite handle_keyrelease_awaiting.
  - by apply dispatch_awaiting.
Qed.

Lemma run_loop_awaiting ls events :
  base_keeps_awaiting_configure →
  Forall (λ event, ¬ configure_ack event) events →
  _awaiting_configure ls.1 = true →
  _awaiting_configure (run_loop ls events).1 = true.
Proof.
  intros Hbase Hnone. revert ls.
  induction Hnone as [| event events Hevent _ IH]; intros ls Hs; [done |].
  cbn. apply IH. by apply loop_body_awaiting.
Qed.

Lemma loop_exit_awaiting ls :
  _awaiting_configure (loop_exit ls) = _awaiting_configure ls.1.
Proof.
  destruct ls as [s [r |]]; cbn; [| done]. apply handle_keyrelease_awaiting.
Qed.

Lemma process_events_awaiting s queue raw :
  base_keeps_awaiting_configure →
  Forall (λ event, ¬ configure_ack event) (events_taken s queue raw) →
  _awaiting_configure s = true →
  _awaiting_configure (process_events s queue raw).1.1 = true.
Proof.
  intros Hbase Hnone Hs.
  destruct (decide (_xwindow (GraphicsWindow_process_events s) = 0))
    as [Hnull | Hopen].
  - unfold process_events. rewrite Hnull. cbn. by apply Hbase.
  - rewrite process_events_run_loop by done.
    rewrite loop_exit_awaiting. apply run_loop_awaiting; [done | done |].
    cbn. rewrite poll_raw_mice_awaiting. by apply Hbase.
Qed.

Lemma move_pointer_awaiting device x y s :
  _awaiting_configure (move_pointer device x y s).2 = _awaiting_configure s.
Proof.
  unfold move_pointer.
  repeat match goal with |- context [if ?c then _ else _] => destruct c end;
    done.
Qed.

Lemma set_properties_now_awaiting properties s :
  base_keeps_awaiting_configure →
  _awaiting_configure s = true →
  _awaiting_configure (set_properties_now properties s).1 = true.
Proof.
  intros Hbase Hs.
  destruct (_pipe s) as [glx_pipe |] eqn:Hpipe.
  - destruct (GraphicsWindow_set_properties_now s
                (fullscreen_implies glx_pipe properties)) as [s1 p1] eqn:Hb.
    assert (Hs1 : _awaiting_configure s1 = true).
    { change s1 with (s1, p1).1. rewrite <- Hb. by apply Hbase. }
    destruct (WP.is_any_specified p1) eqn:Hany.
    + destruct (set_properties_now_open properties s glx_pipe s1 p1
                  Hpipe Hb Hany) as (-> & _).
      rewrite Hs1. apply orb_true_r.
    + unfold set_properties_now. by rewrite Hpipe, Hb, Hany.
  - unfold set_properties_now. rewrite Hpipe. by apply Hbase.
Qed.

(** Once set, the flag is reset by no operation but a [process_events]
    that takes a ConfigureNotify. *)
Lemma cleared_only_by_ack op s :
  base_keeps_awaiting_configure →
  _awaiting_configure s = true →
  _awaiting_configure (run_op op s) = false →
  ∃ queue raw,
    op = Op_process_events queue raw
    ∧ Exists configure_ack (events_taken s queue raw).
Proof.
  intros Hbase Hs Hcleared. destruct op as [device x y | queue raw | p |];
    cbn in Hcleared.
  - rewrite move_pointer_awaiting in Hcleared. congruence.
  - exists queue, raw. split; [done |].
    destruct (decide (Exists configure_ack (events_taken s queue raw)))
      as [Hex | Hnone]; [done |].
    apply not_Exists_Forall in Hnone; [| apply _].
    rewrite process_events_awaiting in Hcleared by done. discriminate.
  - rewrite set_properties_now_awaiting in Hcleared by done. discriminate.
  - rewrite close_window_awaiting in Hcleared by done. discriminate.
Qed.

(** ** The AwaitingConfigure flag *)



(** C4, as the code has it.  When [set_properties_now] writes a request
    that changes the geometry or the stacking (XReconfigureWMWindow), it
    returns with the flag set.  The size re-assertion that a
    ConfigureNotify triggers on a fixed-size window writes its
    XConfigureWindow with the flag reset by that same event, and does
    not set it.  The flag, once set, is reset by no operation but a
    [process_events] that takes a ConfigureNotify. *)
Theorem geometry_request_latches :
  base_keeps_awaiting_configure →
  (∀ properties s glx_pipe s1 p1,
     _pipe s = Some glx_pipe →
     GraphicsWindow_set_properties_now s
       (fullscreen_implies glx_pipe properties) = (s1, p1) →
     let s' := (set_properties_now properties s).1 in
     Exists (λ r, is_geometry_request r = true) (requests_since s1 s') →
     _awaiting_configure s' = true)
  ∧ (∀ s held event width height,
       xevent event = ConfigureNotify width height →
       XFilterEvent event = false →
       WP.get_fixed_size (_properties s) = true →
       width ≠ WP.get_x_size (_properties s)
       ∨ height ≠ WP.get_y_size (_properties s) →
       let s' := (loop_body (s, held) event).1 in
       Exists (λ r, is_geometry_request r = true) (requests_since s s')
       ∧ _awaiting_configure s' = false)
  ∧ (∀ op s,
       _awaiting_configure s = true →
       _awaiting_configure (run_op op s) = false →
       ∃ queue raw,
         op = Op_process_events queue raw
         ∧ Exists configure_ack (events_taken s queue raw)).
Proof.
  intros Hbase.
  split; [| split; [| intros op s; by apply cleared_only_by_ack]].
  - intros properties s glx_pipe s1 p1 Hpipe Hb s' Hsent. subst s'.
    destruct (WP.is_any_specified p1) eqn:Hany.
    + destruct (set_properties_now_open properties s glx_pipe s1 p1
                  Hpipe Hb Hany) as (-> & _ & _ & _ & new & Hreq & Hnew).
      erewrite requests_since_app in Hsent by exact Hreq.
      destruct (WP.has_origin p1 || WP.has_size p1 || WP.has_z_order p1);
        [done |].
      cbn in Hsent. apply Exists_exists in Hsent as (r & Hr & Hgeo).
      rewrite Forall_forall in Hnew. rewrite (Hnew r Hr) in Hgeo.
      discriminate.
    + revert Hsent. unfold set_properties_now. rewrite Hpipe, Hb, Hany.
      cbn [negb fst]. unfold requests_since. rewrite drop_all.
      by intros ?%Exists_nil.
  - intros s held event width height Hev Hfilter Hfixed Hdiff s'. subst s'.
    destruct (loop_body_configure s held event width height Hev Hfilter)
      as [devices ->].
    unfold requests_since. cbn. rewrite Hfixed.
    destruct (Z.eqb_spec width (WP.get_x_size (_properties s))),
      (Z.eqb_spec height (WP.get_y_size (_properties s))); cbn;
      try lia; rewrite drop_app_length; split; try done; by left.
Qed.

End Properties.

(** * The statements on the sample window *)

#[local] Existing Instances Sample.platform Sample.bare_base.

Lemma bare_base_keeps_awaiting_configure :
  base_keeps_awaiting_configure (base := Sample.bare_base).
Proof. intros s Hs. cbn. auto. Qed.

Lemma bare_base_close_keeps_handles :
  base_close_keeps_handles (base := Sample.bare_base).
Proof. intros s. cbn. auto. Qed.

Lemma bare_base_close_idempotent :
  base_close_idempotent (base := Sample.bare_base).
Proof. intros s. reflexivity. Qed.

Lemma sample_fullscreen_atoms_apart : fullscreen_atoms_apart Sample.atoms.
Proof.
  intros f o Hf Ho. rewrite list_elem_of_In in Hf, Ho. cbn in Hf, Ho.
  intuition (subst; discriminate).
Qed.

Lemma sample_state_atoms_distinct : state_atoms_distinct Sample.atoms.
Proof.
  split; [| discriminate]. cbn.
  repeat (apply NoDup_cons; split;
          [rewrite list_elem_of_In; cbn; intuition discriminate |]).
  apply NoDup_nil_2.
Qed.






(** C4 as stated fails: on the fixed-size sample window, which waits for
    an acknowledgement, a ConfigureNotify that reports 200x200 makes
    [process_events] write an XConfigureWindow for 800x600 and return
    with the flag reset. *)
Lemma reassertion_does_not_latch :
  let event := Sample.ev (ConfigureNotify 200 200) in
  let s' := (process_events Sample.fixed_window [event] ∅).1.1 in
  requests_since Sample.fixed_window s'
  = [XConfigureWindow 42 12
       {| changes_x := None; changes_y := None;
          changes_width := Some 800; changes_height := Some 600;
          changes_stack_mode := None |}]
  ∧ _awaiting_configure s' = false.
Proof. vm_compute. split; reflexivity. Qed.

Lemma geometry_request_latches_witness :
  let s' :=
    (set_properties_now (WP.set_origin 5 6 WP.empty) Sample.window).1 in
  _awaiting_configure s' = true.
Proof.
  intros s'.
  apply (proj1 (geometry_request_latches (platform := Sample.platform)
                  bare_base_keeps_awaiting_configure)
           (WP.set_origin 5 6 WP.empty) Sample.window Sample.pipe
           Sample.window (WP.set_origin 5 6 WP.empty) eq_refl eq_refl).
  vm_compute. by left.
Defined.

Lemma configure_notify_size_witness :
  let event := Sample.ev (ConfigureNotify 200 200) in
  _properties (loop_body (Sample.fixed_window, None) event).1
  = _properties Sample.fixed_window.
Proof.
  intros event.
  apply (proj1 (configure_notify_size (platform := Sample.platform)
                  (base := Sample.bare_base) Sample.fixed_window None event
                  200 200 eq_refl eq_refl));
    [reflexivity | left; vm_compute; discriminate].
Defined.

Lemma fullscreen_hint_data_witness :
  let properties := WP.set_fullscreen true (_properties Sample.window) in
  303 ∈ (wm_hint_data Sample.atoms properties).1.1
  ∧ 305 ∈ (wm_hint_data Sample.atoms properties).1.2.
Proof.
  intros properties.
  destruct (fullscreen_hint_data Sample.window properties true
              sample_fullscreen_atoms_apart) as (Hon & _).
  destruct (Hon eq_refl) as (Htype & Hstate & _).
  split; [exact Htype | exact Hstate].
Defined.

Lemma z_order_actions_witness :
  wm_hint_data Sample.atoms
    (WP.add_properties
       (WP.add_properties (_properties Sample.window)
          (WP.set_z_order Z_bottom WP.empty))
       (WP.set_z_order Z_bottom WP.empty))
  = wm_hint_data Sample.atoms
      (WP.add_properties (_properties Sample.window)
         (WP.set_z_order Z_bottom WP.empty)).
Proof.
  exact (proj2 (z_order_actions_consistent Sample.atoms
                  (_properties Sample.window) Z_bottom
                  sample_state_atoms_distinct)).
Defined.

Lemma move_pointer_witness :
  (move_pointer 0 5 7 Sample.window).1 = true
  ∧ pointer_of 0 (move_pointer 0 5 7 Sample.window).2
    = Some {| md_in_window := true; md_x := 5; md_y := 7 |}.
Proof.
  apply (proj1 (move_pointer_result Sample.window 0 5 7) eq_refl);
    reflexivity.
Defined.

Lemma close_window_witness :
  close_window (close_window Sample.half_open_window)
  = close_window Sample.half_open_window.
Proof.
  exact (proj1 (close_window_idempotent Sample.half_open_window
                  bare_base_close_keeps_handles
                  bare_base_close_idempotent)).
Defined.

Lemma process_events_closed_witness :
  process_events Sample.closed_window
    [Sample.ev (KeyPress (Sample.key 97 100))] ∅
  = (Sample.closed_window, [Sample.ev (KeyPress (Sample.key 97 100))], ∅).
Proof.
  exact (proj1 (process_events_closed (platform := Sample.platform)
                  (base := Sample.bare_base) Sample.closed_window
                  [Sample.ev (KeyPress (Sample.key 97 100))] ∅ eq_refl)).
Defined.

(** * More properties of the translation unit *)

Section Coverage.

Context {platform : Platform} {base : GraphicsWindowBase}.

(** ** Raw mice *)

Lemma read_all_data fd io_buffer chunks tail :
  Forall (λ chunk, chunk ≠ []) chunks →
  read_all fd io_buffer ((Read_bytes <$> chunks) ++ tail)
  = read_all fd (io_buffer ++ concat chunks) tail.
Proof.
  intros Hchunks. revert io_buffer.
  induction Hchunks as [| chunk chunks Hne _ IH]; intros io_buffer; cbn.
  - by rewrite app_nil_r.
  - destruct chunk as [| b chunk]; [done |]. cbn [length].
    destruct (Z.ltb_spec 0 (Z.of_nat (S (length chunk)))); [| lia].
    rewrite IH. by rewrite <- app_assoc.
Qed.

(** X1.  The read loop of [poll_raw_mice] appends the bytes of every
    read to the buffer, in order, until the first answer that is not
    data: EAGAIN (or no answer left) ends the loop with the descriptor
    open, any other error or an end of file closes it.  Answers after
    that one are left for the next poll. *)
Theorem read_loop_until_would_block (fd : Z) (io_buffer : list Byte.byte)
    (chunks : list (list Byte.byte)) :
  Forall (λ chunk, chunk ≠ []) chunks →
  let data := Read_bytes <$> chunks in
  read_all fd io_buffer data = (fd, io_buffer ++ concat chunks, [])
  ∧ (∀ errno later,
       read_all fd io_buffer (data ++ Read_error errno :: later)
       = (if (errno =? EWOULDBLOCK) || (errno =? EAGAIN) then fd else -1,
          io_buffer ++ concat chunks, later))
  ∧ (∀ later,
       read_all fd io_buffer (data ++ Read_bytes [] :: later)
       = (-1, io_buffer ++ concat chunks, later)).
Proof.
  intros Hchunks data. subst data. split; [| split].
  - rewrite <- (app_nil_r (Read_bytes <$> chunks)).
    by rewrite read_all_data.
  - intros errno later. rewrite read_all_data by done. cbn.
    by destruct ((errno =? EWOULDBLOCK) || (errno =? EAGAIN)).
  - intros later. by rewrite read_all_data.
Qed.

Lemma read_all_appends fd io_buffer pending :
  ∃ read, (read_all fd io_buffer pending).1.2 = io_buffer ++ read.
Proof.
  revert io_buffer. induction pending as [| answer pending IH];
    intros io_buffer; cbn.
  - exists []. by rewrite app_nil_r.
  - destruct answer as [bytes | errno].
    + destruct (0 <? Z.of_nat (length bytes)).
      * destruct (IH (io_buffer ++ bytes)) as [read ->].
        exists (bytes ++ read). by rewrite app_assoc.
      * exists []. by rewrite app_nil_r.
    + exists []. rewrite app_nil_r.
      by destruct ((errno =? EWOULDBLOCK) || (errno =? EAGAIN)).
Qed.

(** The three parts of one turn of the loop over the devices. *)
Lemma poll_raw_mouse_read inf devices raw :
  ∃ fd io_buffer raw',
    (∃ read, io_buffer = _io_buffer inf ++ read) ∧
    (_fd inf < 0 → fd = _fd inf ∧ io_buffer = _io_buffer inf ∧ raw' = raw) ∧
    let nevents := (length io_buffer / sizeof_input_event)%nat in
    let index := Z.to_nat (_input_device_index inf) in
    poll_raw_mouse inf devices raw
    = match nevents, devices !! index with
      | O, _ | _, None =>
          ({| _fd := fd; _input_device_index := _input_device_index inf;
              _io_buffer := io_buffer |}, devices, raw')
      | _, Some dev =>
          let '(x, y, dev) :=
            fold_left raw_event_step
              (event_at io_buffer <$> seq 0 nevents)
              (md_x (Device.get_raw_pointer dev),
               md_y (Device.get_raw_pointer dev), dev) in
          ({| _fd := fd; _input_device_index := _input_device_index inf;
              _io_buffer :=
                drop (nevents * sizeof_input_event)%nat io_buffer |},
           <[index := Device.set_pointer_in_window x y dev]> devices, raw')
      end.
Proof.
  unfold poll_raw_mouse.
  destruct (Z.leb_spec 0 (_fd inf)) as [Hopen | Hclosed].
  - destruct (raw !! _fd inf) as [pending |] eqn:Hpending.
    + destruct (read_all_appends (_fd inf) (_io_buffer inf) pending)
        as [read Hread].
      destruct (read_all (_fd inf) (_io_buffer inf) pending)
        as [[fd io_buffer] pending'].
      cbn in Hread. exists fd, io_buffer, (<[_fd inf := pending']> raw).
      split; [eauto |]. split; [lia | done].
    + exists (_fd inf), (_io_buffer inf), raw.
      split; [exists []; by rewrite app_nil_r |]. done.
  - exists (_fd inf), (_io_buffer inf), raw.
    split; [exists []; by rewrite app_nil_r |]. done.
Qed.

Lemma read_all_stops fd io_buffer rest :
  (∀ bytes, head rest = Some (Read_bytes bytes) → bytes = []) →
  (read_all fd io_buffer rest).1.2 = io_buffer
  ∧ (read_all fd io_buffer rest).2 = tail rest.
Proof.
  intros Hstop. destruct rest as [| [bytes | errno] rest]; cbn.
  - done.
  - by rewrite (Hstop bytes eq_refl).
  - by destruct ((errno =? EWOULDBLOCK) || (errno =? EAGAIN)).
Qed.

Lemma concat_records_length (records : list (list Byte.byte)) :
  Forall (λ record, length record = sizeof_input_event) records →
  length (concat records) = (length records * sizeof_input_event)%nat.
Proof.
  induction 1 as [| record records Hrecord _ IH]; cbn; [done |].
  rewrite length_app, IH, Hrecord. lia.
Qed.

Lemma records_count (records : list (list Byte.byte))
    (partial : list Byte.byte) :
  Forall (λ record, length record = sizeof_input_event) records →
  (length partial < sizeof_input_event)%nat →
  (length (concat records ++ partial) / sizeof_input_event)%nat
  = length records.
Proof.
  intros Hrecords Hpartial.
  rewrite length_app, concat_records_length by done.
  rewrite Nat.div_add_l by lia. rewrite Nat.div_small by done. lia.
Qed.

Lemma event_at_records (records : list (list Byte.byte))
    (partial : list Byte.byte) :
  Forall (λ record, length record = sizeof_input_event) records →
  event_at (concat records ++ partial) <$> seq 0 (length records)
  = as_input_event <$> records.
Proof.
  induction 1 as [| record records Hrecord _ IH]; [done |].
  cbn [length seq fmap list_fmap concat]. f_equal.
  - unfold event_at. rewrite <- app_assoc, Nat.mul_0_l, drop_0.
    by rewrite take_app_length'.
  - rewrite <- IH, <- fmap_S_seq, <- list_fmap_compose.
    apply list_fmap_ext. intros _ i _. unfold event_at. cbn [compose].
    rewrite <- app_assoc. do 2 f_equal.
    by rewrite Nat.mul_succ_l, Nat.add_comm, drop_app_add'.
Qed.

(** X2.  One poll of a raw mouse with an open descriptor parses whole
    records only and keeps the rest.  Let the descriptor answer the data
    [chunks] and then something that is not data (it would block, fails,
    or is at end of file), and cut the bytes buffered before followed by
    the bytes of [chunks] into the whole records [records] and the
    [partial] bytes that are left, fewer than one record.  Then the poll
    takes the answers up to and including the one that ended the
    reading, leaves exactly [partial] in the buffer, and, when there is a
    record, stores in the slot of the device the result of the loop body
    run over the records [records], each parsed once and in order,
    followed by [set_pointer_in_window]; with no whole record the
    devices are left as they are. *)
Theorem raw_records_consumed_whole (inf : MouseDeviceInfo)
    (devices : list GraphicsWindowInputDevice) (raw : RawInput)
    (chunks : list (list Byte.byte)) (rest : list ReadResult)
    (records : list (list Byte.byte)) (partial : list Byte.byte)
    (dev : GraphicsWindowInputDevice) :
  0 ≤ _fd inf →
  raw !! _fd inf = Some ((Read_bytes <$> chunks) ++ rest) →
  Forall (λ chunk, chunk ≠ []) chunks →
  (∀ bytes, head rest = Some (Read_bytes bytes) → bytes = []) →
  _io_buffer inf ++ concat chunks = concat records ++ partial →
  Forall (λ record, length record = sizeof_input_event) records →
  (length partial < sizeof_input_event)%nat →
  devices !! Z.to_nat (_input_device_index inf) = Some dev →
  let r := poll_raw_mouse inf devices raw in
  let st :=
    fold_left raw_event_step (as_input_event <$> records)
      (md_x (Device.get_raw_pointer dev),
       md_y (Device.get_raw_pointer dev), dev) in
  _io_buffer r.1.1 = partial
  ∧ r.1.2
    = match records with
      | [] => devices
      | _ :: _ =>
          <[Z.to_nat (_input_device_index inf) :=
              Device.set_pointer_in_window st.1.1 st.1.2 st.2]> devices
      end
  ∧ r.2 = <[_fd inf := tail rest]> raw.
Proof.
  intros Hopen Hraw Hchunks Hstop Hcut Hrecords Hpartial Hdev r st.
  subst r st. unfold poll_raw_mouse.
  rewrite (proj2 (Z.leb_le _ _) Hopen), Hraw, read_all_data by done.
  destruct (read_all_stops (_fd inf) (_io_buffer inf ++ concat chunks)
              rest Hstop) as [Hbuffer Hrest].
  destruct (read_all _ _ rest) as [[fd io_buffer] pending].
  cbn in Hbuffer, Hrest. subst io_buffer pending. rewrite Hcut.
  rewrite records_count, Hdev by done.
  rewrite event_at_records by done.
  rewrite <- concat_records_length by done. rewrite drop_app_length.
  destruct records as [| record records]; [done |].
  cbn [length].
  by destruct (fold_left raw_event_step _ _) as [[x y] dev0].
Qed.








Lemma poll_raw_mouse_slots inf devices raw :
  let r := poll_raw_mouse inf devices raw in
  _input_device_index r.1.1 = _input_device_index inf
  ∧ length r.1.2 = length devices
  ∧ ∀ i, i ≠ Z.to_nat (_input_device_index inf) → r.1.2 !! i = devices !! i.
Proof.
  destruct (poll_raw_mouse_read inf devices raw)
    as (fd & io_buffer & raw' & _ & _ & Hpoll).
  cbn zeta in *. rewrite Hpoll. clear Hpoll.
  destruct (length io_buffer / sizeof_input_event)%nat as [| n]; [done |].
  destruct (devices !! Z.to_nat (_input_device_index inf)) as [dev |];
    [| done].
  destruct (fold_left raw_event_step _ _) as [[x y] dev0]. cbn.
  split; [done |]. split; [by rewrite length_insert |].
  intros i Hi. by rewrite list_lookup_insert_ne.
Qed.

Lemma poll_raw_mouse_list_slots infos devices raw :
  let r := poll_raw_mouse_list infos devices raw in
  _input_device_index <$> r.1.1 = _input_device_index <$> infos
  ∧ length r.1.2 = length devices
  ∧ ∀ i, Forall (λ inf, Z.to_nat (_input_device_index inf) ≠ i) infos →
         r.1.2 !! i = devices !! i.
Proof.
  revert devices raw. induction infos as [| inf infos IH];
    intros devices raw; cbn; [done |].
  pose proof (poll_raw_mouse_slots inf devices raw) as Hone.
  destruct (poll_raw_mouse inf devices raw) as [[inf' devices'] raw'].
  specialize (IH devices' raw').
  destruct (poll_raw_mouse_list infos devices' raw')
    as [[infos' devices''] raw''].
  cbn in *. destruct Hone as (Hidx & Hlen & Hother).
  destruct IH as (Hidxs & Hlens & Hothers).
  split; [by rewrite Hidx, Hidxs |]. split; [congruence |].
  intros i Hi. apply Forall_cons in Hi as [Hi Hrest].
  rewrite Hothers by done. by apply Hother.
Qed.

(** X4.  [poll_raw_mice] changes nothing of the window but the raw
    devices and their slots: the number of slots and the slot of each
    raw device stay as they were, a slot that no raw device names (slot
    0, the keyboard and system pointer, in particular) is not touched,
    and no request is written. *)
Theorem poll_raw_mice_touches_raw_slots_only (s : glxGraphicsWindow)
    (raw : RawInput) :
  let s' := (poll_raw_mice s raw).1 in
  s' = Win.with_input_devices (_input_devices s')
         (Win.with_mouse_device_info (_mouse_device_info s') s)
  ∧ length (_input_devices s') = length (_input_devices s)
  ∧ _input_device_index <$> _mouse_device_info s'
    = _input_device_index <$> _mouse_device_info s
  ∧ ∀ i, Forall (λ inf, Z.to_nat (_input_device_index inf) ≠ i)
                (_mouse_device_info s) →
         _input_devices s' !! i = _input_devices s !! i.
Proof.
  unfold poll_raw_mice. destruct HAVE_LINUX_INPUT_H.
  - pose proof (poll_raw_mouse_list_slots (_mouse_device_info s)
                  (_input_devices s) raw) as Hslots.
    destruct (poll_raw_mouse_list (_mouse_device_info s) (_input_devices s)
                raw) as [[infos devices] raw'].
    cbn in *. destruct Hslots as (? & ? & ?). done.
  - cbn. split; [by destruct s | done].
Qed.

(** X5.  A hard read error closes a raw device for good: the poll that
    meets an error other than EAGAIN on an open descriptor leaves the
    descriptor at -1, and every later poll of that device reads nothing
    from any descriptor and leaves it at -1. *)
Theorem failed_device_is_never_read_again (inf : MouseDeviceInfo)
    (devices : list GraphicsWindowInputDevice) (raw : RawInput)
    (errno : Z) (later : list ReadResult) :
  0 ≤ _fd inf →
  raw !! _fd inf = Some (Read_error errno :: later) →
  errno ≠ EAGAIN → errno ≠ EWOULDBLOCK →
  let inf' := (poll_raw_mouse inf devices raw).1.1 in
  _fd inf' = -1
  ∧ ∀ devices' raw',
      (poll_raw_mouse inf' devices' raw').2 = raw'
      ∧ _fd (poll_raw_mouse inf' devices' raw').1.1 = -1.
Proof.
  intros Hopen Hpending Hagain Hblock inf'.
  assert (Hclosed : _fd inf' = -1).
  { subst inf'. unfold poll_raw_mouse.
    rewrite (proj2 (Z.leb_le _ _) Hopen), Hpending. cbn [read_all].
    rewrite (proj2 (Z.eqb_neq _ _) Hagain), (proj2 (Z.eqb_neq _ _) Hblock).
    cbn [orb].
    destruct (length (_io_buffer inf) / sizeof_input_event)%nat; [done |].
    destruct (devices !! Z.to_nat (_input_device_index inf)); [| done].
    by destruct (fold_left raw_event_step _ _) as [[x y] dev0]. }
  split; [done |]. intros devices' raw'.
  destruct (poll_raw_mouse_read inf' devices' raw')
    as (fd & io_buffer & raw'' & _ & Hskip & Hpoll).
  destruct Hskip as (-> & -> & ->); [lia |].
  cbn zeta in Hpoll. rewrite Hpoll.
  destruct (length (_io_buffer inf') / sizeof_input_event)%nat; [done |].
  destruct (devices' !! Z.to_nat (_input_device_index inf')); [| done].
  by destruct (fold_left raw_event_step _ _) as [[x y] dev0].
Qed.

(** ** Keys *)

Ltac key_cases :=
  unfold button_of_keysym, XK.BackSpace, XK.Tab, XK.Return, XK.Escape,
    XK.space, XK.exclam, XK.asciitilde, XK.F1, XK.F2, XK.F3, XK.F4, XK.F5,
    XK.F6, XK.F7, XK.F8, XK.F9, XK.F10, XK.F11, XK.F12, XK.Home, XK.Left,
    XK.Up, XK.Right, XK.Down, XK.Prior, XK.Next, XK.End_, XK.Insert,
    XK.Delete, XK.KP_Home, XK.KP_Left, XK.KP_Up, XK.KP_Right, XK.KP_Down,
    XK.KP_Prior, XK.KP_Next, XK.KP_End, XK.KP_Insert, XK.KP_Delete,
    XK.Shift_L, XK.Shift_R, XK.Control_L, XK.Control_R, XK.Caps_Lock,
    XK.Shift_Lock, XK.Meta_L, XK.Meta_R, XK.Alt_L, XK.Alt_R;
  repeat (match goal with
          | |- context [?a =? ?b] => destruct (Z.eqb_spec a b)
          | |- context [?a <=? ?b] => destruct (Z.leb_spec a b)
          end;
          cbn [orb andb]).

(** X6.  The key symbol table of [get_button]: it returns the ASCII key
    of a character exactly for the key symbols 0x21 to 0x7e, and then
    the character has the code of the key symbol (the printable
    characters are mapped one to one); a key symbol below 0x20, between
    0x7e and 0xff08, or above 0xffff has no button; and no key symbol at
    all is given a mouse button or a wheel. *)
Theorem key_symbol_table (key : Z) :
  (∀ c, button_of_keysym key = Key_ascii c ↔ 0x21 ≤ key ≤ 0x7e ∧ c = key)
  ∧ (key < 0x20 ∨ 0x7e < key < 0xff08 ∨ 0xffff < key →
     button_of_keysym key = Button_none)
  ∧ (∀ n, button_of_keysym key ≠ Mouse_button n)
  ∧ button_of_keysym key ≠ Mouse_wheel_up
  ∧ button_of_keysym key ≠ Mouse_wheel_down.
Proof.
  split; [| split; [| split; [| split]]].
  - intros c. split.
    + key_cases; intros Hascii; try discriminate;
        injection Hascii as <-; lia.
    + intros [Hrange ->]. key_cases; first [lia | done].
  - intros Hout. key_cases; first [lia | done].
  - intros n. key_cases; discriminate.
  - key_cases; discriminate.
  - key_cases; discriminate.
Qed.


Lemma handle_keyrelease_nonempty e s :
  _input_devices s ≠ [] → _input_devices (handle_keyrelease e s) ≠ [].
Proof.
  intros Hne. unfold handle_keyrelease.
  case_bool_decide; repeat apply on_device_nonempty; done.
Qed.



Lemma key_press_events p s :
  _input_devices s ≠ [] →
  primary_events (handle_keypress p (handle_keystroke p s))
  = primary_events s
    ++ (Keystroke <$> keystrokes_of s p) ++ button_event ButtonDown p.
Proof.
  intros Hne.
  rewrite handle_keypress_events by by apply handle_keystroke_nonempty.
  rewrite handle_keystroke_events by done. by rewrite <- app_assoc.
Qed.



(** X8.  A key whose symbol has no button still types: its press sends
    the keystrokes and no button event, and its release, taken as
    genuine, sends nothing at all. *)
Theorem key_without_button_still_types (s : glxGraphicsWindow)
    (press release : XEvent) (p r : XKeyEvent) :
  xevent press = KeyPress p → XFilterEvent press = false →
  xevent release = KeyRelease r → XFilterEvent release = false →
  get_button p = Button_none → get_button r = Button_none →
  _input_devices s ≠ [] →
  primary_events (loop_body (s, None) press).1
  = primary_events s ++ (Keystroke <$> keystrokes_of s p)
  ∧ primary_events (loop_exit (loop_body (s, None) release))
    = primary_events s.
Proof.
  intros Hp Hpf Hr Hrf Hnone_p Hnone_r Hne. unfold loop_body.
  rewrite Hpf, Hrf, Hp, Hr. cbn. split.
  - rewrite key_press_events by done. unfold button_event.
    rewrite Hnone_p. by rewrite bool_decide_false, app_nil_r by auto.
  - rewrite handle_keyrelease_events by done. unfold button_event.
    rewrite Hnone_r. by rewrite bool_decide_false, app_nil_r by auto.
Qed.

(** ** The pointer and the focus *)

Lemma primary_in_window_devices devices s :
  primary_in_window (Win.with_input_devices devices s)
  = default false (md_in_window ∘ dev_pointer <$> devices !! 0%nat).
Proof.
  unfold primary_in_window, pointer_of; cbn.
  by destruct (devices !! 0%nat).
Qed.

(** An event that is not a key press goes to the switch, after the
    buffered release if there is one. *)
Lemma loop_body_not_press s held event :
  XFilterEvent event = false →
  (∀ p, xevent event ≠ KeyPress p) →
  ∃ devices,
    loop_body (s, held) event
    = dispatch (xevent event) (Win.with_input_devices devices s)
    ∧ (_input_devices s ≠ [] → devices ≠ []).
Proof.
  intros Hfilter Hnot. unfold loop_body. rewrite Hfilter.
  destruct held as [r |].
  - assert (is_key_repeat (xevent event) r = None) as ->.
    { destruct (xevent event); try done. by destruct (Hnot xkey). }
    rewrite handle_keyrelease_frame. eexists. split; [done |].
    apply handle_keyrelease_nonempty.
  - exists (_input_devices s). split; [by destruct s | done].
Qed.

(** X9.  The pointer can be moved only where the events left it: after
    a LeaveNotify or a FocusOut has been taken, [move_pointer] on device
    0 fails and changes nothing; after an EnterNotify on a window that
    has the focus it succeeds. *)
Theorem move_pointer_follows_events (s : glxGraphicsWindow)
    (held : option XKeyEvent) (event : XEvent) (x y : Z) :
  XFilterEvent event = false →
  let s' := (loop_body (s, held) event).1 in
  (xevent event = LeaveNotify ∨ xevent event = FocusOut →
   move_pointer 0 x y s' = (false, s'))
  ∧ (∀ ex ey, xevent event = EnterNotify ex ey →
       _input_devices s ≠ [] →
       WP.get_foreground (_properties s) = true →
       (move_pointer 0 x y s').1 = true).
Proof.
  intros Hfilter s'. subst s'. split.
  - intros Hev.
    destruct (loop_body_not_press s held event Hfilter)
      as (devices & -> & _); [by destruct Hev as [-> | ->] |].
    unfold move_pointer. cbn [Z.eqb]. rewrite primary_in_window_read.
    destruct Hev as [-> | ->]; cbn [dispatch fst].
    + unfold Win.on_device. cbn [_input_devices Win.with_input_devices].
      rewrite primary_in_window_devices, list_lookup_alter_eq.
      destruct (devices !! 0%nat); cbn; by rewrite orb_true_r.
    + unfold system_changed_properties; cbn. done.
  - intros ex ey Hev Hne Hfg.
    destruct (loop_body_not_press s held event Hfilter)
      as (devices & -> & Hdev); [by rewrite Hev |].
    rewrite Hev. unfold move_pointer. cbn [Z.eqb dispatch fst].
    rewrite primary_in_window_read.
    unfold Win.on_device. cbn [_input_devices Win.with_input_devices].
    rewrite primary_in_window_devices, list_lookup_alter_eq.
    cbn [_properties Win.with_input_devices]. rewrite Hfg.
    specialize (Hdev Hne). destruct devices as [| d devices]; [done |].
    done.
Qed.

(** ** The event queue *)

Lemma XCheckIfEvent_Some predicate queue event queue' :
  XCheckIfEvent predicate queue = Some (event, queue') →
  predicate event = true
  ∧ queue ≡ₚ event :: queue'
  ∧ queue' `sublist_of` queue
  ∧ List.filter predicate queue = event :: List.filter predicate queue'
  ∧ List.filter (negb ∘ predicate) queue
    = List.filter (negb ∘ predicate) queue'.
Proof.
  revert event queue'. induction queue as [| e queue IH]; intros event queue';
    [done |].
  cbn. destruct (predicate e) eqn:He.
  - intros [= <- <-]. repeat split; try done. by apply sublist_cons.
  - destruct (XCheckIfEvent predicate queue) as [[found rest] |]; [| done].
    intros [= <- <-].
    destruct (IH found rest eq_refl) as (Hp & Hperm & Hsub & Hin & Hout).
    repeat split; try done.
    + rewrite Hperm. apply Permutation_swap.
    + by apply sublist_skip.
    + cbn. by rewrite He.
    + cbn. rewrite He. cbn. by f_equal.
Qed.

Lemma XCheckIfEvent_None predicate queue :
  XCheckIfEvent predicate queue = None ↔
  Forall (λ event, predicate event = false) queue.
Proof.
  induction queue as [| e queue IH]; cbn; [done |].
  destruct (predicate e) eqn:He.
  - split; [done |]. intros [? _]%Forall_cons. congruence.
  - destruct (XCheckIfEvent predicate queue) as [[found rest] |].
    + split; [done |]. intros [_ Hrest]%Forall_cons.
      by apply IH in Hrest.
    + split; [| done]. intros _. apply Forall_cons. split; [done |].
      by apply IH.
Qed.

Lemma drain_conserves fuel ls queue :
  (drain fuel ls queue).2 ++ (drain fuel ls queue).1.2 ≡ₚ queue
  ∧ (drain fuel ls queue).1.2 `sublist_of` queue.
Proof.
  revert ls queue. induction fuel as [| fuel IH]; intros ls queue; [done |].
  cbn. destruct (XCheckIfEvent (check_event ls.1) queue)
    as [[event queue'] |] eqn:Hcheck; [| done].
  apply XCheckIfEvent_Some in Hcheck as (_ & Hperm & Hsub & _).
  specialize (IH (loop_body ls event) queue').
  destruct (drain fuel (loop_body ls event) queue') as [[ls' rest] taken].
  cbn in *. destruct IH as [IHperm IHsub]. split.
  - by rewrite Hperm, IHperm.
  - by etrans.
Qed.

Lemma process_events_rest s queue raw :
  (process_events s queue raw).1.2
  = if _xwindow (GraphicsWindow_process_events s) =? 0 then queue
    else (drain (length queue)
            ((poll_raw_mice (GraphicsWindow_process_events s) raw).1, None)
            queue).1.2.
Proof.
  unfold process_events.
  destruct (_xwindow (GraphicsWindow_process_events s) =? 0); [done |].
  destruct (poll_raw_mice (GraphicsWindow_process_events s) raw) as [s0 raw'].
  cbn [fst].
  by destruct (drain (length queue) (s0, None) queue) as [[ls' rest] taken].
Qed.

Lemma loop_exit_xwindow ls : _xwindow (loop_exit ls) = _xwindow ls.1.
Proof.
  destruct ls as [s [r |]]; cbn; [| done]. by rewrite handle_keyrelease_frame.
Qed.

(** X10.  [process_events] loses no event and invents none: the events
    it takes together with the events it leaves are the queue it found,
    and the events it leaves are in the order they had.  On an open
    window the loop runs until the queue holds no event for the window:
    none of the events left is addressed to the handle the window has
    when [process_events] returns. *)
Theorem process_events_conserves_queue (s : glxGraphicsWindow)
    (queue : list XEvent) (raw : RawInput) :
  events_taken s queue raw ++ (process_events s queue raw).1.2 ≡ₚ queue
  ∧ (process_events s queue raw).1.2 `sublist_of` queue
  ∧ (_xwindow (GraphicsWindow_process_events s) ≠ 0 →
     Forall (λ event,
               xany_window event ≠ _xwindow (process_events s queue raw).1.1)
            (process_events s queue raw).1.2).
Proof.
  split; [| split].
  - rewrite process_events_rest. unfold events_taken.
    destruct (_xwindow (GraphicsWindow_process_events s) =? 0); [done |].
    apply drain_conserves.
  - rewrite process_events_rest.
    destruct (_xwindow (GraphicsWindow_process_events s) =? 0); [done |].
    apply drain_conserves.
  - intros Hopen. unfold process_events.
    rewrite (proj2 (Z.eqb_neq _ _) Hopen).
    destruct (poll_raw_mice (GraphicsWindow_process_events s) raw)
      as [s0 raw'].
    pose proof (drain_complete (length queue) (s0, None) queue
                  (Nat.le_refl _)) as Hdone.
    destruct (drain (length queue) (s0, None) queue) as [[ls' rest] taken].
    cbn. rewrite loop_exit_xwindow. apply XCheckIfEvent_None in Hdone.
    eapply Forall_impl; [exact Hdone |]. intros event. unfold check_event.
    by intros ?%Z.eqb_neq.
Qed.

Lemma dispatch_xwindow event s :
  (∀ data_l0, event ≠ ClientMessage data_l0) →
  _xwindow (dispatch event s).1 = _xwindow s.
Proof.
  intros Hnot. destruct event; cbn; try done.
  - destruct (WP.get_fixed_size (_properties s)); [| done].
    by destruct (negb (width =? WP.get_x_size (_properties s))
                 || negb (height =? WP.get_y_size (_properties s))).
  - by rewrite handle_keypress_frame, handle_keystroke_frame.
  - by destruct (Hnot data_l0).
Qed.

Lemma loop_body_xwindow ls event :
  is_client_message event = false →
  _xwindow (loop_body ls event).1 = _xwindow ls.1.
Proof.
  intros Hnot. unfold loop_body. destruct (XFilterEvent event); [done |].
  assert (Hev : ∀ data_l0, xevent event ≠ ClientMessage data_l0).
  { intros data_l0 Hev. unfold is_client_message in Hnot.
    by rewrite Hev in Hnot. }
  destruct ls as [s [r |]]; cbn [fst].
  - destruct (is_key_repeat (xevent event) r) as [xkey |]; cbn [fst].
    + by rewrite handle_keypress_frame, handle_keystroke_frame.
    + rewrite dispatch_xwindow by done. by rewrite handle_keyrelease_frame.
  - by apply dispatch_xwindow.
Qed.

Lemma drain_partition fuel ls queue :
  (length queue ≤ fuel)%nat →
  Forall (λ event, is_client_message event = false) queue →
  (drain fuel ls queue).2 = List.filter (for_window (_xwindow ls.1)) queue
  ∧ (drain fuel ls queue).1.2
    = List.filter (negb ∘ for_window (_xwindow ls.1)) queue.
Proof.
  revert ls queue. induction fuel as [| fuel IH]; intros ls queue Hlen Hnone.
  - destruct queue; [done | cbn in Hlen; lia].
  - cbn. destruct (XCheckIfEvent (check_event ls.1) queue)
      as [[event queue'] |] eqn:Hcheck.
    + pose proof (XCheckIfEvent_length _ _ _ _ Hcheck) as Hq.
      apply XCheckIfEvent_Some in Hcheck as (_ & Hperm & Hsub & Hin & Hout).
      assert (Hnone' : Forall (λ e, is_client_message e = false)
                         (event :: queue')) by by rewrite <- Hperm.
      apply Forall_cons in Hnone' as [Hevent Hnone'].
      specialize (IH (loop_body ls event) queue').
      destruct (drain fuel (loop_body ls event) queue') as [[ls' rest] taken].
      cbn in *. destruct IH as [IHin IHout]; [lia | done |].
      rewrite loop_body_xwindow in IHin, IHout by done.
      change (check_event ls.1) with (for_window (_xwindow ls.1)) in Hin, Hout.
      by rewrite Hin, Hout, IHin, IHout.
    + cbn. apply XCheckIfEvent_None in Hcheck.
      change (check_event ls.1) with (for_window (_xwindow ls.1)) in Hcheck.
      clear -Hcheck. induction Hcheck as [| e queue He _ IH]; [done |].
      cbn. rewrite He. cbn. destruct IH as [-> <-]. done.
Qed.

Lemma poll_raw_mice_xwindow s raw :
  _xwindow (poll_raw_mice s raw).1 = _xwindow s.
Proof.
  unfold poll_raw_mice. destruct HAVE_LINUX_INPUT_H; [| done].
  by destruct (poll_raw_mouse_list (_mouse_device_info s) (_input_devices s)
                 raw) as [[infos devices] raw'].
Qed.

(** X11.  With no ClientMessage in the queue, [process_events] on an
    open window takes exactly the events addressed to the window, in
    queue order, and leaves exactly the others, in queue order: events of
    other windows are never consumed. *)
Theorem process_events_takes_own_events (s : glxGraphicsWindow)
    (queue : list XEvent) (raw : RawInput) :
  _xwindow (GraphicsWindow_process_events s) ≠ 0 →
  Forall (λ event, is_client_message event = false) queue →
  let xwindow := _xwindow (GraphicsWindow_process_events s) in
  events_taken s queue raw = List.filter (for_window xwindow) queue
  ∧ (process_events s queue raw).1.2
    = List.filter (negb ∘ for_window xwindow) queue.
Proof.
  intros Hopen Hnone xwindow. rewrite process_events_rest.
  unfold events_taken. rewrite (proj2 (Z.eqb_neq _ _) Hopen).
  destruct (drain_partition (length queue)
              ((poll_raw_mice (GraphicsWindow_process_events s) raw).1, None)
              queue (Nat.le_refl _) Hnone) as [Hin Hout].
  cbn [fst] in Hin, Hout. rewrite poll_raw_mice_xwindow in Hin, Hout.
  done.
Qed.



Lemma poll_raw_mouse_idle inf devices raw :
  (length (_io_buffer inf) < sizeof_input_event)%nat →
  default [] (raw !! _fd inf) = [] →
  poll_raw_mouse inf devices raw = (inf, devices, raw).
Proof.
  intros Hshort Hquiet. unfold poll_raw_mouse.
  assert (Hread :
    (if 0 <=? _fd inf then
       match raw !! _fd inf with
       | Some pending =>
           let '(fd, io_buffer, pending) :=
             read_all (_fd inf) (_io_buffer inf) pending in
           (fd, io_buffer, <[_fd inf := pending]> raw)
       | None => (_fd inf, _io_buffer inf, raw)
       end
     else (_fd inf, _io_buffer inf, raw))
    = (_fd inf, _io_buffer inf, raw)).
  { destruct (0 <=? _fd inf); [| done].
    destruct (raw !! _fd inf) as [pending |] eqn:Hraw; [| done].
    cbn in Hquiet. subst pending. cbn. by rewrite insert_id. }
  rewrite Hread. rewrite Nat.div_small by done. by destruct inf.
Qed.

Lemma poll_raw_mouse_list_idle infos devices raw :
  Forall (λ inf, (length (_io_buffer inf) < sizeof_input_event)%nat
                 ∧ default [] (raw !! _fd inf) = []) infos →
  poll_raw_mouse_list infos devices raw = (infos, devices, raw).
Proof.
  induction 1 as [| inf infos [Hshort Hquiet] _ IH]; [done |].
  cbn. by rewrite poll_raw_mouse_idle, IH.
Qed.

(** X13.  A pass with nothing to do changes nothing: when the queue
    holds no event for the window, no raw-mouse descriptor has data
    pending and no device buffer holds a whole record, [process_events]
    returns the window as the base class left it, with the queue and the
    descriptors untouched.  In particular it sends no request. *)
Theorem process_events_idle (s : glxGraphicsWindow) (queue : list XEvent)
    (raw : RawInput) :
  Forall (λ event,
            xany_window event ≠ _xwindow (GraphicsWindow_process_events s))
         queue →
  Forall (λ inf, (length (_io_buffer inf) < sizeof_input_event)%nat
                 ∧ default [] (raw !! _fd inf) = [])
         (_mouse_device_info (GraphicsWindow_process_events s)) →
  process_events s queue raw
  = (GraphicsWindow_process_events s, queue, raw).
Proof.
  intros Hqueue Hquiet. unfold process_events.
  set (s0 := GraphicsWindow_process_events s) in *.
  destruct (_xwindow s0 =? 0); [done |].
  assert (Hpoll : poll_raw_mice s0 raw = (s0, raw)).
  { unfold poll_raw_mice. destruct HAVE_LINUX_INPUT_H; [| done].
    rewrite poll_raw_mouse_list_idle by done. by destruct s0. }
  rewrite Hpoll.
  assert (Hnone : XCheckIfEvent (check_event s0) queue = None).
  { apply XCheckIfEvent_None. eapply Forall_impl; [exact Hqueue |].
    intros event. unfold check_event. by intros ?%Z.eqb_neq. }
  destruct queue as [| event queue]; [done |].
  cbn [length drain fst]. by rewrite Hnone.
Qed.

(** ** Window-manager properties *)

Lemma send_events_requests root acts s :
  fold_left (λ s a, Win.xcall (XSendEvent root (state_message s a)) s) acts s
  = Win.with_x_requests
      (x_requests s ++ ((λ a, XSendEvent root (state_message s a)) <$> acts))
      s.
Proof.
  revert s. induction acts as [| a acts IH]; intros s; cbn.
  - rewrite app_nil_r. by destruct s.
  - rewrite IH. destruct s. unfold Win.with_x_requests, state_message. cbn.
    by rewrite <- app_assoc.
Qed.

(** The assertions on the three arrays never stop [set_wm_properties];
    what it does is to append its requests. *)
Lemma set_wm_properties_requests properties already_mapped s :
  set_wm_properties properties already_mapped s
  = Win.with_x_requests
      (x_requests s ++ wm_requests properties already_mapped s) s.
Proof.
  unfold set_wm_properties, wm_requests.
  pose proof (wm_hint_data_lengths (_atoms s) properties) as Hlen.
  destruct (wm_hint_data (_atoms s) properties)
    as [[type_data state_data] set_data].
  destruct Hlen as (Ht & Hs & Ha). unfold max_type_data, max_state_data,
    max_set_data.
  destruct (Z.ltb_spec (Z.of_nat (length type_data)) 32); [| lia].
  destruct (Z.ltb_spec (Z.of_nat (length state_data)) 32); [| lia].
  destruct (Z.ltb_spec (Z.of_nat (length set_data)) 32); [| lia].
  cbn [negb]. destruct already_mapped.
  - cbn [Win.xcall Win.with_x_requests _pipe].
    destruct (_pipe s) as [glx_pipe |] eqn:Hpipe.
    + rewrite send_events_requests. destruct s.
      unfold Win.xcall, Win.with_x_requests, state_message. cbn.
      by rewrite <- !app_assoc.
    + destruct s. unfold Win.xcall, Win.with_x_requests. cbn.
      by rewrite <- !app_assoc.
  - destruct s. unfold Win.xcall, Win.with_x_requests. cbn.
    by rewrite <- !app_assoc.
Qed.

(** X14.  The requests of [set_wm_properties] for a window with a
    pipe.  The assertions on its arrays never cut it short: whatever the
    properties, it ends by registering the delete-window protocol for
    the window.  State changes reach the window manager as client
    messages only for a mapped window: there is then one message per
    entry of the action list, in its order, each sent to the root
    window, naming the window and carrying format 32 and the source
    indication 1; for a window not yet mapped no client message is sent
    at all. *)
Theorem wm_properties_requests (properties : WindowProperties)
    (already_mapped : bool) (s : glxGraphicsWindow)
    (glx_pipe : glxGraphicsPipe) :
  _pipe s = Some glx_pipe →
  let s' := set_wm_properties properties already_mapped s in
  last (x_requests s')
  = Some (XSetWMProtocols (_xwindow s) [_wm_delete_window (_atoms s)])
  ∧ List.filter is_send_event (requests_since s s')
    = if already_mapped
      then (λ a, XSendEvent (pipe_root glx_pipe)
                   {| cm_window := _xwindow s;
                      cm_message_type := _net_wm_state (_atoms s);
                      cm_format := 32;
                      cm_l0 := _action a; cm_l1 := _state a;
                      cm_l2 := 0; cm_l3 := 1 |})
           <$> (wm_hint_data (_atoms s) properties).2
      else [].
Proof.
  intros Hpipe s'. subst s'. rewrite set_wm_properties_requests.
  unfold requests_since. cbn. rewrite drop_app_length.
  unfold wm_requests. rewrite Hpipe.
  destruct (wm_hint_data (_atoms s) properties)
    as [[type_data state_data] set_data].
  split.
  - destruct already_mapped; by rewrite !last_app.
  - destruct already_mapped; [| done]. cbn.
    induction set_data as [| a set_data IH]; [done |].
    cbn. by rewrite IH.
Qed.

(** X15.  The size hints (when their allocation succeeds): there are
    hints exactly when the properties give an origin or a size; the
    position flag is set exactly with an origin and the size flag
    exactly with a size; the minimum and the maximum size are pinned to
    the size exactly when a size is given and fixed_size is specified,
    whichever value fixed_size has. *)
Theorem size_hints_flags (properties : WindowProperties) :
  (is_Some (size_hints properties)
   ↔ WP.has_origin properties || WP.has_size properties = true)
  ∧ ∀ h, size_hints properties = Some h →
      sh_flags h
      = (if WP.has_origin properties then USPosition else 0)
        + (if WP.has_size properties then USSize else 0)
        + (if WP.has_size properties && WP.has_fixed_size properties
           then PMinSize + PMaxSize else 0)
      ∧ (WP.has_origin properties = true →
         sh_x h = WP.get_x_origin properties
         ∧ sh_y h = WP.get_y_origin properties)
      ∧ (WP.has_size properties = true →
         sh_width h = WP.get_x_size properties
         ∧ sh_height h = WP.get_y_size properties)
      ∧ (WP.has_size properties = true →
         WP.has_fixed_size properties = true →
         sh_min_width h = WP.get_x_size properties
         ∧ sh_max_width h = WP.get_x_size properties
         ∧ sh_min_height h = WP.get_y_size properties
         ∧ sh_max_height h = WP.get_y_size properties).
Proof.
  unfold size_hints.
  destruct (WP.has_origin properties), (WP.has_size properties),
    (WP.has_fixed_size properties); cbn [orb andb];
    (split;
       [split; [by intros [h [=]] | intros [=]; by eexists]
       | intros h [= <-]; cbn; repeat split; done]).
Qed.

(** ** set_properties_now on an open window *)

Lemma window_with_start s :
  s = window_with (x_requests s) (_awaiting_configure s) (_properties s) s.
Proof. by destruct s. Qed.

Lemma window_with_xcall r l b p s :
  Win.xcall r (window_with l b p s) = window_with (l ++ [r]) b p s.
Proof. done. Qed.

Lemma window_with_properties p' l b p s :
  Win.with_properties p' (window_with l b p s) = window_with l b p' s.
Proof. done. Qed.

Lemma window_with_awaiting b' l b p s :
  Win.with_awaiting_configure b' (window_with l b p s) = window_with l b' p s.
Proof. done. Qed.

Lemma window_with_requests l' l b p s :
  Win.with_x_requests l' (window_with l b p s) = window_with l' b p s.
Proof. done. Qed.

Lemma window_with_wm_requests properties already_mapped l b p s :
  wm_requests properties already_mapped (window_with l b p s)
  = wm_requests properties already_mapped s.
Proof. done. Qed.

Lemma set_properties_now_window_with properties s glx_pipe l b p s0 p1 :
  _pipe s = Some glx_pipe →
  GraphicsWindow_set_properties_now s (fullscreen_implies glx_pipe properties)
  = (window_with l b p s0, p1) →
  WP.is_any_specified p1 = true →
  set_properties_now properties s
  = (window_with
       (l
        ++ (if WP.has_origin p1 || WP.has_size p1 || WP.has_z_order p1
            then [XReconfigureWMWindow (_xwindow s0) (_screen s0)
                    (geometry_mask p1) (geometry_changes p1)]
            else [])
        ++ cursor_requests glx_pipe (_xwindow s0) p1
        ++ focus_requests (_xwindow s0) p1
        ++ wm_requests (WP.add_properties p p1) true s0)
       (WP.has_origin p1 || WP.has_size p1 || WP.has_z_order p1 || b)
       (WP.add_properties p (stored_at_once p1)) s0,
     handed_back p1).
Proof.
  intros Hpipe Hbase Hany.
  unfold set_properties_now. rewrite Hpipe, Hbase, Hany. cbn [negb].
  unfold geometry_mask, CWX, CWY, CWWidth, CWHeight, CWStackMode,
    cursor_requests, focus_requests.
  destruct p1 as [o sz t u fx fs fg mn rm op ch z].
  destruct p as [o' sz' t' u' fx' fs' fg' mn' rm' op' ch' z'].
  destruct o as [[ox oy] |], sz as [[sx sy] |], t as [t |], fs as [fs |],
    z as [z |], ch as [[|] |], fg as [[|] |];
    cbn -[set_wm_properties wm_requests app WP.add_properties window_with];
    repeat match goal with
           | |- context [Z.lor ?a ?b] =>
               let v := eval vm_compute in (Z.lor a b) in
               change (Z.lor a b) with v
           end;
    cbn -[set_wm_properties wm_requests app WP.add_properties window_with];
    rewrite set_wm_properties_requests;
    repeat (rewrite ?window_with_xcall, ?window_with_properties,
              ?window_with_awaiting);
    rewrite window_with_requests, window_with_wm_requests;
    change (x_requests (window_with ?a ?b0 ?c ?d)) with a;
    change (_properties (window_with ?a ?b0 ?c ?d)) with c;
    rewrite <- ?app_assoc; reflexivity.
Qed.

Lemma set_properties_now_model properties s glx_pipe s1 p1 :
  _pipe s = Some glx_pipe →
  GraphicsWindow_set_properties_now s (fullscreen_implies glx_pipe properties)
  = (s1, p1) →
  WP.is_any_specified p1 = true →
  set_properties_now properties s
  = (window_with
       (x_requests s1
        ++ (if WP.has_origin p1 || WP.has_size p1 || WP.has_z_order p1
            then [XReconfigureWMWindow (_xwindow s1) (_screen s1)
                    (geometry_mask p1) (geometry_changes p1)]
            else [])
        ++ cursor_requests glx_pipe (_xwindow s1) p1
        ++ focus_requests (_xwindow s1) p1
        ++ wm_requests (WP.add_properties (_properties s1) p1) true s1)
       (WP.has_origin p1 || WP.has_size p1 || WP.has_z_order p1
        || _awaiting_configure s1)
       (WP.add_properties (_properties s1) (stored_at_once p1)) s1,
     handed_back p1).
Proof.
  intros Hpipe Hbase Hany. rewrite (window_with_start s1) in Hbase.
  by apply set_properties_now_window_with.
Qed.

Lemma nothing_specified p :
  WP.is_any_specified p = false → p = WP.empty.
Proof.
  destruct p as [o sz t u fx fs fg mn rm op ch z]. unfold WP.is_any_specified.
  cbn. destruct o; [done |]. destruct sz; [done |]. destruct t; [done |].
  destruct u; [done |]. destruct fx; [done |]. destruct fs; [done |].
  destruct fg; [done |]. destruct mn; [done |]. destruct rm; [done |].
  destruct op; [done |]. destruct ch; [done |]. by destruct z.
Qed.

(** X16.  What an open window takes of a request.  Of the request the
    base class leaves, [set_properties_now] takes the title,
    fullscreen, origin, size, z-order, cursor-hidden and foreground
    parts and hands back exactly the undecorated, fixed-size,
    minimized, raw-mice and open parts, untouched.  Of what it takes it
    records the title, fullscreen, cursor-hidden and z-order in the
    property model at once; the origin, the size and the foreground of
    the request are not stored. *)
Theorem set_properties_now_takes (properties : WindowProperties)
    (s : glxGraphicsWindow) (glx_pipe : glxGraphicsPipe)
    (s1 : glxGraphicsWindow) (p1 : WindowProperties) :
  _pipe s = Some glx_pipe →
  GraphicsWindow_set_properties_now s (fullscreen_implies glx_pipe properties)
  = (s1, p1) →
  (set_properties_now properties s).2 = handed_back p1
  ∧ _properties (set_properties_now properties s).1
    = WP.add_properties (_properties s1) (stored_at_once p1).
Proof.
  intros Hpipe Hbase. destruct (WP.is_any_specified p1) eqn:Hany.
  - by rewrite (set_properties_now_model _ _ _ _ _ Hpipe Hbase Hany).
  - unfold set_properties_now. rewrite Hpipe, Hbase, Hany. cbn.
    rewrite (nothing_specified _ Hany). by destruct (_properties s1).
Qed.

(** X17.  The requests of [set_properties_now] on an open window, when
    the base class leaves something to do: first the one geometry
    request (if the origin, the size or the z-order is asked for), then
    the cursor, then the input focus, then the window-manager
    properties of a mapped window, computed from the model merged with
    the whole remaining request; nothing else of the window changes but
    the property model and [_awaiting_configure]. *)
Theorem set_properties_now_request_order (properties : WindowProperties)
    (s : glxGraphicsWindow) (glx_pipe : glxGraphicsPipe)
    (s1 : glxGraphicsWindow) (p1 : WindowProperties) :
  _pipe s = Some glx_pipe →
  GraphicsWindow_set_properties_now s (fullscreen_implies glx_pipe properties)
  = (s1, p1) →
  WP.is_any_specified p1 = true →
  let s' := (set_properties_now properties s).1 in
  requests_since s1 s'
  = (if WP.has_origin p1 || WP.has_size p1 || WP.has_z_order p1
     then [XReconfigureWMWindow (_xwindow s1) (_screen s1)
             (geometry_mask p1) (geometry_changes p1)]
     else [])
    ++ cursor_requests glx_pipe (_xwindow s1) p1
    ++ focus_requests (_xwindow s1) p1
    ++ wm_requests (WP.add_properties (_properties s1) p1) true s1
  ∧ s' = window_with (x_requests s') (_awaiting_configure s')
           (_properties s') s1.
Proof.
  intros Hpipe Hbase Hany s'. subst s'.
  rewrite (set_properties_now_model _ _ _ _ _ Hpipe Hbase Hany).
  unfold requests_since. cbn. by rewrite drop_app_length.
Qed.

(** X18.  A fullscreen request on an open window, with a base class
    that hands the request through: the window is asked to move to the
    origin (0, 0) and to take the size of the display, the window then
    waits for the server, the model records fullscreen at once, and the
    undecorated mark that fullscreen implies comes back to the caller
    among the properties not applied. *)
Theorem fullscreen_request (properties : WindowProperties)
    (s : glxGraphicsWindow) (glx_pipe : glxGraphicsPipe)
    (s1 : glxGraphicsWindow) :
  _pipe s = Some glx_pipe →
  WP.get_fullscreen properties = true →
  GraphicsWindow_set_properties_now s (fullscreen_implies glx_pipe properties)
  = (s1, fullscreen_implies glx_pipe properties) →
  let r := set_properties_now properties s in
  (∃ mask later,
     requests_since s1 r.1
     = XReconfigureWMWindow (_xwindow s1) (_screen s1) mask
         {| changes_x := Some 0; changes_y := Some 0;
            changes_width := Some (pipe_display_width glx_pipe);
            changes_height := Some (pipe_display_height glx_pipe);
            changes_stack_mode := stack_mode_of <$> wp_z_order properties |}
       :: later)
  ∧ _awaiting_configure r.1 = true
  ∧ wp_fullscreen (_properties r.1) = Some true
  ∧ wp_undecorated r.2 = Some true.
Proof.
  intros Hpipe Hfull Hbase r. subst r.
  assert (Himplied : ∃ t fx fg mn rm op ch,
            fullscreen_implies glx_pipe properties
            = {| wp_origin := Some (0, 0);
                 wp_size := Some (pipe_display_width glx_pipe,
                                  pipe_display_height glx_pipe);
                 wp_title := t; wp_undecorated := Some true;
                 wp_fixed_size := fx; wp_fullscreen := Some true;
                 wp_foreground := fg; wp_minimized := mn; wp_raw_mice := rm;
                 wp_open := op; wp_cursor_hidden := ch;
                 wp_z_order := wp_z_order properties |}).
  { unfold fullscreen_implies. rewrite Hfull.
    destruct properties as [o sz t u fx [[|] |] fg mn rm op ch z];
      try done. by do 7 eexists. }
  destruct Himplied as (t & fx & fg & mn & rm & op & ch & Himplied).
  rewrite Himplied in Hbase at 2.
  rewrite (set_properties_now_model _ _ _ _ _ Hpipe Hbase eq_refl).
  unfold requests_since. cbn -[wm_requests]. rewrite drop_app_length.
  split; [by do 2 eexists |]. by destruct (_properties s1).
Qed.

(** ** The draw thread *)

Lemma dispatch_configure_state width height s :
  let s' := (dispatch (ConfigureNotify width height) s).1 in
  _awaiting_configure s' = false ∧ _gsg s' = _gsg s
  ∧ _xwindow s' = _xwindow s.
Proof.
  cbn. destruct (WP.get_fixed_size (_properties s)); [| done].
  by destruct (negb (width =? WP.get_x_size (_properties s))
               || negb (height =? WP.get_y_size (_properties s))).
Qed.

(** X19.  Frames wait for the server: after a request for an origin, a
    size or a z-order on an open window, [begin_frame] refuses every
    frame, writes nothing and calls nothing; once the event loop has
    taken a ConfigureNotify, [begin_frame] goes through to the graphics
    state guardian again and returns its answer. *)
Theorem frames_wait_for_configure (properties : WindowProperties)
    (s : glxGraphicsWindow) (glx_pipe : glxGraphicsPipe)
    (s1 : glxGraphicsWindow) (p1 : WindowProperties) :
  _pipe s = Some glx_pipe →
  GraphicsWindow_set_properties_now s (fullscreen_implies glx_pipe properties)
  = (s1, p1) →
  WP.has_origin p1 || WP.has_size p1 || WP.has_z_order p1 = true →
  let s' := (set_properties_now properties s).1 in
  (∀ mode current answer,
     begin_frame mode current answer s' = (false, s', []))
  ∧ (∀ held event mode current answer,
       configure_ack event → is_Some (_gsg s1) →
       (begin_frame mode current answer
          (loop_body (s', held) event).1).1.1 = answer).
Proof.
  intros Hpipe Hbase Hgeometry s'.
  assert (Hany : WP.is_any_specified p1 = true).
  { unfold WP.is_any_specified. unfold WP.has_origin, WP.has_size,
      WP.has_z_order in Hgeometry.
    destruct (WP.present (wp_origin p1)); [done |].
    destruct (WP.present (wp_size p1)); [done |].
    cbn in Hgeometry. rewrite Hgeometry. by rewrite !orb_true_r. }
  assert (Hs' : _awaiting_configure s' = true ∧ _gsg s' = _gsg s1).
  { subst s'. rewrite (set_properties_now_model _ _ _ _ _ Hpipe Hbase Hany).
    cbn. by rewrite Hgeometry. }
  destruct Hs' as [Hwait Hgsg]. split.
  - intros mode current answer. unfold begin_frame. rewrite Hwait.
    by destruct (_gsg s').
  - intros held event mode current answer [Hfilter (w & h & Hev)] [g Hg].
    destruct (loop_body_configure s' held event w h Hev Hfilter)
      as [devices ->].
    destruct (dispatch_configure_state w h
                (Win.with_input_devices devices s')) as (Hclear & Hg' & _).
    unfold begin_frame. rewrite Hclear, Hg'. cbn. by rewrite Hgsg, Hg.
Qed.

(** X20.  The context is made current once: when [begin_frame] has
    written its glXMakeCurrent request and the thread is then bound to
    the window and the context asked for, the next [begin_frame] writes
    no request at all, whatever its mode. *)
Theorem make_current_is_not_repeated (mode mode' : FrameMode)
    (current : GLXCurrent) (answer answer' : bool) (s : glxGraphicsWindow)
    (glxgsg : GraphicsStateGuardian) :
  _gsg s = Some glxgsg →
  _awaiting_configure s = false →
  let s' := (begin_frame mode current answer s).1.2 in
  let bound := {| current_display_is_ours := true;
                  current_drawable := _xwindow s;
                  current_context := gsg_context glxgsg |} in
  (length (requests_since s s') ≤ 1)%nat
  ∧ Forall (λ r, r = glXMakeCurrent (_xwindow s) (Some (gsg_context glxgsg)))
           (requests_since s s')
  ∧ (begin_frame mode' bound answer' s').1.2 = s'
  ∧ (begin_frame mode' bound answer' s').1.1 = answer'.
Proof.
  intros Hgsg Hwait s' bound. subst s' bound. unfold begin_frame.
  rewrite Hgsg, Hwait. unfold requests_since.
  destruct (current_display_is_ours current
            && (current_drawable current =? _xwindow s)
            && (current_context current =? gsg_context glxgsg));
    cbn; rewrite ?Hgsg, ?Hwait, ?drop_app_length, ?drop_all, !Z.eqb_refl;
    cbn; repeat split; try done; try lia; by repeat constructor.
Qed.

(** X21.  Nothing is drawn into a closed window: after [close_window]
    (with a base class that leaves the handles alone) [begin_frame]
    refuses the frame without a request or a call, and [begin_flip]
    swaps no buffer. *)
Theorem closed_window_is_not_drawn (s : glxGraphicsWindow)
    (mode : FrameMode) (current : GLXCurrent) (answer : bool) :
  base_close_keeps_handles →
  begin_frame mode current answer (close_window s)
  = (false, close_window s, [])
  ∧ begin_flip (close_window s) = [].
Proof.
  intros Hkeep. destruct (close_window_unfold s) as (s0 & -> & Hg & _).
  destruct (Hkeep s0) as (Hg' & _). unfold begin_frame, begin_flip.
  by rewrite Hg', Hg.
Qed.

(** ** Raw mice: discovery *)

Lemma replace_char_alphanumeric c :
  replace_char c = if is_alphanumeric c then c else "_"%char.
Proof.
  destruct c as [[|] [|] [|] [|] [|] [|] [|] [|]]; vm_compute; reflexivity.
Qed.

(** X22.  The label characters: the loop over a device name keeps the
    length, keeps every letter and digit where it is, puts an underscore
    in the place of every other character, and changes nothing when run
    on its own result. *)
Theorem replace_chars_label (name : string) :
  String.length (replace_chars name) = String.length name
  ∧ (∀ i c, String.get i name = Some c →
       String.get i (replace_chars name)
       = Some (if is_alphanumeric c then c else "_"%char))
  ∧ (∀ i c, String.get i (replace_chars name) = Some c →
       is_alphanumeric c = true ∨ c = "_"%char)
  ∧ replace_chars (replace_chars name) = replace_chars name.
Proof.
  induction name as [| c name (IHlen & IHkeep & IHall & IHidem)].
  - repeat split; try done; by intros [| i] c.
  - cbn [replace_chars]. repeat split.
    + cbn. by rewrite IHlen.
    + intros [| i] c'; cbn.
      * intros [= <-]. by rewrite replace_char_alphanumeric.
      * apply IHkeep.
    + intros [| i] c'; cbn.
      * intros [= <-]. rewrite replace_char_alphanumeric.
        destruct (is_alphanumeric c) eqn:Hc; [by left | by right].
      * apply IHall.
    + cbn [replace_chars]. rewrite IHidem. f_equal.
      rewrite !replace_char_alphanumeric.
      destruct (is_alphanumeric c) eqn:Hc; [by rewrite Hc | done].
Qed.

Lemma motion_bits (byte : Z) :
  negb (Z.land byte (Z.shiftl 1 (Z.land EV_REL 7)) =? 0)
  || negb (Z.land byte (Z.shiftl 1 (Z.land EV_ABS 7)) =? 0)
  = negb (Z.land byte 12 =? 0).
Proof.
  change (Z.shiftl 1 (Z.land EV_REL 7)) with 4.
  change (Z.shiftl 1 (Z.land EV_ABS 7)) with 8.
  change 12 with (Z.lor 4 8). rewrite Z.land_lor_distr_r.
  destruct (Z.eqb_spec (Z.land byte 4) 0) as [H4 | H4],
    (Z.eqb_spec (Z.land byte 8) 0) as [H8 | H8],
    (Z.eqb_spec (Z.lor (Z.land byte 4) (Z.land byte 8)) 0) as [H | H];
    cbn; try done.
  - destruct H. by apply Z.lor_eq_0_iff.
  - apply Z.lor_eq_0_iff in H. by destruct H.
  - apply Z.lor_eq_0_iff in H. by destruct H.
  - apply Z.lor_eq_0_iff in H. by destruct H.
Qed.

(** One turn of the loop, by the kind of the node. *)
Lemma probe_node_kind node scan :
  probe_node node scan
  = if is_missing node then None
    else if is_mouse node then
      Some {| scan_window :=
                add_input_device (pointer_only (label_of node))
                  (Win.with_mouse_device_info
                     (_mouse_device_info (scan_window scan)
                      ++ [mouse_info
                            (length (_input_devices (scan_window scan))) 0
                            node])
                     (scan_window scan));
              scan_closed := scan_closed scan;
              any_present := true; any_mice := true |}
    else
      Some {| scan_window := scan_window scan;
              scan_closed :=
                scan_closed scan
                ++ (if is_rejected node then [node_fd node] else []);
              any_present := true; any_mice := any_mice scan |}.
Proof.
  unfold probe_node, is_missing, is_mouse, is_rejected, is_mouse, label_of,
    mouse_info, test_bit.
  change (Z.to_nat (EV_REL / 8)) with 0%nat.
  change (Z.to_nat (EV_ABS / 8)) with 0%nat.
  destruct (Z.leb_spec 0 (node_fd node)) as [Hfd | Hfd];
    destruct (Z.ltb_spec (node_fd node) 0) as [Hfd' | Hfd']; try lia;
    cbn [andb negb].
  - destruct (node_name node) as [name |]; cbn; [| done];
      destruct (node_phys node) as [phys |]; cbn; [| done];
      destruct (node_uniq node) as [uniq |]; cbn; [| done];
      destruct (node_evtypes node) as [evtypes |]; cbn; [| done].
    rewrite motion_bits.
    destruct (negb (Z.land (default 0 (evtypes !! 0%nat)) 12 =? 0)); cbn;
      [| done].
    by rewrite Nat.add_0_r.
  - destruct ((node_errno node =? ENOENT) || (node_errno node =? ENOTDIR));
      [done |]. cbn. by rewrite app_nil_r.
Qed.

(** The loop in closed form: it reaches the nodes before the first
    missing one, keeps the mice among them and closes the other nodes it
    could open. *)
Lemma scan_nodes_closed_form nodes scan :
  let s := scan_window scan in
  let scanned := before_missing nodes in
  let mice := List.filter is_mouse scanned in
  scan_nodes nodes scan
  = {| scan_window :=
         Win.with_input_devices
           (_input_devices s ++ (pointer_only ∘ label_of <$> mice))
           (Win.with_mouse_device_info
              (_mouse_device_info s
               ++ imap (mouse_info (length (_input_devices s))) mice) s);
       scan_closed :=
         scan_closed scan ++ (node_fd <$> List.filter is_rejected scanned);
       any_present := any_present scan || existsb (λ _, true) scanned;
       any_mice := any_mice scan || existsb is_mouse scanned |}.
Proof.
  revert scan. induction nodes as [| node nodes IH]; intros scan.
  - destruct scan as [s closed present mice]. destruct s. cbn.
    by rewrite !app_nil_r, !orb_false_r.
  - cbn [scan_nodes before_missing]. rewrite probe_node_kind.
    destruct (is_missing node) eqn:Hmissing.
    + destruct scan as [s closed present mice]. destruct s. cbn.
      by rewrite !app_nil_r, !orb_false_r.
    + cbn [List.filter existsb]. unfold is_rejected at 2.
      destruct (is_mouse node) eqn:Hmouse; rewrite IH; clear IH.
      * rewrite andb_false_r.
        destruct scan as [s closed present mice]. destruct s.
        cbn -[mouse_info]. rewrite <- !app_assoc. cbn -[mouse_info].
        rewrite !orb_true_r.
        assert (Hshift : ∀ (devices : list GraphicsWindowInputDevice) d l,
                  imap (mouse_info (length (devices ++ [d]))) l
                  = imap (mouse_info (length devices) ∘ S) l).
        { intros devices d l. apply imap_ext. intros i n _.
          unfold mouse_info. rewrite length_app. cbn. do 2 f_equal. lia. }
        by rewrite Hshift.
      * rewrite andb_true_r. unfold is_rejected. rewrite !Hmouse.
        destruct scan as [s closed present mice]. destruct s.
        cbn -[mouse_info]. rewrite !orb_true_r.
        destruct (0 <=? node_fd node); cbn -[mouse_info];
          by rewrite <- ?app_assoc, ?app_nil_r.
Qed.

Lemma open_raw_mice_closed_form dev_input s :
  HAVE_LINUX_INPUT_H = true →
  let scanned := before_missing (dev_input <$> seq 0 64) in
  let mice := List.filter is_mouse scanned in
  open_raw_mice dev_input s
  = {| scan_window :=
         Win.with_input_devices
           (_input_devices s ++ (pointer_only ∘ label_of <$> mice))
           (Win.with_mouse_device_info
              (_mouse_device_info s
               ++ imap (mouse_info (length (_input_devices s))) mice) s);
       scan_closed := node_fd <$> List.filter is_rejected scanned;
       any_present := existsb (λ _, true) scanned;
       any_mice := existsb is_mouse scanned |}.
Proof.
  intros Hhave. unfold open_raw_mice. rewrite Hhave.
  by rewrite scan_nodes_closed_form.
Qed.

(** X23.  Which nodes become raw mice: [open_raw_mice] reaches the
    nodes before the first one that does not exist; among them it keeps
    exactly those it could open, that answered all four requests, and
    whose event types include relative or absolute motion (bit 2 or
    bit 3 of the first byte).  Each one kept gets a new slot at the end
    of the input devices, labelled with its name, a dot and the answer
    written to [uniq], and a record with its descriptor, the index of
    that slot and an empty buffer; nothing else of the window changes.
    Of the two flags behind the final diagnostic, no node counts as
    present exactly when the very first node does not exist, and a
    mouse counts as found exactly when one of the nodes reached is
    kept. *)
Theorem raw_mice_accepted (dev_input : nat → DeviceNode)
    (s : glxGraphicsWindow) :
  HAVE_LINUX_INPUT_H = true →
  let r := open_raw_mice dev_input s in
  let s' := scan_window r in
  let scanned := before_missing (dev_input <$> seq 0 64) in
  let mice := List.filter is_mouse scanned in
  _input_devices s'
  = _input_devices s ++ (pointer_only ∘ label_of <$> mice)
  ∧ _mouse_device_info s'
    = _mouse_device_info s
      ++ imap (mouse_info (length (_input_devices s))) mice
  ∧ s' = Win.with_input_devices (_input_devices s')
           (Win.with_mouse_device_info (_mouse_device_info s') s)
  ∧ (any_present r = false ↔ is_missing (dev_input 0%nat) = true)
  ∧ (any_mice r = true
     ↔ ∃ node, node ∈ scanned ∧ is_mouse node = true).
Proof.
  intros Hhave r s' scanned mice. subst r s' scanned mice.
  rewrite open_raw_mice_closed_form by done.
  cbn [scan_window any_present any_mice].
  split; [done |]. split; [done |]. split; [done |]. split.
  - change (seq 0 64) with (0%nat :: seq 1 63). cbn.
    by destruct (is_missing (dev_input 0%nat)).
  - rewrite existsb_exists. split.
    + intros (node & Hin & Hmouse). exists node.
      by rewrite list_elem_of_In.
    + intros (node & Hin & Hmouse). exists node.
      by rewrite <- list_elem_of_In.
Qed.

Lemma open_raw_mice_window dev_input s :
  ∃ mice,
    scan_window (open_raw_mice dev_input s)
    = Win.with_input_devices
        (_input_devices s ++ (pointer_only ∘ label_of <$> mice))
        (Win.with_mouse_device_info
           (_mouse_device_info s
            ++ imap (mouse_info (length (_input_devices s))) mice) s).
Proof.
  destruct HAVE_LINUX_INPUT_H eqn:Hhave.
  - eexists. by rewrite open_raw_mice_closed_form.
  - exists []. unfold open_raw_mice. rewrite Hhave. cbn.
    rewrite !app_nil_r. by destruct s.
Qed.

(** X24.  Records and slots stay aligned: if every raw-mouse record of
    the window names a slot that exists and is not slot 0, the same
    holds after [open_raw_mice], the slots that existed are untouched,
    and every record added names a slot added with it, whose pointer is
    outside the window and which has received no event. *)
Theorem raw_slots_stay_valid (dev_input : nat → DeviceNode)
    (s : glxGraphicsWindow) :
  raw_slots_valid s →
  _input_devices s ≠ [] →
  let s' := scan_window (open_raw_mice dev_input s) in
  raw_slots_valid s'
  ∧ take (length (_input_devices s)) (_input_devices s') = _input_devices s
  ∧ take (length (_mouse_device_info s)) (_mouse_device_info s')
    = _mouse_device_info s
  ∧ Forall (λ inf,
              ∃ label,
                _input_devices s' !! Z.to_nat (_input_device_index inf)
                = Some (pointer_only label)
                ∧ (length (_input_devices s)
                   ≤ Z.to_nat (_input_device_index inf))%nat)
           (drop (length (_mouse_device_info s)) (_mouse_device_info s')).
Proof.
  intros Hvalid Hdevices s'. subst s'.
  destruct (open_raw_mice_window dev_input s) as [mice ->]. cbn.
  rewrite !take_app_length, drop_app_length. unfold raw_slots_valid. cbn.
  assert (Hslots : (0 < length (_input_devices s))%nat).
  { destruct (_input_devices s); [done | cbn; lia]. }
  repeat split; try done.
  - apply Forall_app. split.
    + eapply Forall_impl; [exact Hvalid |]. intros inf Hinf. cbn in Hinf.
      rewrite length_app. lia.
    + apply Forall_lookup. intros i inf Hinf.
      apply list_lookup_imap_Some in Hinf as (node & Hnode & ->). cbn.
      apply lookup_lt_Some in Hnode.
      rewrite length_app, length_fmap. lia.
  - apply Forall_lookup. intros i inf Hinf.
    apply list_lookup_imap_Some in Hinf as (node & Hnode & ->). cbn.
    exists (label_of node). rewrite Nat2Z.id. split; [| lia].
    rewrite lookup_app_r by lia.
    replace (length (_input_devices s) + i - length (_input_devices s))%nat
      with i by lia.
    by rewrite list_lookup_fmap, Hnode.
Qed.

Lemma opened_nodes_split nodes :
  node_fd <$> List.filter (λ node, 0 <=? node_fd node) nodes
  ≡ₚ (node_fd <$> List.filter is_rejected nodes)
     ++ (node_fd <$> List.filter is_mouse nodes).
Proof.
  induction nodes as [| node nodes IH]; [done |].
  cbn. unfold is_rejected at 1.
  destruct (is_mouse node) eqn:Hmouse.
  - assert (Hfd : (0 <=? node_fd node) = true).
    { unfold is_mouse in Hmouse. by destruct (0 <=? node_fd node). }
    rewrite Hfd. cbn. rewrite IH. apply Permutation_middle.
  - destruct (0 <=? node_fd node); cbn; by rewrite IH.
Qed.

Lemma mouse_info_fd slots mice :
  _fd <$> imap (mouse_info slots) mice = node_fd <$> mice.
Proof.
  revert slots. induction mice as [| node mice IH]; intros slots; [done |].
  cbn. f_equal. rewrite <- (IH (S slots)). f_equal. apply imap_ext.
  intros i n _. unfold mouse_info. cbn. do 2 f_equal. lia.
Qed.

(** X25.  No descriptor is lost: among the nodes reached, every
    descriptor that [open] returned is either closed again or held by
    exactly one of the records added to the window. *)
Theorem raw_mice_descriptors_accounted (dev_input : nat → DeviceNode)
    (s : glxGraphicsWindow) :
  HAVE_LINUX_INPUT_H = true →
  let r := open_raw_mice dev_input s in
  node_fd <$> List.filter (λ node, 0 <=? node_fd node)
                (before_missing (dev_input <$> seq 0 64))
  ≡ₚ scan_closed r
     ++ (_fd <$> drop (length (_mouse_device_info s))
                   (_mouse_device_info (scan_window r))).
Proof.
  intros Hhave r. subst r. rewrite open_raw_mice_closed_form by done.
  cbn [scan_closed scan_window].
  unfold Win.with_input_devices, Win.with_mouse_device_info.
  cbn [_mouse_device_info]. rewrite drop_app_length, opened_nodes_split.
  by rewrite mouse_info_fd.
Qed.

Lemma before_missing_prefix nodes missing later :
  is_missing missing = true →
  before_missing (nodes ++ missing :: later)
  = before_missing (nodes ++ [missing]).
Proof.
  intros Hmissing. induction nodes as [| node nodes IH]; cbn.
  - by rewrite Hmissing.
  - by rewrite IH.
Qed.

(** X26.  The scan stops at the first node that does not exist: the
    nodes behind it are never opened, so that what they would answer
    changes nothing of the result. *)
Theorem raw_mice_scan_stops (dev_input dev_input' : nat → DeviceNode)
    (k : nat) (s : glxGraphicsWindow) :
  (k < 64)%nat →
  is_missing (dev_input k) = true →
  (∀ i, (i ≤ k)%nat → dev_input' i = dev_input i) →
  open_raw_mice dev_input' s = open_raw_mice dev_input s.
Proof.
  intros Hk Hmissing Hsame. unfold open_raw_mice.
  destruct HAVE_LINUX_INPUT_H; [| done].
  rewrite !scan_nodes_closed_form.
  assert (Hscanned : before_missing (dev_input' <$> seq 0 64)
                     = before_missing (dev_input <$> seq 0 64)).
  { replace 64%nat with (k + S (63 - k))%nat by lia.
    rewrite seq_app, !fmap_app. cbn [seq fmap list_fmap].
    change (0 + k)%nat with k. rewrite (Hsame k) by lia.
    rewrite (before_missing_prefix (dev_input' <$> seq 0 k)) by done.
    rewrite (before_missing_prefix (dev_input <$> seq 0 k)) by done.
    do 2 f_equal. apply list_fmap_ext. intros i j Hj.
    apply lookup_seq in Hj as [-> Hj]. apply Hsame. lia. }
  by rewrite Hscanned.
Qed.

End Coverage.

Section Opening.

Context {platform : Platform} {base : GraphicsWindowBase}
        {collaborators : OpenCollaborators}.

(** ** Opening the window *)

Lemma only_adds_colormap_refl o : only_adds_colormap o o.
Proof.
  unfold only_adds_colormap. repeat split. exists [].
  rewrite app_nil_r. repeat split; [constructor | cbn; lia].
Qed.

Lemma only_adds_colormap_zero o : only_adds_colormap o (with_colormap 0 o).
Proof.
  unfold only_adds_colormap. repeat split. exists [].
  rewrite app_nil_r. repeat split; [constructor | cbn; lia].
Qed.

Lemma only_adds_colormap_call o colormap root visual alloc :
  only_adds_colormap o
    (with_colormap colormap
       (display_call (XCreateColormap root visual alloc) o)).
Proof.
  unfold only_adds_colormap. repeat split. eexists.
  split; [done |]. split; [by repeat constructor | cbn; lia].
Qed.

Lemma setup_colormap_visual_calls visual o :
  only_adds_colormap o (setup_colormap_visual visual o).
Proof.
  unfold setup_colormap_visual.
  destruct (_pipe (window o)) as [glx_pipe |];
    [| apply only_adds_colormap_refl].
  destruct (vi_c_class visual =? PseudoColor).
  { destruct (glXGetConfig_RGBA visual) as [rc is_rgb].
    destruct ((rc =? 0) && negb (is_rgb =? 0));
      [apply only_adds_colormap_zero | apply only_adds_colormap_call]. }
  destruct ((vi_c_class visual =? TrueColor)
            || (vi_c_class visual =? DirectColor));
    [apply only_adds_colormap_call |].
  destruct ((vi_c_class visual =? StaticColor)
            || (vi_c_class visual =? StaticGray)
            || (vi_c_class visual =? GrayScale));
    [apply only_adds_colormap_call | apply only_adds_colormap_refl].
Qed.

Lemma setup_colormap_fbconfig_calls fbconfig o :
  only_adds_colormap o (setup_colormap_fbconfig fbconfig o).
Proof.
  unfold setup_colormap_fbconfig.
  destruct (glXGetVisualFromFBConfig fbconfig) as [visual |];
    [| apply only_adds_colormap_refl].
  destruct (_pipe (window o)) as [glx_pipe |];
    [| apply only_adds_colormap_refl].
  destruct (vi_c_class visual =? PseudoColor).
  { destruct (glXGetFBConfigAttrib_RGBA fbconfig) as [rc is_rgb].
    destruct ((rc =? 0) && negb (is_rgb =? 0));
      [apply only_adds_colormap_zero | apply only_adds_colormap_call]. }
  destruct ((vi_c_class visual =? TrueColor)
            || (vi_c_class visual =? DirectColor));
    [apply only_adds_colormap_call |].
  destruct ((vi_c_class visual =? StaticColor)
            || (vi_c_class visual =? StaticGray)
            || (vi_c_class visual =? GrayScale));
    [apply only_adds_colormap_call | apply only_adds_colormap_refl].
Qed.

(** X27.  The two [setup_colormap] functions make the same choice: for
    a frame-buffer configuration whose visual is the one at hand, and
    with the same answer to the GLX_RGBA question, both leave the same
    object.  The choice: a pseudo-colour visual that answers as RGBA
    gets colormap 0 and no request; any other pseudo-colour visual gets
    a colormap with all entries allocated; the true-colour,
    direct-colour, static and grey visuals get one with none allocated;
    for any other class the colormap member keeps the value it had and
    nothing is asked of the server. *)
Theorem colormap_choice (fbconfig : Z) (visual : XVisualInfo) (o : Opening)
    (glx_pipe : glxGraphicsPipe) :
  _pipe (window o) = Some glx_pipe →
  glXGetVisualFromFBConfig fbconfig = Some visual →
  glXGetFBConfigAttrib_RGBA fbconfig = glXGetConfig_RGBA visual →
  let o' := setup_colormap_visual visual o in
  let class := vi_c_class visual in
  let mesa := (class =? PseudoColor)
              && ((glXGetConfig_RGBA visual).1 =? 0)
              && negb ((glXGetConfig_RGBA visual).2 =? 0) in
  let alloc := if class =? PseudoColor then AllocAll else AllocNone in
  setup_colormap_fbconfig fbconfig o = o'
  ∧ (mesa = true →
     o' = with_colormap 0 o)
  ∧ (mesa = false → 0 ≤ class ≤ 5 →
     o' = with_colormap
            (XCreateColormap_result (pipe_root glx_pipe) (vi_visual visual)
               alloc)
            (display_call
               (XCreateColormap (pipe_root glx_pipe) (vi_visual visual) alloc)
               o))
  ∧ (¬ 0 ≤ class ≤ 5 → o' = o).
Proof.
  intros Hpipe Hvisual Hrgba o' class mesa alloc. subst o' class mesa alloc.
  unfold setup_colormap_fbconfig, setup_colormap_visual.
  rewrite Hpipe, Hvisual, Hrgba.
  unfold PseudoColor, TrueColor, DirectColor, StaticColor, StaticGray,
    GrayScale.
  destruct (glXGetConfig_RGBA visual) as [rc is_rgb]. cbn [fst snd].
  split; [done |].
  destruct (Z.eqb_spec (vi_c_class visual) 3) as [H3 | H3]; cbn [andb].
  - repeat split; [by intros -> | by intros -> | lia].
  - repeat split; [done | |].
    + intros _ Hclass.
      destruct (Z.eqb_spec (vi_c_class visual) 4),
        (Z.eqb_spec (vi_c_class visual) 5),
        (Z.eqb_spec (vi_c_class visual) 2),
        (Z.eqb_spec (vi_c_class visual) 0),
        (Z.eqb_spec (vi_c_class visual) 1); cbn [orb]; try done; lia.
    + intros Hclass.
      destruct (Z.eqb_spec (vi_c_class visual) 4),
        (Z.eqb_spec (vi_c_class visual) 5),
        (Z.eqb_spec (vi_c_class visual) 2),
        (Z.eqb_spec (vi_c_class visual) 0),
        (Z.eqb_spec (vi_c_class visual) 1); cbn [orb]; try done; lia.
Qed.

Lemma through_xcall (r : glxGraphicsWindow → XRequest) o :
  through (λ s, Win.xcall (r s) s) o
  = display_call (Request (r (window o)))
      (with_window (Win.xcall (r (window o)) (window o)) o).
Proof.
  unfold through, requests_since, display_call, with_window. cbn.
  by rewrite drop_app_length.
Qed.

Lemma through_set_wm_properties properties already_mapped o :
  through (set_wm_properties properties already_mapped) o
  = {| window := set_wm_properties properties already_mapped (window o);
       resources := resources o;
       display_calls :=
         display_calls o
         ++ (Request <$> wm_requests properties already_mapped (window o)) |}.
Proof.
  unfold through, requests_since. rewrite set_wm_properties_requests. cbn.
  by rewrite drop_app_length.
Qed.

Lemma choose_gsg_window o :
  window (choose_gsg o).2 = Win.with_gsg (Some (choose_gsg o).1) (window o)
  ∧ resources (choose_gsg o).2 = resources o
  ∧ display_calls (choose_gsg o).2 = display_calls o.
Proof.
  unfold choose_gsg. destruct (_gsg (window o)) as [old |] eqn:Hgsg;
    [| done].
  destruct (negb (subsumes (get_fb_properties old)
                    (_fb_properties (resources o)))); [done |].
  cbn. repeat split. destruct (window o). cbn in Hgsg. by subst.
Qed.

Lemma default_geometry_window o :
  window (default_geometry o)
  = Win.with_properties
      (WP.with_size
         (Some (default (100, 100) (wp_size (_properties (window o)))))
         (WP.with_origin
            (Some (default (0, 0) (wp_origin (_properties (window o)))))
            (_properties (window o))))
      (window o)
  ∧ resources (default_geometry o) = resources o
  ∧ display_calls (default_geometry o) = display_calls o.
Proof.
  unfold default_geometry, WP.has_origin, WP.has_size, WP.set_origin,
    WP.set_size.
  destruct o as [s res calls].
  destruct s as [? ? ? model ? ? ? ? ? ? ? ? ? ?]. cbn.
  destruct model as [[origin |] [size |] ? ? ? ? ? ? ? ? ? ?]; by cbn.
Qed.

Lemma choose_colormap_calls glxgsg visual_info o :
  only_adds_colormap o (choose_colormap glxgsg visual_info o).
Proof.
  unfold choose_colormap.
  destruct HAVE_GLXFBCONFIG;
    [destruct (negb (gsg_fbconfig glxgsg =? None_)) |];
    auto using setup_colormap_fbconfig_calls, setup_colormap_visual_calls.
Qed.

(** What [prepare_window] asks of the display. *)
Lemma prepare_window_calls glx_pipe glxgsg o :
  let s := window o in
  let o' := prepare_window glx_pipe glxgsg o in
  display_calls o'
  = display_calls o
    ++ (Request <$> wm_requests (_properties s) false s)
    ++ (if negb (get_im glx_pipe =? 0)
        then [XCreateIC (get_im glx_pipe)
                (Z.lor XIMPreeditNothing XIMStatusNothing)]
        else [])
    ++ (if WP.get_cursor_hidden (_properties s)
        then [Request (XDefineCursor (_xwindow s)
                         (pipe_hidden_cursor glx_pipe))]
        else [])
    ++ [Request (glXMakeCurrent (_xwindow s) (Some (gsg_context glxgsg)))]
  ∧ resources o' = resources o
  ∧ _xwindow (window o') = _xwindow s
  ∧ _gsg (window o') = _gsg s
  ∧ _properties (window o') = _properties s
  ∧ _ic (window o')
    = (if negb (get_im glx_pipe =? 0)
       then XCreateIC_result (get_im glx_pipe)
              (Z.lor XIMPreeditNothing XIMStatusNothing)
       else 0).
Proof.
  intros s o'. subst s o'. unfold prepare_window.
  rewrite through_set_wm_properties, !through_xcall.
  rewrite set_wm_properties_requests.
  destruct o as [s res calls]. cbn [window resources display_calls].
  destruct (negb (get_im glx_pipe =? 0));
    cbn [window resources display_calls with_window display_call
         Win.with_ic Win.with_x_requests _properties _xwindow _gsg _ic];
    destruct (WP.get_cursor_hidden (_properties s));
    rewrite ?through_xcall;
    cbn [window resources display_calls with_window display_call
         Win.with_ic Win.with_x_requests Win.xcall
         _properties _xwindow _gsg _ic];
    rewrite <- ?app_assoc; cbn [app]; rewrite ?app_nil_r; done.
Qed.

Lemma show_window_calls dev_input glxgsg o :
  let o' := show_window dev_input glxgsg o in
  display_calls o' = display_calls o ++ [XMapWindow (_xwindow (window o))]
  ∧ _fb_properties (resources o') = get_fb_properties_after_reset glxgsg
  ∧ _xwindow (window o') = _xwindow (window o)
  ∧ _gsg (window o') = _gsg (window o)
  ∧ _properties (window o') = _properties (window o)
  ∧ _ic (window o') = _ic (window o)
  ∧ _colormap (resources o') = _colormap (resources o).
Proof.
  intros o'. subst o'. unfold show_window.
  cbn [window display_call with_fb_properties _properties].
  destruct (WP.get_raw_mice (_properties (window o))); [| done].
  cbn. destruct (open_raw_mice_window dev_input (window o)) as [mice ->].
  done.
Qed.

Lemma through_close_window o :
  base_close_keeps_handles →
  _xwindow (window (through close_window o)) = 0
  ∧ _gsg (window (through close_window o)) = None
  ∧ resources (through close_window o) = resources o
  ∧ ∃ requests,
      display_calls (through close_window o)
      = display_calls o ++ (Request <$> requests).
Proof.
  intros Hkeep. unfold through. cbn.
  destruct (close_window_unfold (window o)) as (s0 & -> & Hg & _ & Hxw & _).
  destruct (Hkeep s0) as (-> & _ & ->). eauto.
Qed.

(** The way through [open_window] that returns true. *)
Lemma open_window_true dev_input o o' :
  open_window dev_input o = (true, o') →
  ∃ glx_pipe visual_info,
    let glxgsg := (choose_gsg o).1 in
    let created :=
      create_window (pipe_root glx_pipe) visual_info
        (choose_colormap glxgsg visual_info
           (default_geometry (choose_gsg o).2)) in
    _pipe (window o) = Some glx_pipe
    ∧ gsg_visual glxgsg = Some visual_info
    ∧ _xwindow (window created) ≠ 0
    ∧ is_valid glxgsg = true
    ∧ o' = show_window dev_input glxgsg
             (prepare_window glx_pipe glxgsg created).
Proof.
  unfold open_window.
  destruct (_pipe (window o)) as [glx_pipe |] eqn:Hpipe; [| done].
  destruct (choose_gsg o) as [glxgsg o1] eqn:Hchosen.
  destruct (gsg_visual glxgsg) as [visual_info |] eqn:Hvisual; [| done].
  cbn zeta.
  destruct (Z.eqb_spec
              (_xwindow
                 (window
                    (create_window (pipe_root glx_pipe) visual_info
                       (choose_colormap glxgsg visual_info
                          (default_geometry o1))))) 0) as [| Hcreated];
    [done |].
  destruct (is_valid glxgsg) eqn:Hvalid; [| done]. cbn [negb].
  destruct (negb (verify_hardware_software _ _ _)); [done |].
  intros [= <-]. exists glx_pipe, visual_info. by cbn.
Qed.

(** The ways through [open_window] that return false. *)
Lemma open_window_false dev_input o o' :
  open_window dev_input o = (false, o') →
  o' = o
  ∨ o' = (choose_gsg o).2
  ∨ (∃ glx_pipe visual_info,
       let created :=
         create_window (pipe_root glx_pipe) visual_info
           (choose_colormap (choose_gsg o).1 visual_info
              (default_geometry (choose_gsg o).2)) in
       _xwindow (window created) = 0 ∧ o' = created
       ∨ o' = through close_window
                (prepare_window glx_pipe (choose_gsg o).1 created)).
Proof.
  unfold open_window.
  destruct (_pipe (window o)) as [glx_pipe |] eqn:Hpipe;
    [| intros [= <-]; by left].
  destruct (choose_gsg o) as [glxgsg o1] eqn:Hchosen.
  destruct (gsg_visual glxgsg) as [visual_info |] eqn:Hvisual;
    [| intros [= <-]; right; by left].
  cbn zeta. intros Hopen. right. right. exists glx_pipe, visual_info.
  cbn zeta. cbn [fst snd].
  destruct (Z.eqb_spec
              (_xwindow
                 (window
                    (create_window (pipe_root glx_pipe) visual_info
                       (choose_colormap glxgsg visual_info
                          (default_geometry o1))))) 0) as [Hcreated |];
    [injection Hopen as <-; by left |].
  right. destruct (negb (is_valid glxgsg)); [by injection Hopen as <- |].
  destruct (negb (verify_hardware_software _ _ _)); [| done].
  by injection Hopen as <-.
Qed.

(** The object when XCreateWindow has answered. *)
Lemma created_window glx_root visual_info o :
  let glxgsg := (choose_gsg o).1 in
  let chosen :=
    choose_colormap glxgsg visual_info (default_geometry (choose_gsg o).2) in
  let arguments :=
    create_window_arguments glx_root visual_info
      (with_event_mask window_event_mask chosen) in
  let created := create_window glx_root visual_info chosen in
  window created
  = Win.with_xwindow (XCreateWindow_result arguments)
      (Win.with_properties
         (WP.with_size
            (Some (default (100, 100) (wp_size (_properties (window o)))))
            (WP.with_origin
               (Some (default (0, 0) (wp_origin (_properties (window o)))))
               (_properties (window o))))
         (Win.with_gsg (Some glxgsg) (window o)))
  ∧ _fb_properties (resources created) = _fb_properties (resources o)
  ∧ _colormap (resources created) = wa_colormap (cw_attributes arguments)
  ∧ (cw_x arguments, cw_y arguments)
    = default (0, 0) (wp_origin (_properties (window o)))
  ∧ (cw_width arguments, cw_height arguments)
    = default (100, 100) (wp_size (_properties (window o)))
  ∧ ∃ colormaps,
      display_calls created
      = display_calls o ++ colormaps ++ [XCreateWindow arguments]
      ∧ Forall (λ c, is_create_colormap c = true) colormaps.
Proof.
  intros glxgsg chosen arguments created.
  destruct (choose_gsg_window o) as (Hw1 & Hr1 & Hc1).
  destruct (default_geometry_window (choose_gsg o).2) as (Hw2 & Hr2 & Hc2).
  destruct (choose_colormap_calls glxgsg visual_info
              (default_geometry (choose_gsg o).2))
    as (Hw3 & Hfb3 & _ & colormaps & Hc3 & Hcolormaps & _).
  fold chosen in Hw3, Hfb3, Hc3. subst created arguments.
  unfold create_window.
  cbn [window resources display_calls with_window display_call
       with_event_mask _fb_properties _colormap].
  unfold create_window_arguments.
  cbn [window resources display_calls with_window display_call
       with_event_mask _fb_properties _colormap cw_x cw_y cw_width
       cw_height cw_attributes wa_colormap].
  rewrite Hw3, Hw2, Hw1, Hfb3, Hr2, Hr1, Hc3, Hc2, Hc1.
  repeat split.
  - cbn. by destruct (wp_origin (_properties (window o))) as [[x y] |].
  - cbn. by destruct (wp_size (_properties (window o))) as [[x y] |].
  - exists colormaps. by rewrite <- app_assoc.
Qed.

(** X28.  How [open_window] ends, for a window that has no native
    window yet and a base class that leaves the handles alone.  When it
    returns true the native window exists, the window holds the chosen
    guardian (the one it had, if that one's frame-buffer properties
    subsume those asked for), the guardian is valid, the frame-buffer
    properties are those the guardian reports and the property model has
    an origin and a size.  When it returns false there is no native
    window, whichever step failed, and the window was never mapped. *)
Theorem open_window_outcome (dev_input : nat → DeviceNode) (o : Opening) :
  base_close_keeps_handles →
  _xwindow (window o) = 0 →
  let r := open_window dev_input o in
  (r.1 = true →
     _xwindow (window r.2) ≠ 0
     ∧ _gsg (window r.2) = Some (choose_gsg o).1
     ∧ (∀ old, _gsg (window o) = Some old →
          subsumes (get_fb_properties old) (_fb_properties (resources o))
          = true →
          _gsg (window r.2) = Some old)
     ∧ is_valid (choose_gsg o).1 = true
     ∧ _fb_properties (resources r.2)
       = get_fb_properties_after_reset (choose_gsg o).1
     ∧ WP.has_origin (_properties (window r.2)) = true
     ∧ WP.has_size (_properties (window r.2)) = true)
  ∧ (r.1 = false →
     _xwindow (window r.2) = 0
     ∧ Forall (λ c, is_map_window c = false) (calls_since o r.2)).
Proof.
  intros Hkeep Hclosed r. subst r.
  destruct (open_window dev_input o) as [[|] o'] eqn:Hopen; cbn [fst snd];
    (split; [intros Hresult | intros Hresult]); try done; clear Hresult.
  - apply open_window_true in Hopen
      as (glx_pipe & visual_info & Hpipe & Hvisual & Hcreated & Hvalid & ->).
    destruct (created_window (pipe_root glx_pipe) visual_info o)
      as (Hwindow & _).
    destruct (prepare_window_calls glx_pipe (choose_gsg o).1
                (create_window (pipe_root glx_pipe) visual_info
                   (choose_colormap (choose_gsg o).1 visual_info
                      (default_geometry (choose_gsg o).2))))
      as (_ & _ & Hxw & Hgsg & Hprops & _).
    destruct (show_window_calls dev_input (choose_gsg o).1
                (prepare_window glx_pipe (choose_gsg o).1
                   (create_window (pipe_root glx_pipe) visual_info
                      (choose_colormap (choose_gsg o).1 visual_info
                         (default_geometry (choose_gsg o).2)))))
      as (_ & Hfb & Hxw' & Hgsg' & Hprops' & _ & _).
    rewrite Hxw', Hxw, Hgsg', Hgsg, Hprops', Hprops, Hfb, Hwindow.
    rewrite Hwindow in Hcreated. cbn in Hcreated |- *.
    repeat split; try done.
    intros old Hold Hsubsumes. unfold choose_gsg.
    by rewrite Hold, Hsubsumes.
  - apply open_window_false in Hopen
      as [-> | [-> | (glx_pipe & visual_info & [[Hzero ->] | ->])]].
    + split; [done |]. unfold calls_since. by rewrite drop_all.
    + unfold calls_since. destruct (choose_gsg_window o) as (-> & _ & ->).
      split; [done |]. by rewrite drop_all.
    + split; [done |]. unfold calls_since.
      destruct (created_window (pipe_root glx_pipe) visual_info o)
        as (_ & _ & _ & _ & _ & colormaps & -> & Hcolormaps).
      rewrite drop_app_length.
      apply Forall_app. split; [| by repeat constructor].
      eapply Forall_impl; [exact Hcolormaps |]. by intros [].
    + unfold calls_since.
      destruct (through_close_window
                  (prepare_window glx_pipe (choose_gsg o).1
                     (create_window (pipe_root glx_pipe) visual_info
                        (choose_colormap (choose_gsg o).1 visual_info
                           (default_geometry (choose_gsg o).2)))) Hkeep)
        as (Hxw & _ & _ & requests & ->).
      split; [done |].
      destruct (prepare_window_calls glx_pipe (choose_gsg o).1
                  (create_window (pipe_root glx_pipe) visual_info
                     (choose_colormap (choose_gsg o).1 visual_info
                        (default_geometry (choose_gsg o).2))))
        as (-> & _).
      destruct (created_window (pipe_root glx_pipe) visual_info o)
        as (_ & _ & _ & _ & _ & colormaps & -> & Hcolormaps).
      rewrite <- !app_assoc, drop_app_length.
      repeat (apply Forall_app; split);
        try (apply Forall_fmap, Forall_true; done);
        try (by repeat constructor).
      * eapply Forall_impl; [exact Hcolormaps |]. by intros [].
      * by destruct (negb (get_im glx_pipe =? 0)); repeat constructor.
      * by destruct (WP.get_cursor_hidden _); repeat constructor.
Qed.

Ltac harmless_calls :=
  repeat first
    [ apply Forall_nil_2
    | apply Forall_cons; split;
      [split; [reflexivity | intros ? [=]; by subst] |] ].

(** X29.  The window is mapped last: when [open_window] returns true,
    the XMapWindow of the new window is the last thing it asks of the
    display.  By then the delete-window protocol has been registered
    for the window and the context has been made current on it; no
    client message and no geometry request has been sent. *)
Theorem window_is_mapped_last (dev_input : nat → DeviceNode)
    (o o' : Opening) :
  open_window dev_input o = (true, o') →
  let w := _xwindow (window o') in
  ∃ before,
    calls_since o o' = before ++ [XMapWindow w]
    ∧ Request (XSetWMProtocols w [_wm_delete_window (_atoms (window o))])
      ∈ before
    ∧ Request (glXMakeCurrent w (Some (gsg_context (choose_gsg o).1)))
      ∈ before
    ∧ Forall (λ c, is_map_window c = false
                   ∧ ∀ r, c = Request r →
                          is_send_event r = false
                          ∧ is_geometry_request r = false)
             before.
Proof.
  intros Hopen w. subst w.
  apply open_window_true in Hopen
    as (glx_pipe & visual_info & Hpipe & Hvisual & Hcreated & Hvalid & ->).
  destruct (created_window (pipe_root glx_pipe) visual_info o)
    as (Hwindow & _ & _ & _ & _ & colormaps & Hcalls & Hcolormaps).
  destruct (prepare_window_calls glx_pipe (choose_gsg o).1
              (create_window (pipe_root glx_pipe) visual_info
                 (choose_colormap (choose_gsg o).1 visual_info
                    (default_geometry (choose_gsg o).2))))
    as (Hcalls' & _ & Hxw & _).
  destruct (show_window_calls dev_input (choose_gsg o).1
              (prepare_window glx_pipe (choose_gsg o).1
                 (create_window (pipe_root glx_pipe) visual_info
                    (choose_colormap (choose_gsg o).1 visual_info
                       (default_geometry (choose_gsg o).2)))))
    as (Hcalls'' & _ & Hxw' & _).
  unfold calls_since. rewrite Hxw', Hcalls'', Hcalls', Hxw, Hcalls.
  rewrite Hwindow. unfold wm_requests.
  destruct (wm_hint_data _ _) as [[type_data state_data] set_data].
  cbn [Win.with_xwindow Win.with_properties Win.with_gsg _xwindow _atoms
       _properties].
  rewrite <- !app_assoc, drop_app_length.
  eexists. split; [by rewrite !app_assoc |].
  split; [| split].
  - rewrite !elem_of_app. left. left. left. right. cbn. list_membership.
  - rewrite !elem_of_app. right. list_membership.
  - repeat (apply Forall_app; split).
    + eapply Forall_impl; [exact Hcolormaps |]. by intros [].
    + harmless_calls.
    + cbn. harmless_calls.
    + destruct (negb (get_im glx_pipe =? 0)); harmless_calls.
    + match goal with
      | |- context [if ?c then _ else _] => destruct c
      end; harmless_calls.
    + harmless_calls.
Qed.

(** X30.  The one window [open_window] creates: when it returns true it
    has called XCreateWindow once, the handle of the window is what
    that call returned, the parent is the root window of the pipe, the
    border width is 0, and the position and the size asked for are the
    origin and the size of the property model, (0, 0) and 100 by 100
    where the model had none; the model holds them afterwards.  The
    events selected are the button, key, crossing, motion, focus and
    structure events, and the colormap is the one [setup_colormap]
    left. *)
Theorem window_creation_arguments (dev_input : nat → DeviceNode)
    (o o' : Opening) :
  open_window dev_input o = (true, o') →
  ∃ glx_pipe arguments,
    _pipe (window o) = Some glx_pipe
    ∧ List.filter is_create_window (calls_since o o')
      = [XCreateWindow arguments]
    ∧ _xwindow (window o') = XCreateWindow_result arguments
    ∧ cw_parent arguments = pipe_root glx_pipe
    ∧ cw_border_width arguments = 0
    ∧ (cw_x arguments, cw_y arguments)
      = default (0, 0) (wp_origin (_properties (window o)))
    ∧ (cw_width arguments, cw_height arguments)
      = default (100, 100) (wp_size (_properties (window o)))
    ∧ wp_origin (_properties (window o'))
      = Some (cw_x arguments, cw_y arguments)
    ∧ wp_size (_properties (window o'))
      = Some (cw_width arguments, cw_height arguments)
    ∧ wa_event_mask (cw_attributes arguments) = 0x22007f
    ∧ wa_colormap (cw_attributes arguments) = _colormap (resources o').
Proof.
  intros Hopen.
  apply open_window_true in Hopen
    as (glx_pipe & visual_info & Hpipe & Hvisual & Hcreated & Hvalid & ->).
  destruct (created_window (pipe_root glx_pipe) visual_info o)
    as (Hwindow & _ & Hcolormap & Horigin & Hsize & colormaps & Hcalls
        & Hcolormaps).
  destruct (prepare_window_calls glx_pipe (choose_gsg o).1
              (create_window (pipe_root glx_pipe) visual_info
                 (choose_colormap (choose_gsg o).1 visual_info
                    (default_geometry (choose_gsg o).2))))
    as (Hcalls' & Hres & Hxw & _ & Hprops & _).
  destruct (show_window_calls dev_input (choose_gsg o).1
              (prepare_window glx_pipe (choose_gsg o).1
                 (create_window (pipe_root glx_pipe) visual_info
                    (choose_colormap (choose_gsg o).1 visual_info
                       (default_geometry (choose_gsg o).2)))))
    as (Hcalls'' & _ & Hxw' & _ & Hprops' & _ & Hcolormap').
  exists glx_pipe. eexists. split; [done |].
  unfold calls_since.
  rewrite Hxw', Hprops', Hcolormap', Hcalls'', Hcalls', Hxw, Hprops, Hres,
    Hcalls, Hcolormap, Hwindow.
  rewrite <- Horigin, <- Hsize.
  rewrite <- !app_assoc, drop_app_length.
  split; [| by repeat split].
  rewrite !List.filter_app.
  assert (Hnone : List.filter is_create_window colormaps = []).
  { clear -Hcolormaps. induction Hcolormaps as [| c l Hc _ IH]; [done |].
    cbn. rewrite IH. by destruct c. }
  rewrite Hnone. cbn [app List.filter is_create_window].
  assert (Hrequests : ∀ rs,
            List.filter is_create_window (Request <$> rs) = []).
  { intros rs. induction rs as [| r rs IH]; [done |]. done. }
  rewrite Hrequests.
  repeat match goal with
         | |- context [if ?c then _ else _] => destruct c
         end; done.
Qed.

End Opening.

(** * The properties above on the samples *)

#[local] Existing Instance Scenario.collaborators.

Lemma read_loop_until_would_block_witness :
  read_all 5 [] [Read_bytes [Byte.x01]; Read_bytes [Byte.x02; Byte.x03]]
  = (5, [Byte.x01; Byte.x02; Byte.x03], []).
Proof.
  exact (proj1 (read_loop_until_would_block 5 []
                  [[Byte.x01]; [Byte.x02; Byte.x03]]
                  ltac:(by repeat constructor))).
Defined.

(** Sixteen bytes are buffered; the descriptor answers four bytes, then
    seven, then would block.  The first 24 bytes are one record (REL_X,
    5); the three bytes behind it stay in the buffer. *)
Lemma raw_records_consumed_whole_witness :
  let inf :=
    {| _fd := 5; _input_device_index := 1;
       _io_buffer := replicate 16 Byte.x00 |} in
  let chunks :=
    [[Byte.x02; Byte.x00; Byte.x00; Byte.x00];
     [Byte.x05; Byte.x00; Byte.x00; Byte.x00;
      Byte.x01; Byte.x02; Byte.x03]] in
  let raw : RawInput :=
    {[ 5 := (Read_bytes <$> chunks) ++ [Read_error EAGAIN] ]} in
  let r := poll_raw_mouse inf (_input_devices Sample.window) raw in
  _io_buffer r.1.1 = [Byte.x01; Byte.x02; Byte.x03]
  ∧ dev_pointer <$> r.1.2 !! 1%nat
    = Some {| md_in_window := true; md_x := 5; md_y := 0 |}.
Proof.
  intros inf chunks raw r.
  destruct (raw_records_consumed_whole (platform := Sample.platform)
              inf (_input_devices Sample.window) raw chunks
              [Read_error EAGAIN]
              [replicate 16 Byte.x00
               ++ [Byte.x02; Byte.x00; Byte.x00; Byte.x00;
                   Byte.x05; Byte.x00; Byte.x00; Byte.x00]]
              [Byte.x01; Byte.x02; Byte.x03]
              (Device.pointer_and_keyboard "raw")
              ltac:(done) eq_refl ltac:(by repeat constructor)
              ltac:(by intros bytes [=]) eq_refl
              ltac:(by repeat constructor) ltac:(cbn; lia) eq_refl)
    as (Hbuffer & Hdevices & _).
  split; [exact Hbuffer |].
  fold r in Hdevices. rewrite Hdevices. reflexivity.
Defined.


Lemma failed_device_is_never_read_again_witness :
  let inf := {| _fd := 5; _input_device_index := 1; _io_buffer := [] |} in
  _fd (poll_raw_mouse inf (_input_devices Sample.window)
         {[ 5 := [Read_error 5] ]}).1.1 = -1.
Proof.
  intros inf.
  apply (failed_device_is_never_read_again inf
           (_input_devices Sample.window) {[ 5 := [Read_error 5] ]} 5 []);
    [cbn; lia | reflexivity | unfold EAGAIN; lia | unfold EWOULDBLOCK; lia].
Defined.


Lemma key_without_button_still_types_witness :
  let s := Win.with_ic 1 Sample.window in
  primary_events
    (loop_body (s, None) (Sample.ev (KeyPress (Sample.key 5 100)))).1
  = [Keystroke 5]
  ∧ primary_events
      (loop_exit
         (loop_body (s, None) (Sample.ev (KeyRelease (Sample.key 5 101)))))
    = [].
Proof.
  intros s.
  exact (key_without_button_still_types (platform := Sample.platform)
           (base := Sample.bare_base) s
           (Sample.ev (KeyPress (Sample.key 5 100)))
           (Sample.ev (KeyRelease (Sample.key 5 101)))
           (Sample.key 5 100) (Sample.key 5 101)
           eq_refl eq_refl eq_refl eq_refl eq_refl eq_refl
           ltac:(discriminate)).
Defined.

Lemma move_pointer_follows_events_witness :
  let s' := (loop_body (Sample.window, None) (Sample.ev LeaveNotify)).1 in
  move_pointer 0 7 8 s' = (false, s').
Proof.
  intros s'.
  apply (proj1 (move_pointer_follows_events (platform := Sample.platform)
                  (base := Sample.bare_base) Sample.window None
                  (Sample.ev LeaveNotify) 7 8 eq_refl)).
  by left.
Defined.

Lemma process_events_takes_own_events_witness :
  let other := {| xany_window := 43; xevent := MapNotify |} in
  events_taken Sample.window [other; Sample.ev FocusIn; other] ∅
  = [Sample.ev FocusIn]
  ∧ (process_events Sample.window [other; Sample.ev FocusIn; other] ∅).1.2
    = [other; other].
Proof.
  intros other.
  apply (process_events_takes_own_events (platform := Sample.platform)
           (base := Sample.bare_base) Sample.window
           [other; Sample.ev FocusIn; other] ∅ ltac:(cbn; lia)
           ltac:(by repeat constructor)).
Defined.


Lemma process_events_idle_witness :
  let other := {| xany_window := 43; xevent := MapNotify |} in
  process_events Sample.window [other] ∅ = (Sample.window, [other], ∅).
Proof.
  intros other.
  apply (process_events_idle (platform := Sample.platform)
           (base := Sample.bare_base) Sample.window [other] ∅);
    repeat constructor; cbn; lia.
Defined.

Lemma wm_properties_requests_witness :
  let properties := WP.set_fullscreen true (_properties Sample.window) in
  List.filter is_send_event
    (requests_since Sample.window
       (set_wm_properties properties true Sample.window))
  = [XSendEvent 1
       {| cm_window := 42; cm_message_type := 304; cm_format := 32;
          cm_l0 := 308; cm_l1 := 305; cm_l2 := 0; cm_l3 := 1 |}].
Proof.
  intros properties.
  apply (proj2 (wm_properties_requests properties true Sample.window
                  Sample.pipe eq_refl)).
Defined.

Lemma set_properties_now_takes_witness :
  let request :=
    WP.set_title "panda" (WP.set_undecorated true
                            (WP.set_origin 5 6 WP.empty)) in
  (set_properties_now request Sample.window).2
  = WP.set_undecorated true WP.empty
  ∧ wp_title (_properties (set_properties_now request Sample.window).1)
    = Some "panda"%string
  ∧ wp_origin (_properties (set_properties_now request Sample.window).1)
    = Some (10, 20).
Proof.
  intros request.
  destruct (set_properties_now_takes (base := Sample.bare_base) request
              Sample.window Sample.pipe Sample.window
              (fullscreen_implies Sample.pipe request) eq_refl eq_refl)
    as [-> ->].
  by vm_compute.
Defined.

Lemma set_properties_now_request_order_witness :
  let request := WP.set_cursor_hidden true (WP.set_origin 5 6 WP.empty) in
  take 2 (requests_since Sample.window
            (set_properties_now request Sample.window).1)
  = [XReconfigureWMWindow 42 0 3
       {| changes_x := Some 5; changes_y := Some 6; changes_width := None;
          changes_height := None; changes_stack_mode := None |};
     XDefineCursor 42 9].
Proof.
  intros request.
  destruct (set_properties_now_request_order (base := Sample.bare_base)
              request Sample.window Sample.pipe Sample.window
              (fullscreen_implies Sample.pipe request)
              eq_refl eq_refl eq_refl)
    as [-> _].
  by vm_compute.
Defined.

Lemma fullscreen_request_witness :
  let request := WP.set_fullscreen true WP.empty in
  _awaiting_configure (set_properties_now request Sample.window).1 = true
  ∧ wp_fullscreen (_properties (set_properties_now request Sample.window).1)
    = Some true
  ∧ wp_undecorated (set_properties_now request Sample.window).2 = Some true.
Proof.
  intros request.
  exact (proj2 (fullscreen_request request Sample.window Sample.pipe
                  Sample.window eq_refl eq_refl eq_refl)).
Defined.

Lemma frames_wait_for_configure_witness :
  let request := WP.set_size 640 480 WP.empty in
  let s' := (set_properties_now request Sample.window).1 in
  begin_frame FM_render
    {| current_display_is_ours := true; current_drawable := 42;
       current_context := 77 |} true s'
  = (false, s', []).
Proof.
  intros request s'.
  apply (proj1 (frames_wait_for_configure (platform := Sample.platform)
                  (base := Sample.bare_base) request Sample.window
                  Sample.pipe Sample.window
                  (fullscreen_implies Sample.pipe request)
                  eq_refl eq_refl eq_refl)).
Defined.

Lemma make_current_is_not_repeated_witness :
  let nothing := {| current_display_is_ours := false; current_drawable := 0;
                    current_context := 0 |} in
  let s' := (begin_frame FM_render nothing true Sample.window).1.2 in
  (length (requests_since Sample.window s') ≤ 1)%nat.
Proof.
  intros nothing s'.
  exact (proj1 (make_current_is_not_repeated FM_render FM_render nothing
                  true true Sample.window {| gsg_context := 77 |}
                  eq_refl eq_refl)).
Defined.

Lemma closed_window_is_not_drawn_witness :
  begin_flip (close_window Sample.window) = [].
Proof.
  exact (proj2 (closed_window_is_not_drawn Sample.window FM_render
                  {| current_display_is_ours := true; current_drawable := 42;
                     current_context := 77 |} true
                  bare_base_close_keeps_handles)).
Defined.

Lemma raw_mice_accepted_witness :
  dev_name <$> _input_devices
                 (scan_window
                    (open_raw_mice Scenario.dev_input Sample.window))
  = ["keyboard/mouse"; "raw";
     "USB_Optical_Mouse.usb_0000_00_14_0_2_input0"]%string.
Proof.
  rewrite (proj1 (raw_mice_accepted (platform := Sample.platform)
                    Scenario.dev_input Sample.window eq_refl)).
  by vm_compute.
Defined.

Lemma raw_slots_stay_valid_witness :
  raw_slots_valid
    (scan_window (open_raw_mice Scenario.dev_input Sample.window)).
Proof.
  apply (raw_slots_stay_valid Scenario.dev_input Sample.window);
    [repeat constructor; cbn; lia | discriminate].
Defined.

Lemma raw_mice_descriptors_accounted_witness :
  let r := open_raw_mice Scenario.dev_input Sample.window in
  [3; 4] ≡ₚ scan_closed r
            ++ (_fd <$> drop 1 (_mouse_device_info (scan_window r))).
Proof.
  intros r.
  exact (raw_mice_descriptors_accounted Scenario.dev_input Sample.window
           eq_refl).
Defined.

Lemma raw_mice_scan_stops_witness :
  open_raw_mice Scenario.dev_input_with_tablet Sample.window
  = open_raw_mice Scenario.dev_input Sample.window.
Proof.
  apply (raw_mice_scan_stops Scenario.dev_input
           Scenario.dev_input_with_tablet 2 Sample.window);
    [lia | reflexivity |].
  intros [| [| [| i]]] Hi; [reflexivity | reflexivity | reflexivity | lia].
Defined.

Lemma colormap_choice_witness :
  setup_colormap_fbconfig 7 Scenario.unopened
  = setup_colormap_visual Scenario.true_color Scenario.unopened.
Proof.
  exact (proj1 (colormap_choice 7 Scenario.true_color Scenario.unopened
                  Sample.pipe eq_refl eq_refl eq_refl)).
Defined.

Lemma open_window_outcome_witness :
  let r := open_window Scenario.dev_input Scenario.unopened in
  _xwindow (window r.2) ≠ 0
  ∧ _gsg (window r.2) = Some {| gsg_context := 78 |}.
Proof.
  intros r.
  destruct (proj1 (open_window_outcome Scenario.dev_input Scenario.unopened
                     bare_base_close_keeps_handles eq_refl) eq_refl)
    as (Hwindow & Hgsg & _).
  split; [exact Hwindow | exact Hgsg].
Defined.

Lemma window_is_mapped_last_witness :
  let o' := (open_window Scenario.dev_input Scenario.unopened).2 in
  ∃ before,
    calls_since Scenario.unopened o' = before ++ [XMapWindow 42]
    ∧ Request (XSetWMProtocols 42 [300]) ∈ before.
Proof.
  intros o'.
  destruct (window_is_mapped_last Scenario.dev_input Scenario.unopened o'
              eq_refl) as (before & Hcalls & Hprotocols & _).
  exists before. split; [exact Hcalls | exact Hprotocols].
Defined.

Lemma window_creation_arguments_witness :
  let o' := (open_window Scenario.dev_input Scenario.unopened).2 in
  ∃ arguments,
    List.filter is_create_window (calls_since Scenario.unopened o')
    = [XCreateWindow arguments]
    ∧ (cw_x arguments, cw_y arguments) = (10, 20)
    ∧ (cw_width arguments, cw_height arguments) = (800, 600).
Proof.
  intros o'.
  destruct (window_creation_arguments Scenario.dev_input Scenario.unopened
              o' eq_refl)
    as (glx_pipe & arguments & _ & Hcalls & _ & _ & _ & Horigin & Hsize & _).
  exists arguments. split; [exact Hcalls |]. split; [exact Horigin |].
  exact Hsize.
Defined.
